(** * Future-world storefront backend (server.js): a shallow embedding

    The Express handlers of [server.js] are embedded as pure functions over
    the in-memory [users] array.  JavaScript values are the JSON values the
    body parsers produce, numbers are IEEE 754 binary64 values (the
    [spec_float] model of the standard library at precision 53), and the two
    external services the handlers talk to -- the payment gateway and the
    file system -- appear as oracle arguments and as a trace of effects. *)

From Stdlib Require Import ZArith List Bool Ascii String Lia.
From Stdlib Require Import Floats.SpecFloat.
From stdpp Require Import base option list strings.

Import ListNotations.
Open Scope string_scope.
Open Scope list_scope.
Open Scope Z_scope.

(** ** Node's [crypto] module: HMAC-SHA256 with a hex digest

    [crypto.createHmac('sha256', key).update(data).digest('hex')], following
    FIPS 180-4 and RFC 2104.  Words are integers reduced modulo [2^32]. *)
Module NodeCrypto.

Definition w32 (x : Z) : Z := x mod 4294967296.
Definition add32 (x y : Z) : Z := w32 (x + y).
Definition rotr (n x : Z) : Z := Z.lor (Z.shiftr x n) (w32 (Z.shiftl x (32 - n))).
Definition not32 (x : Z) : Z := Z.lxor x 4294967295.

Definition Ch (x y z : Z) : Z := Z.lxor (Z.land x y) (Z.land (not32 x) z).
Definition Maj (x y z : Z) : Z :=
  Z.lxor (Z.lxor (Z.land x y) (Z.land x z)) (Z.land y z).
Definition Sigma0 (x : Z) : Z := Z.lxor (Z.lxor (rotr 2 x) (rotr 13 x)) (rotr 22 x).
Definition Sigma1 (x : Z) : Z := Z.lxor (Z.lxor (rotr 6 x) (rotr 11 x)) (rotr 25 x).
Definition sigma0 (x : Z) : Z := Z.lxor (Z.lxor (rotr 7 x) (rotr 18 x)) (Z.shiftr x 3).
Definition sigma1 (x : Z) : Z := Z.lxor (Z.lxor (rotr 17 x) (rotr 19 x)) (Z.shiftr x 10).

(** The constants of FIPS 180-4: the first 32 bits of the fractional parts
    of the cube roots ([K]) and of the square roots ([H0]) of the first
    primes.  [floor_root k n] is the largest [r] with [r ^ k <= n], found
    bit by bit from [2 ^ 40] down. *)
Fixpoint root_from (bit : nat) (k n r : Z) : Z :=
  match bit with
  | O => r
  | S b =>
      let r' := r + 2 ^ Z.of_nat b in
      root_from b k n (if r' ^ k <=? n then r' else r)
  end.

Definition floor_root (k n : Z) : Z := root_from 41 k n 0.

Definition is_prime (n : Z) : bool :=
  forallb (fun d => negb (n mod d =? 0))
          (List.map Z.of_nat (List.seq 2 (Z.to_nat (Z.sqrt n) - 1))).

Definition primes (count : nat) : list Z :=
  firstn count (List.filter is_prime (List.map Z.of_nat (List.seq 2 310))).

Definition fraction_bits (k p : Z) : Z := w32 (floor_root k (p * 2 ^ (32 * k))).

Definition K : list Z := Eval vm_compute in List.map (fraction_bits 3) (primes 64).

Definition H0 : list Z := Eval vm_compute in List.map (fraction_bits 2) (primes 8).

(** Big-endian encoding of [x] on [n] bytes. *)
Fixpoint be_bytes (n : nat) (x : Z) : list Z :=
  match n with
  | O => []
  | S k => Z.shiftr x (8 * Z.of_nat k) mod 256 :: be_bytes k x
  end.

Definition be_word (bs : list Z) : Z :=
  fold_left (fun acc b => acc * 256 + b) bs 0.

(** Message padding: a [1] bit, zeros up to 56 modulo 64 bytes, then the
    bit length on 8 bytes. *)
Definition pad (msg : list Z) : list Z :=
  let len := Z.of_nat (length msg) in
  let zeros := Z.to_nat ((55 - len) mod 64) in
  msg ++ 128 :: repeat 0 zeros ++ be_bytes 8 (8 * len).

Fixpoint chunks (fuel n : nat) (l : list Z) : list (list Z) :=
  match fuel, l with
  | O, _ | _, [] => []
  | S f, _ => firstn n l :: chunks f n (skipn n l)
  end.

(** The message schedule, most recent word first. *)
Fixpoint schedule (n : nat) (rev_w : list Z) : list Z :=
  match n with
  | O => rev_w
  | S k =>
      let w := add32 (add32 (sigma1 (nth 1 rev_w 0)) (nth 6 rev_w 0))
                     (add32 (sigma0 (nth 14 rev_w 0)) (nth 15 rev_w 0)) in
      schedule k (w :: rev_w)
  end.

Definition round (st : list Z) (kw : Z * Z) : list Z :=
  match st with
  | [a; b; c; d; e; f; g; h] =>
      let t1 := add32 (add32 (add32 h (Sigma1 e)) (add32 (Ch e f g) (fst kw))) (snd kw) in
      let t2 := add32 (Sigma0 a) (Maj a b c) in
      [add32 t1 t2; a; b; c; add32 d t1; e; f; g]
  | _ => st
  end.

Definition compress (h : list Z) (block : list Z) : list Z :=
  let w16 := map be_word (chunks 16 4 block) in
  let w := rev (schedule 48 (rev w16)) in
  let st := fold_left round (combine K w) h in
  map (fun p => add32 (fst p) (snd p)) (combine h st).

Definition sha256 (msg : list Z) : list Z :=
  let padded := pad msg in
  let h := fold_left compress (chunks (length padded) 64 padded) H0 in
  flat_map (be_bytes 4) h.

Definition hmac_sha256 (key msg : list Z) : list Z :=
  let k0 := if (64 <? Z.of_nat (length key)) then sha256 key else key in
  let k := k0 ++ repeat 0 (64 - length k0)%nat in
  let ipad := map (Z.lxor 0x36) k in
  let opad := map (Z.lxor 0x5c) k in
  sha256 (opad ++ sha256 (ipad ++ msg)).

(** Strings are sequences of code units below 256; [update] and the key
    are encoded in UTF-8. *)
Definition utf8_unit (c : ascii) : list Z :=
  let n := Z.of_N (N_of_ascii c) in
  if n <? 128 then [n] else [Z.lor 192 (Z.shiftr n 6); Z.lor 128 (Z.land n 63)].

Definition utf8 (s : string) : list Z := flat_map utf8_unit (list_ascii_of_string s).

Definition hex_digit (n : Z) : ascii :=
  ascii_of_N (Z.to_N (if n <? 10 then 48 + n else 87 + n)).

Fixpoint hex (bs : list Z) : string :=
  match bs with
  | [] => EmptyString
  | b :: r => String (hex_digit (b / 16)) (String (hex_digit (b mod 16)) (hex r))
  end.

Definition hmac_sha256_hex (key data : string) : string :=
  hex (hmac_sha256 (utf8 key) (utf8 data)).

End NodeCrypto.

(** ** JavaScript numbers: IEEE 754 binary64 *)

Abbreviation number := spec_float.

Definition prec : Z := 53.
Definition emax : Z := 1024.

(** The number denoted by an integer literal. *)
Definition num (z : Z) : number := binary_normalize prec emax z 0 false.

Definition NaN : number := S754_nan.
Definition isNaN (x : number) : bool :=
  match x with S754_nan => true | _ => false end.

(** The operators [+], [-], [*], [/], [<] and [<=] on numbers. *)
Definition js_add (x y : number) : number := SFadd prec emax x y.
Definition js_sub (x y : number) : number := SFsub prec emax x y.
Definition js_mul (x y : number) : number := SFmul prec emax x y.
Definition js_div (x y : number) : number := SFdiv prec emax x y.
Definition js_lt (x y : number) : bool := SFltb x y.
Definition js_le (x y : number) : bool := SFleb x y.

(** A number in the canonical form of its binary64 encoding. *)
Definition valid (x : number) : bool := valid_binary prec emax x.

(** A finite number, zero included. *)
Definition finite (x : number) : bool :=
  match x with
  | S754_zero _ | S754_finite _ _ _ => true
  | _ => false
  end.

(** [Math.round]: the integer closest to [x], a tie going towards
    [+Infinity]; integers, infinities and [NaN] are returned unchanged and a
    negative argument that rounds to zero gives [-0].  [round_half_up s m e]
    is [floor (x + 1/2)] for [x = (-1)^s * m * 2^e] with [e < 0]. *)
Definition round_half_up (s : bool) (m : positive) (e : Z) : Z :=
  (2 * cond_Zopp s (Zpos m) + 2 ^ (- e)) / 2 ^ (- e + 1).

Definition Math_round (x : number) : number :=
  match x with
  | S754_finite s m e =>
      if 0 <=? e then x
      else binary_normalize prec emax (round_half_up s m e) 0 s
  | _ => x
  end.

(** ** The engine's conversions between strings and numbers

    [StringToNumber] and [Number::toString] of ECMAScript, on strings of
    code units below 256. *)
Module ECMAScript.

Definition code (c : ascii) : Z := Z.of_N (N_of_ascii c).

(** The number nearest to [(-1)^s * m * 10^e], ties to even. *)
Definition decimal (s : bool) (m : Z) (e : Z) : number :=
  match m with
  | Zpos p =>
      if 0 <=? e then binary_round prec emax s (p * Z.to_pos (10 ^ e)) 0
      else
        let '(q, e', l) := SFdiv_core_binary prec emax (Zpos p) 0 (10 ^ (- e)) 0 in
        binary_round_aux prec emax s q e' l
  | _ => S754_zero s
  end.

(** StrWhiteSpaceChar: TAB, LF, VT, FF, CR, SP and NBSP. *)
Definition white_space (c : ascii) : bool :=
  let n := code c in
  ((9 <=? n) && (n <=? 13)) || (n =? 32) || (n =? 160).

Fixpoint trim_left (l : list ascii) : list ascii :=
  match l with
  | c :: r => if white_space c then trim_left r else l
  | [] => []
  end.

Definition trim (l : list ascii) : list ascii :=
  rev (trim_left (rev (trim_left l))).

(** The value of a digit in a radix up to 16. *)
Definition digit_value (radix : Z) (c : ascii) : option Z :=
  let n := code c in
  let v := if (48 <=? n) && (n <=? 57) then n - 48
           else if (97 <=? n) && (n <=? 102) then n - 87
           else if (65 <=? n) && (n <=? 70) then n - 55
           else 16 in
  if v <? radix then Some v else None.

(** The longest run of digits at the head of [l]: its value after [acc],
    its length and what follows. *)
Fixpoint digits (radix : Z) (l : list ascii) (acc count : Z) : Z * Z * list ascii :=
  match l with
  | c :: r =>
      match digit_value radix c with
      | Some v => digits radix r (acc * radix + v) (count + 1)
      | None => (acc, count, l)
      end
  | [] => (acc, count, [])
  end.

(** ExponentPart, or nothing, up to the end of the string. *)
Definition exponent_part (l : list ascii) : option Z :=
  match l with
  | [] => Some 0
  | c :: r =>
      if (code c =? 101) || (code c =? 69) then
        let '(neg, r) :=
          match r with
          | s :: r' =>
              if code s =? 43 then (false, r')
              else if code s =? 45 then (true, r')
              else (false, r)
          | [] => (false, r)
          end in
        match digits 10 r 0 0 with
        | (v, n, []) => if 0 <? n then Some (if neg then - v else v) else None
        | _ => None
        end
      else None
  end.

(** StrUnsignedDecimalLiteral. *)
Definition unsigned_decimal (s : bool) (l : list ascii) : number :=
  if String.eqb (string_of_list_ascii l) "Infinity" then S754_infinity s
  else
    let '(i, ni, r) := digits 10 l 0 0 in
    let '(m, nf, r) :=
      match r with
      | c :: r' => if code c =? 46 then digits 10 r' i 0 else (i, 0, r)
      | [] => (i, 0, r)
      end in
    if 0 <? ni + nf then
      match exponent_part r with
      | Some e => decimal s m (e - nf)
      | None => S754_nan
      end
    else S754_nan.

(** NonDecimalIntegerLiteral: [0x], [0o] or [0b] and digits. *)
Definition non_decimal (l : list ascii) : option number :=
  match l with
  | z :: p :: r =>
      let radix :=
        if code z =? 48 then
          if (code p =? 120) || (code p =? 88) then 16
          else if (code p =? 111) || (code p =? 79) then 8
          else if (code p =? 98) || (code p =? 66) then 2
          else 0
        else 0 in
      if radix =? 0 then None
      else
        match digits radix r 0 0 with
        | (v, n, []) => if 0 <? n then Some (decimal false v 0) else Some S754_nan
        | _ => Some S754_nan
        end
  | _ => None
  end.

Definition StringToNumber (str : string) : number :=
  match trim (list_ascii_of_string str) with
  | [] => S754_zero false
  | (c :: r) as l =>
      match non_decimal l with
      | Some x => x
      | None =>
          if code c =? 43 then unsigned_decimal false r
          else if code c =? 45 then unsigned_decimal true r
          else unsigned_decimal false l
      end
  end.

(** The decimal digits of a natural number. *)
Fixpoint decimal_digits (fuel : nat) (z : Z) (acc : list ascii) : list ascii :=
  match fuel with
  | O => acc
  | S f =>
      let acc := ascii_of_N (Z.to_N (48 + z mod 10)) :: acc in
      if z <? 10 then acc else decimal_digits f (z / 10) acc
  end.

Definition digits_of (z : Z) : list ascii :=
  decimal_digits (S (Z.to_nat (Z.log2 z))) z [].

(** The [n] with [10^(n-1) <= p / q < 10^n], searched from [n]. *)
Fixpoint magnitude (fuel : nat) (p q n : Z) : Z :=
  match fuel with
  | O => n
  | S f =>
      let '(lo, hi) :=
        if 0 <=? n then (q * 10 ^ n, 1) else (q, 10 ^ (- n)) in
      (* p / q < 10^n  iff  p * hi < lo *)
      if lo <=? p * hi then magnitude f p q (n + 1)
      else
        let '(lo', hi') :=
          if 0 <=? n - 1 then (q * 10 ^ (n - 1), 1) else (q, 10 ^ (1 - n)) in
        if p * hi' <? lo' then magnitude f p q (n - 1) else n
  end.

(** The shortest digits [s] ([k] of them) and exponent [n] with
    [s * 10^(n-k)] converting back to [x = p / q]. *)
Fixpoint shortest (fuel : nat) (x : number) (p q n0 k : Z) : Z * Z * Z :=
  let '(num, den) :=
    if 0 <=? n0 - k then (p, q * 10 ^ (n0 - k)) else (p * 10 ^ (k - n0), q) in
  let lo := num / den in
  let hi := lo + 1 in
  let ok_lo := SFeqb (decimal false lo (n0 - k)) x in
  let '(shi, nhi) := if hi <? 10 ^ k then (hi, n0) else (10 ^ (k - 1), n0 + 1) in
  let ok_hi := SFeqb (decimal false shi (nhi - k)) x in
  (* twice the distance of [x] to [lo] against the step *)
  let closer_lo :=
    match 2 * (num - lo * den) ?= den with
    | Lt => true
    | Eq => Z.even lo
    | Gt => false
    end in
  match fuel with
  | O => (lo, n0, k)
  | S f =>
      if ok_lo && (closer_lo || negb ok_hi) then (lo, n0, k)
      else if ok_hi then (shi, nhi, k)
      else shortest f x p q n0 (k + 1)
  end.

Definition zeros (n : Z) : list ascii := repeat "0"%char (Z.to_nat n).

Definition exponent_suffix (n : Z) : list ascii :=
  "e"%char :: (if 0 <=? n - 1 then "+"%char else "-"%char) :: digits_of (Z.abs (n - 1)).

Definition positive_to_string (x : number) (m : positive) (e : Z) : list ascii :=
  let p := if 0 <=? e then Zpos m * 2 ^ e else Zpos m in
  let q := if 0 <=? e then 1 else 2 ^ (- e) in
  let n0 := magnitude 700 p q 0 in
  let '(s, n, k) := shortest 17 x p q n0 1 in
  let ds := digits_of s in
  if (k <=? n) && (n <=? 21) then ds ++ zeros (n - k)
  else if (0 <? n) && (n <=? 21) then
    firstn (Z.to_nat n) ds ++ "."%char :: skipn (Z.to_nat n) ds
  else if (-6 <? n) && (n <=? 0) then
    "0"%char :: "."%char :: zeros (- n) ++ ds
  else if k =? 1 then ds ++ exponent_suffix n
  else firstn 1 ds ++ "."%char :: skipn 1 ds ++ exponent_suffix n.

Definition NumberToString (x : number) : string :=
  match x with
  | S754_nan => "NaN"
  | S754_zero _ => "0"
  | S754_infinity s => if s then "-Infinity" else "Infinity"
  | S754_finite s m e =>
      let body := positive_to_string (S754_finite false m e) m e in
      string_of_list_ascii (if s then "-"%char :: body else body)
  end.

End ECMAScript.

(** ** JavaScript values

    The values [express.json()] and [express.urlencoded()] put in
    [req.body], the gateway returns and [users.json] holds: JSON data, plus
    [undefined] for what is absent.  An object is the list of its own
    properties, each name once. *)
#[warnings="-register-all"]
Inductive JsVal : Type :=
  | JUndefined
  | JNull
  | JBool (b : bool)
  | JNum (x : number)
  | JStr (s : string)
  | JArr (elems : list JsVal)
  | JObj (props : list (string * JsVal)).

(** ToBoolean: what [!v], [v && _] and [v || _] test. *)
Definition truthy (v : JsVal) : bool :=
  match v with
  | JUndefined | JNull => false
  | JBool b => b
  | JNum x =>
      match x with
      | S754_zero _ | S754_nan => false
      | _ => true
      end
  | JStr s => negb (String.eqb s "")
  | JArr _ | JObj _ => true
  end.

Definition falsy (v : JsVal) : bool := negb (truthy v).

(** [a || b] on values. *)
Definition js_or (a b : JsVal) : JsVal := if truthy a then a else b.

(** [a === b] for two values that come from different sources (a stored
    record and a freshly parsed body, a computed string and a body field):
    primitives compare by type and value, [NaN] differs from itself, [+0]
    equals [-0]; two arrays or objects are two distinct references and are
    never identical. *)
Definition strict_eq (a b : JsVal) : bool :=
  match a, b with
  | JUndefined, JUndefined => true
  | JNull, JNull => true
  | JBool x, JBool y => Bool.eqb x y
  | JNum x, JNum y => SFeqb x y
  | JStr x, JStr y => String.eqb x y
  | _, _ => false
  end.

(** [v == null]. *)
Definition eq_null (v : JsVal) : bool :=
  match v with
  | JUndefined | JNull => true
  | _ => false
  end.

Fixpoint lookup_prop (k : string) (props : list (string * JsVal)) : JsVal :=
  match props with
  | [] => JUndefined
  | (k', v) :: r => if String.eqb k k' then v else lookup_prop k r
  end.

(** Property read [v.k] for the property names this program uses ([length]
    and data properties): [None] is the [TypeError] raised on [undefined]
    and [null]. *)
Definition get (v : JsVal) (k : string) : option JsVal :=
  match v with
  | JUndefined | JNull => None
  | JObj props => Some (lookup_prop k props)
  | JStr s =>
      Some (if String.eqb k "length" then JNum (num (Z.of_nat (String.length s)))
            else JUndefined)
  | JArr l =>
      Some (if String.eqb k "length" then JNum (num (Z.of_nat (length l)))
            else JUndefined)
  | JBool _ | JNum _ => Some JUndefined
  end.

(** Destructuring [const { k } = req.body] of a parsed body. *)
Definition field (body : JsVal) (k : string) : JsVal :=
  match get body k with
  | Some v => v
  | None => JUndefined
  end.

(** Property write [o.k = v] in sloppy mode: it replaces or adds an own
    property of an object and is silently dropped on a primitive.  An
    array would get a named property, which [JsVal] has no place for: the
    write is left out, and nothing below is stated of such an array. *)
Fixpoint set_prop (k : string) (v : JsVal) (props : list (string * JsVal))
  : list (string * JsVal) :=
  match props with
  | [] => [(k, v)]
  | (k', v') :: r =>
      if String.eqb k k' then (k, v) :: r else (k', v') :: set_prop k v r
  end.

Definition set (o : JsVal) (k : string) (v : JsVal) : JsVal :=
  match o with
  | JObj props => JObj (set_prop k v props)
  | _ => o
  end.

(** ** The handlers *)

(** A user record, with the shape [register] gives it.  [hashrate] is the
    list of purchased products; it is [None] on a record of [users.json]
    that has no such property. *)
Module User.
Record t : Type := {
  id : Z;
  phoneNumber : JsVal;
  password : JsVal;
  invitationCode : JsVal;
  balance : number;
  hashrate : option (list JsVal)
}.
End User.

Abbreviation User := User.t.

Definition with_password (u : User) (p : JsVal) : User :=
  {| User.id := User.id u; User.phoneNumber := User.phoneNumber u;
     User.password := p; User.invitationCode := User.invitationCode u;
     User.balance := User.balance u; User.hashrate := User.hashrate u |}.

Definition with_balance (u : User) (b : number) : User :=
  {| User.id := User.id u; User.phoneNumber := User.phoneNumber u;
     User.password := User.password u;
     User.invitationCode := User.invitationCode u;
     User.balance := b; User.hashrate := User.hashrate u |}.

Definition with_hashrate (u : User) (h : list JsVal) : User :=
  {| User.id := User.id u; User.phoneNumber := User.phoneNumber u;
     User.password := User.password u;
     User.invitationCode := User.invitationCode u;
     User.balance := User.balance u; User.hashrate := Some h |}.

(** The worksheet built by the export: its column keys and one row of
    cells per [addRow] call. *)
Record Worksheet : Type := {
  columns : list (string * string);
  rows : list (list (string * JsVal))
}.

(** What a handler sends: [res.status(s).json(v)], by which Express sends
    the [JSON.stringify] of [v] (and no body under a status that has
    none, as 204), [res.status(s).send(t)], the workbook written to the
    response, or the error page Express sends with status 500 when a
    synchronous handler throws; [nothing] when an [async] handler throws
    outside its [try] and sends no answer. *)
Inductive Body : Type :=
  | json (v : JsVal)
  | send (text : string)
  | xlsx (sheet : Worksheet)
  | error_page
  | nothing.

Record Response : Type := { status : JsVal; body : Body }.

Definition HTTP (code : Z) : JsVal := JNum (num code).

(** The outcome of a gateway call: the promise resolves or rejects. *)
Inductive Settled : Type :=
  | resolved (v : JsVal)
  | rejected (error : JsVal).

(** [razorpay.orders]. *)
Record Gateway : Type := {
  create : JsVal -> Settled;
  fetch : JsVal -> Settled
}.

(** What a handler does to the outside world, in order: [saveUsers()]
    called on the whole array, of which [users.json] receives the
    [JSON.stringify], and the gateway calls. *)
Inductive Effect : Type :=
  | writeFile (data : list User)
  | orders_create (options : JsVal)
  | orders_fetch (order_id : JsVal).

(** A handled request: the response, the [users] array afterwards and the
    effects performed. *)
Record Result : Type := {
  response : Response;
  users_after : list User;
  effects : list Effect
}.

(** What [users.json] holds when the server starts. *)
Inductive DbFile : Type :=
  | missing
  | unreadable
  | stored (data : list User).

(** [loadUsers()]: the stored array; an empty array, written to a new file,
    when there is none; an empty array when the file cannot be read or
    parsed. *)
Definition loadUsers (file : DbFile) : list User * list Effect :=
  match file with
  | stored data => (data, [])
  | missing => ([], [writeFile []])
  | unreadable => ([], [])
  end.

(** [saveUsers()]: the [JSON.stringify] of the whole array is written over
    the file (an error of the write is caught and logged). *)
Definition saveUsers (users : list User) : list Effect := [writeFile users].

Definition reply (users : list User) (s : JsVal) (b : Body) : Result :=
  {| response := {| status := s; body := b |};
     users_after := users; effects := [] |}.

Definition message (text : string) : Body := json (JObj [("message", JStr text)]).

(** [users.find(u => u.phoneNumber === phoneNumber)]: the first match and
    its index. *)
Definition find_user (users : list User) (phone : JsVal) : option (nat * User) :=
  list_find (fun u => strict_eq (User.phoneNumber u) phone = true) users.

(** The integer a number is, when it is one. *)
Definition integer_value (x : number) : option Z :=
  match x with
  | S754_zero _ => Some 0
  | S754_finite s m e =>
      if 0 <=? e then Some (cond_Zopp s (Zpos m * 2 ^ e))
      else if Zpos m mod 2 ^ (- e) =? 0 then Some (cond_Zopp s (Zpos m / 2 ^ (- e)))
      else None
  | _ => None
  end.

(** The status codes of Express 5: [res.status(code)] throws unless the
    code is an integer from 100 to 999. *)
Module Express.

Definition res_status (code : JsVal) : option JsVal :=
  match code with
  | JNum x =>
      match integer_value x with
      | Some n => if (100 <=? n) && (n <=? 999) then Some code else None
      | None => None
      end
  | _ => None
  end.

End Express.

(** ** Sample data: a secret, a user, a payment confirmation, two orders *)
Module Sample.

Definition secret : string := "rzp_test_secret".

Definition alice : User :=
  {| User.id := 1;
     User.phoneNumber := JStr "9876543210";
     User.password := JStr "correct horse";
     User.invitationCode := JStr "WELCOME";
     User.balance := num 100;
     User.hashrate := Some [] |}.

(** A record of a [users.json] written before purchases were stored. *)
Definition bob : User :=
  {| User.id := 2;
     User.phoneNumber := JStr "9123456780";
     User.password := JStr "battery staple";
     User.invitationCode := JStr "FRIEND";
     User.balance := num 0;
     User.hashrate := None |}.

Definition registration : JsVal :=
  JObj [("phoneNumber", JStr "9876543210");
        ("password", JStr "correct horse");
        ("invitationCode", JStr "WELCOME")].

Definition credentials : JsVal :=
  JObj [("phoneNumber", JStr "9876543210"); ("password", JStr "correct horse")].

Definition signature : string :=
  NodeCrypto.hmac_sha256_hex secret "order_9|pay_7".

Definition confirmation : JsVal :=
  JObj [("razorpay_order_id", JStr "order_9");
        ("razorpay_payment_id", JStr "pay_7");
        ("razorpay_signature", JStr signature)].

Definition product : JsVal :=
  JObj [("name", JStr "Miner S1"); ("price", JNum (num 60))].

Definition confirmation_with_product : JsVal :=
  JObj [("razorpay_order_id", JStr "order_9");
        ("razorpay_payment_id", JStr "pay_7");
        ("razorpay_signature", JStr signature);
        ("productData", product)].

Definition purchase : JsVal :=
  JObj [("phoneNumber", JStr "9876543210"); ("productData", product)].

Definition topup_notes : JsVal := JObj [("phoneNumber", JStr "9876543210")].

Definition topup_order : JsVal :=
  JObj [("id", JStr "order_9"); ("amount", JNum (num 50000));
        ("currency", JStr "INR"); ("notes", topup_notes)].

Definition product_notes : JsVal :=
  JObj [("phoneNumber", JStr "9876543210"); ("purchaseType", JStr "product")].

Definition product_order : JsVal :=
  JObj [("id", JStr "order_9"); ("amount", JNum (num 50000));
        ("currency", JStr "INR"); ("notes", product_notes)].

(** A gateway that answers every call with [order]. *)
Definition gateway (order : JsVal) : Gateway :=
  {| create := fun _ => resolved order; fetch := fun _ => resolved order |}.

End Sample.

(** A closed equation or disequation, by evaluation. *)
Ltac evaluate :=
  vm_compute;
  first [ reflexivity | let H := fresh in intros H; discriminate H ].

Section Server.

(** The engine's number formatting and parsing ([Number::toString] and
    [StringToNumber] of ECMAScript) and the secret of the environment. *)
Variable NumberToString : number -> string.
Variable StringToNumber : string -> number.
Variable RAZORPAY_KEY_SECRET : string.

(** ECMAScript: the empty string converts to [+0]. *)
Hypothesis StringToNumber_empty : StringToNumber "" = num 0.

(** The framework's [res.status(code)] followed by the sending of the
    answer: the status sent, or [None] when the code is refused with an
    exception.  An integer from 100 to 999 is a status code for every
    version of Express and Node. *)
Variable res_status : JsVal -> option JsVal.
Hypothesis res_status_integer :
  forall code, 100 <= code <= 999 -> res_status (HTTP code) = Some (HTTP code).

(** Whether an object has an own property named [k]. *)
Definition has_own (k : string) (props : list (string * JsVal)) : bool :=
  existsb (fun kv => String.eqb k (fst kv)) props.

(** ToString, as template literals and [join] apply it; [None] is the
    [TypeError] of a value that cannot be converted.  An array joins its
    elements with a comma, [undefined] and [null] elements giving the
    empty string.  A plain object gives ["[object Object]"], unless it has
    an own property [toString]: parsed data is never callable, so neither
    that property nor [valueOf] yields a primitive and the conversion
    throws. *)
Fixpoint to_string (v : JsVal) : option string :=
  match v with
  | JUndefined => Some "undefined"
  | JNull => Some "null"
  | JBool b => Some (if b then "true" else "false")
  | JNum x => Some (NumberToString x)
  | JStr s => Some s
  | JArr l =>
      parts ← mapM (fun e => match e with
                             | JUndefined | JNull => Some ""
                             | _ => to_string e
                             end) l;
      Some (String.concat "," parts)
  | JObj props =>
      if has_own "toString" props then None else Some "[object Object]"
  end.

(** [l.join(sep)]. *)
Definition join (sep : string) (l : list JsVal) : option string :=
  parts ← mapM (fun e => match e with
                         | JUndefined | JNull => Some ""
                         | _ => to_string e
                         end) l;
  Some (String.concat sep parts).

(** ToNumber, as [Number(v)] and the arithmetic and relational operators
    apply it: an array or an object is first converted to a string, which
    can throw. *)
Definition to_number (v : JsVal) : option number :=
  match v with
  | JUndefined => Some NaN
  | JNull => Some (num 0)
  | JBool b => Some (if b then num 1 else num 0)
  | JNum x => Some x
  | JStr s => Some (StringToNumber s)
  | JArr _ | JObj _ => s ← to_string v; Some (StringToNumber s)
  end.

(** The values interpolated in a template literal, converted in order;
    [None] when one of the conversions throws. *)
Definition template (values : list JsVal) : option (list string) :=
  mapM to_string values.

(** The response of Express to an exception thrown by a synchronous
    handler. *)
Definition uncaught (users : list User) : Result :=
  reply users (HTTP 500) error_page.

(** An [async] handler that throws outside its [try]: its promise rejects
    and the handler sends nothing.  What the client then gets is up to the
    framework: Express 4 leaves the request without an answer and the
    rejection unhandled, Express 5 answers 500. *)
Definition unanswered (users : list User) : Result :=
  reply users JUndefined nothing.

(** [POST /register] *)
Definition register (users : list User) (req_body : JsVal) : Result :=
  let phoneNumber := field req_body "phoneNumber" in
  let password := field req_body "password" in
  let invitationCode := field req_body "invitationCode" in
  if falsy phoneNumber || falsy password || falsy invitationCode then
    reply users (HTTP 400) (message "All fields are required.")
  else
    match len ← get password "length"; to_number len with
    | None => uncaught users
    | Some len =>
        if js_lt len (num 8) then
          reply users (HTTP 400)
            (message "Password must be at least 8 characters long.")
        else
          match find_user users phoneNumber with
          | Some _ =>
              reply users (HTTP 409)
                (message "User with this phone number already exists.")
          | None =>
              let newUser :=
                {| User.id := Z.of_nat (length users) + 1;
                   User.phoneNumber := phoneNumber;
                   User.password := password;
                   User.invitationCode := invitationCode;
                   User.balance := num 0;
                   User.hashrate := Some [] |} in
              let users := users ++ [newUser] in
              {| response :=
                   {| status := HTTP 201;
                      body := message "User registered successfully! Please log in." |};
                 users_after := users;
                 effects := saveUsers users |}
          end
    end.

(** [POST /login] *)
Definition login (users : list User) (req_body : JsVal) : Result :=
  let phoneNumber := field req_body "phoneNumber" in
  let password := field req_body "password" in
  if falsy phoneNumber || falsy password then
    reply users (HTTP 400) (message "Phone number and password are required.")
  else
    match find_user users phoneNumber with
    | None =>
        reply users (HTTP 401) (message "Invalid phone number or password.")
    | Some (_, user) =>
        if negb (strict_eq (User.password user) password) then
          reply users (HTTP 401) (message "Invalid phone number or password.")
        else
          reply users (HTTP 200)
            (json (JObj [("message", JStr "Login successful!");
                         ("user", JObj [("phoneNumber", User.phoneNumber user);
                                        ("balance", JNum (User.balance user))])]))
    end.

(** [PUT /api/update-profile] *)
Definition update_profile (users : list User) (req_body : JsVal) : Result :=
  let phoneNumber := field req_body "phoneNumber" in
  let currentPassword := field req_body "currentPassword" in
  let newPassword := field req_body "newPassword" in
  if falsy phoneNumber || falsy currentPassword || falsy newPassword then
    reply users (HTTP 400) (message "All fields are required to update password.")
  else
    match len ← get newPassword "length"; to_number len with
    | None => uncaught users
    | Some len =>
        if js_lt len (num 8) then
          reply users (HTTP 400)
            (message "New password must be at least 8 characters long.")
        else
          match find_user users phoneNumber with
          | None => reply users (HTTP 404) (message "User not found.")
          | Some (i, user) =>
              if negb (strict_eq (User.password user) currentPassword) then
                reply users (HTTP 401) (message "Incorrect current password.")
              else
                let users := <[i := with_password user newPassword]> users in
                {| response :=
                     {| status := HTTP 200;
                        body := message "Password updated successfully!" |};
                   users_after := users;
                   effects := saveUsers users |}
          end
    end.

(** [POST /api/buy-product].  [Number(productData.price)] is evaluated
    before any check; the balance is lowered before the product is pushed;
    the log line after [saveUsers()] interpolates the phone number. *)
Definition buy_product (users : list User) (req_body : JsVal) : Result :=
  let phoneNumber := field req_body "phoneNumber" in
  let productData := field req_body "productData" in
  match price ← get productData "price";
        numericPrice ← to_number price; Some (price, numericPrice) with
  | None => uncaught users
  | Some (price, numericPrice) =>
      if falsy phoneNumber || falsy productData || falsy price
         || isNaN numericPrice || js_le numericPrice (num 0) then
        reply users (HTTP 400)
          (message "Valid phone number and product data are required.")
      else
        match find_user users phoneNumber with
        | None => reply users (HTTP 404) (message "User not found.")
        | Some (i, user) =>
            if js_lt (User.balance user) numericPrice then
              reply users (HTTP 402) (message "Insufficient balance.")
            else
              let user := with_balance user (js_sub (User.balance user) numericPrice) in
              match User.hashrate user with
              | None => uncaught (<[i := user]> users)
              | Some purchased =>
                  let user := with_hashrate user (purchased ++ [productData]) in
                  let users := <[i := user]> users in
                  match template [phoneNumber; JNum numericPrice;
                                  JNum (User.balance user)] with
                  | None =>
                      {| response := {| status := HTTP 500; body := error_page |};
                         users_after := users;
                         effects := saveUsers users |}
                  | Some _ =>
                      {| response :=
                           {| status := HTTP 200;
                              body := json (JObj [("success", JBool true);
                                                  ("newBalance",
                                                   JNum (User.balance user))]) |};
                         users_after := users;
                         effects := saveUsers users |}
                  end
              end
        end
  end.

(** The [catch] block of [/create-order]: the gateway's description with
    its status code, 400 when it has none, or a generic 500.  [None] when
    [res.status] or the writing of the head refuses the gateway's code and
    throws. *)
Definition order_error (error : JsVal) : option Response :=
  let description :=
    if truthy error then
      match get error "error" with
      | Some e =>
          if truthy e then
            match get e "description" with
            | Some d => d
            | None => JUndefined
            end
          else e
      | None => JUndefined
      end
    else error in
  if truthy description then
    code ← res_status (js_or (field error "statusCode") (HTTP 400));
    Some {| status := code;
            body := json (JObj [("error", JStr "Payment Gateway Error");
                                ("message", description)]) |}
  else
    Some {| status := HTTP 500;
            body := json (JObj [("error", JStr "Server Error");
                                ("message", JStr "An unexpected error occurred.")]) |}.

(** [POST /create-order].  [now] is [new Date().getTime()].
    [Number(amount)] is evaluated outside the [try]. *)
Definition create_order (razorpay : Gateway) (now : number)
    (users : list User) (req_body : JsVal) : Result :=
  let amount := field req_body "amount" in
  let currency := field req_body "currency" in
  let qrId := field req_body "qrId" in
  let phoneNumber := field req_body "phoneNumber" in
  let notes := field req_body "notes" in
  if falsy currency || falsy phoneNumber || eq_null amount then
    reply users (HTTP 400)
      (json (JObj [("error", JStr "Bad Request");
                   ("message", JStr "Amount, currency, and phone number are all required.")]))
  else
    match to_number amount with
    | None => unanswered users
    | Some numericAmount =>
        if isNaN numericAmount || js_le numericAmount (num 0) then
          reply users (HTTP 400)
            (json (JObj [("error", JStr "Invalid Amount");
                         ("message", JStr "A valid, positive amount is required.")]))
        else
          let orderNotes := js_or notes (JObj []) in
          let orderNotes := set orderNotes "phoneNumber" phoneNumber in
          let orderNotes :=
            if truthy qrId then set orderNotes "qrId" qrId else orderNotes in
          let options :=
            JObj [("amount", JNum (Math_round (js_mul numericAmount (num 100))));
                  ("currency", currency);
                  ("receipt", JStr ("receipt_order_" +:+ NumberToString now));
                  ("notes", orderNotes)] in
          {| response :=
               match create razorpay options with
               | resolved order => {| status := HTTP 200; body := json order |}
               | rejected error =>
                   default {| status := JUndefined; body := nothing |}
                           (order_error error)
               end;
             users_after := users;
             effects := [orders_create options] |}
    end.

(** The string signed by the gateway and its expected signature, for the
    identifiers as the template literal converted them. *)
Definition signed_body (order_id payment_id : string) : string :=
  order_id +:+ "|" +:+ payment_id.

Definition expectedSignature (order_id payment_id : string) : string :=
  NodeCrypto.hmac_sha256_hex RAZORPAY_KEY_SECRET (signed_body order_id payment_id).

(** The answer of the [catch] block of [/verify-payment], with the array
    and the effects at the time of the throw. *)
Definition failed (users : list User) (done : list Effect) : Result :=
  {| response :=
       {| status := HTTP 500;
          body := json (JObj [("status", JStr "failure");
                              ("message", JStr "Could not update user balance.")]) |};
     users_after := users;
     effects := done |}.

(** The [try] block of [/verify-payment] once the order is fetched.  A
    throw is answered by the [catch]; the log line of a product purchase
    comes after the push and [saveUsers()], and interpolates the name of
    the product. *)
Definition apply_order (users : list User) (razorpay_order_id productData order : JsVal)
  : Result :=
  match notes ← get order "notes";
        phoneNumber ← get notes "phoneNumber"; Some (notes, phoneNumber) with
  | None => failed users []
  | Some (notes, phoneNumber) =>
      match find_user users phoneNumber with
      | Some (i, user) =>
          match (if truthy productData then
                   purchaseType ← get notes "purchaseType";
                   Some (strict_eq purchaseType (JStr "product"))
                 else Some false) with
          | None => failed users []
          | Some true =>
              match User.hashrate user with
              | None => failed users []
              | Some purchased =>
                  let users :=
                    <[i := with_hashrate user (purchased ++ [productData])]> users in
                  match name ← get productData "name";
                        template [phoneNumber; name] with
                  | None => failed users (saveUsers users)
                  | Some _ =>
                      {| response :=
                           {| status := HTTP 200;
                              body := json (JObj [("status", JStr "success");
                                                  ("message",
                                                   JStr "Product purchased successfully.")]) |};
                         users_after := users;
                         effects := saveUsers users |}
                  end
              end
          | Some false =>
              match to_number (field order "amount") with
              | None => failed users []
              | Some amount =>
                  let amountPaid := js_div amount (num 100) in
                  let user := with_balance user (js_add (User.balance user) amountPaid) in
                  let users := <[i := user]> users in
                  match template [phoneNumber; JNum (User.balance user)] with
                  | None => failed users (saveUsers users)
                  | Some _ =>
                      {| response :=
                           {| status := HTTP 200;
                              body := json (JObj [("status", JStr "success");
                                                  ("orderId", razorpay_order_id);
                                                  ("newBalance",
                                                   JNum (User.balance user))]) |};
                         users_after := users;
                         effects := saveUsers users |}
                  end
              end
          end
      | None =>
          match template [phoneNumber; razorpay_order_id] with
          | None => failed users []
          | Some _ =>
              reply users (HTTP 404)
                (json (JObj [("status", JStr "failure");
                             ("message", JStr "User associated with order not found.")]))
          end
      end
  end.

(** [POST /verify-payment].  The template literal that builds the signed
    string is outside the [try]. *)
Definition verify_payment (razorpay : Gateway) (users : list User) (req_body : JsVal)
  : Result :=
  let razorpay_order_id := field req_body "razorpay_order_id" in
  let razorpay_payment_id := field req_body "razorpay_payment_id" in
  let razorpay_signature := field req_body "razorpay_signature" in
  let productData := field req_body "productData" in
  if falsy razorpay_order_id || falsy razorpay_payment_id || falsy razorpay_signature then
    reply users (HTTP 400)
      (json (JObj [("status", JStr "failure");
                   ("message", JStr "Missing payment details.")]))
  else
    match order_id ← to_string razorpay_order_id;
          payment_id ← to_string razorpay_payment_id;
          Some (order_id, payment_id) with
    | None => unanswered users
    | Some (order_id, payment_id) =>
        if strict_eq (JStr (expectedSignature order_id payment_id))
                     razorpay_signature then
          let r :=
            match fetch razorpay razorpay_order_id with
            | resolved order =>
                apply_order users razorpay_order_id productData order
            | rejected _ => failed users []
            end in
          {| response := response r; users_after := users_after r;
             effects := orders_fetch razorpay_order_id :: effects r |}
        else
          reply users (HTTP 400)
            (json (JObj [("status", JStr "failure");
                         ("message", JStr "Invalid signature.")]))
    end.

(** One row of the export: [None] when reading a product's [name] or
    joining the names throws. *)
Definition export_row (user : User) : option (list (string * JsVal)) :=
  cell ←
    match User.hashrate user with
    | Some (p :: ps) =>
        names ← mapM (fun product => get product "name") (p :: ps);
        joined ← join ", " names;
        Some (JStr joined)
    | _ => Some (JStr "None")
    end;
  Some [("id", JNum (num (User.id user)));
        ("phoneNumber", User.phoneNumber user);
        ("balance", JNum (User.balance user));
        ("invitationCode", User.invitationCode user);
        ("hashrate", cell)].

(** [GET /api/export-users].  The rows are handed to ExcelJS, which is
    taken to write them; the statements below that rely on this are about
    records whose cells are primitive values. *)
Definition export_users (users : list User) : Result :=
  match users with
  | [] => reply users (HTTP 404) (send "No user data to export.")
  | _ =>
      match mapM export_row users with
      | Some sheet_rows =>
          reply users (HTTP 200)
            (xlsx {| columns := [("ID", "id"); ("Phone Number", "phoneNumber");
                                 ("Balance", "balance");
                                 ("Invitation Code", "invitationCode");
                                 ("Purchased Products", "hashrate")];
                     rows := sheet_rows |})
      | None =>
          reply users (HTTP 500)
            (send "An error occurred while generating the Excel file.")
      end
  end.

(** The [users] arrays the server can hold: it starts on a [users.json]
    that is missing or unreadable and each request replaces the array by
    the one its handler leaves.  [/login] and the export only read it. *)
Inductive step (users : list User) : list User -> Prop :=
  | step_register req_body :
      step users (users_after (register users req_body))
  | step_update_profile req_body :
      step users (users_after (update_profile users req_body))
  | step_buy_product req_body :
      step users (users_after (buy_product users req_body))
  | step_create_order razorpay now req_body :
      step users (users_after (create_order razorpay now users req_body))
  | step_verify_payment razorpay req_body :
      step users (users_after (verify_payment razorpay users req_body)).

Inductive reachable : list User -> Prop :=
  | reachable_init file :
      (forall data, file <> stored data) -> reachable (fst (loadUsers file))
  | reachable_step users users' :
      reachable users -> step users users' -> reachable users'.

(** No two records have identical ([===]) phone numbers. *)
Definition unique_phones (users : list User) : Prop :=
  forall i j u v,
    users !! i = Some u -> users !! j = Some v ->
    strict_eq (User.phoneNumber u) (User.phoneNumber v) = true -> i = j.

(** Every record has a phone number and a password. *)
Definition credentials_present (users : list User) : Prop :=
  forall u, u ∈ users ->
    truthy (User.phoneNumber u) = true /\ truthy (User.password u) = true.


(** A zero, a positive finite number or [+Infinity]. *)
Definition not_negative (x : number) : Prop :=
  match x with
  | S754_zero _ | S754_infinity false | S754_finite false _ _ => True
  | _ => False
  end.

(** What one request can do to the array: nothing, push a record with a
    phone number no stored record has, or write to a stored record without
    touching its phone number or emptying its password. *)
Inductive change (users : list User) : list User -> Prop :=
  | unchanged : change users users
  | appended u :
      truthy (User.phoneNumber u) = true ->
      truthy (User.password u) = true ->
      find_user users (User.phoneNumber u) = None ->
      change users (users ++ [u])
  | rewritten i u u' :
      users !! i = Some u ->
      User.phoneNumber u' = User.phoneNumber u ->
      (truthy (User.password u) = true -> truthy (User.password u') = true) ->
      change users (<[i := u']> users).

(** Two status codes are equal only when their numbers are. *)
Ltac status_clash H := vm_compute in H; discriminate H.

(** [v] has a property named [k], at any depth. *)
Fixpoint has_property (k : string) (v : JsVal) : bool :=
  match v with
  | JObj props =>
      existsb (fun kv => let '(k', v') := kv in String.eqb k k' || has_property k v') props
  | JArr l => existsb (has_property k) l
  | _ => false
  end.

(** A value that is neither an array nor an object. *)
Definition primitive (v : JsVal) : bool :=
  match v with
  | JArr _ | JObj _ => false
  | _ => true
  end.

(** The cells of a record that come from a request are primitive values,
    which ExcelJS writes as they are. *)
Definition plain_cells (u : User) : Prop :=
  primitive (User.phoneNumber u) = true /\ primitive (User.invitationCode u) = true.

(** ** The other routes and the server as a whole *)

(** The key identifier of the environment. *)
Variable RAZORPAY_KEY_ID : string.

(** [GET /api/get-key] *)
Definition get_key (users : list User) : Result :=
  reply users (HTTP 200) (json (JObj [("key", JStr RAZORPAY_KEY_ID)])).

(** [POST /logout] *)
Definition logout (users : list User) : Result :=
  reply users (HTTP 200) (message "Logout successful.").

(** [GET /api/get-hashrate]; [req_query] is the parsed query string. *)
Definition get_hashrate (users : list User) (req_query : JsVal) : Result :=
  let phoneNumber := field req_query "phoneNumber" in
  if falsy phoneNumber then
    reply users (HTTP 400) (message "Phone number is required.")
  else
    match find_user users phoneNumber with
    | None => reply users (HTTP 404) (message "User not found.")
    | Some (_, user) =>
        reply users (HTTP 200)
          (json (JObj [("hashrate", JArr (default [] (User.hashrate user)))]))
    end.

(** A request to one of the routes, with its body or query. *)
Inductive Request : Type :=
  | GET_get_key
  | POST_register (req_body : JsVal)
  | POST_login (req_body : JsVal)
  | POST_logout
  | GET_get_hashrate (req_query : JsVal)
  | PUT_update_profile (req_body : JsVal)
  | POST_buy_product (req_body : JsVal)
  | POST_create_order (req_body : JsVal)
  | POST_verify_payment (req_body : JsVal)
  | GET_export_users.

(** The route table.  [razorpay] is how the gateway answers while the
    request is handled and [now] the time of the clock. *)
Definition handle (razorpay : Gateway) (now : number) (users : list User)
    (request : Request) : Result :=
  match request with
  | GET_get_key => get_key users
  | POST_register req_body => register users req_body
  | POST_login req_body => login users req_body
  | POST_logout => logout users
  | GET_get_hashrate req_query => get_hashrate users req_query
  | PUT_update_profile req_body => update_profile users req_body
  | POST_buy_product req_body => buy_product users req_body
  | POST_create_order req_body => create_order razorpay now users req_body
  | POST_verify_payment req_body => verify_payment razorpay users req_body
  | GET_export_users => export_users users
  end.

(** The array that [users.json] holds a serialisation of, after the
    effects [done]: [saveUsers()] replaces the file by the
    [JSON.stringify] of the array it is called on. *)
Definition saved_after (held : option (list User)) (done : list Effect)
  : option (list User) :=
  fold_left (fun h e => match e with
                        | writeFile data => Some data
                        | _ => h
                        end) done held.

(** The process: the [users] array in memory, and the array that
    [users.json] holds a serialisation of: the array parsed from it at the
    start, then the one of the last [saveUsers()]; [None] while there is
    no file to parse. *)
Record Process : Type := {
  memory : list User;
  saved : option (list User)
}.

(** The process once [loadUsers()] has run on [file]. *)
Definition boot (file : DbFile) : Process :=
  {| memory := fst (loadUsers file);
     saved := saved_after (match file with
                           | stored data => Some data
                           | _ => None
                           end) (snd (loadUsers file)) |}.

(** The process after one request and after a sequence of them, each
    with the gateway and the clock of its time.  A handler reads and
    writes [users] in one synchronous stretch (after its [await], for
    [/verify-payment]), so requests in flight together act in some
    order. *)
Definition serve_one (p : Process) (call : Gateway * number * Request) : Process :=
  let '(razorpay, now, request) := call in
  let r := handle razorpay now (memory p) request in
  {| memory := users_after r; saved := saved_after (saved p) (effects r) |}.

Definition serve (p : Process) (calls : list (Gateway * number * Request)) : Process :=
  fold_left serve_one calls p.

(** The record [/register] pushes. *)
Definition new_user (users : list User) (phoneNumber password invitationCode : JsVal)
  : User :=
  {| User.id := Z.of_nat (length users) + 1;
     User.phoneNumber := phoneNumber;
     User.password := password;
     User.invitationCode := invitationCode;
     User.balance := num 0;
     User.hashrate := Some [] |}.

(** What one request does to the array, field by field: nothing, the push
    of a new record, or a write to a stored record that keeps its
    identifier, phone number and invitation code and at most pushes one
    product, neither [null] nor [undefined], on its purchase list. *)
Inductive edit (users : list User) : list User -> Prop :=
  | edit_none : edit users users
  | edit_push phoneNumber password invitationCode :
      edit users (users ++ [new_user users phoneNumber password invitationCode])
  | edit_record i u u' :
      users !! i = Some u ->
      User.id u' = User.id u ->
      User.phoneNumber u' = User.phoneNumber u ->
      User.invitationCode u' = User.invitationCode u ->
      (User.hashrate u' = User.hashrate u \/
       exists purchased product,
         User.hashrate u = Some purchased /\
         User.hashrate u' = Some (purchased ++ [product]) /\
         eq_null product = false) ->
      edit users (<[i := u']> users).

(** The characters of a lower-case hexadecimal string. *)
Definition hex_char (c : ascii) : bool :=
  let n := Z.of_N (N_of_ascii c) in
  ((48 <=? n) && (n <=? 57)) || ((97 <=? n) && (n <=? 102)).

(** Whether an effect rewrites [users.json]. *)
Definition is_write (e : Effect) : bool :=
  match e with
  | writeFile _ => true
  | _ => false
  end.

(** The argument of a gateway call. *)
Definition sent_options (e : Effect) : JsVal :=
  match e with
  | orders_create options => options
  | orders_fetch order_id => order_id
  | writeFile _ => JUndefined
  end.

(** A record stays what it is: the same identifier, phone number and
    invitation code, and every purchase it had, in order. *)
Definition kept (u u' : User) : Prop :=
  User.id u' = User.id u /\ User.phoneNumber u' = User.phoneNumber u /\
  User.invitationCode u' = User.invitationCode u /\
  forall purchased, User.hashrate u = Some purchased ->
    exists more, User.hashrate u' = Some (purchased ++ more).

(** Identifiers follow the positions and every record has a purchase
    list, of products that are neither [null] nor [undefined]. *)
Definition well_formed (users : list User) : Prop :=
  forall i u, users !! i = Some u ->
    User.id u = Z.of_nat i + 1 /\
    exists purchased,
      User.hashrate u = Some purchased /\
      forall product, product ∈ purchased -> eq_null product = false.

(** ** Numbers: the sign of a difference *)

Lemma iter_pos_invariant {A} (P : A -> Prop) (f : A -> A) :
  (forall x, P x -> P (f x)) -> forall p x, P x -> P (SpecFloat.iter_pos f p x).
Proof.
  intros Hf p. induction p as [p IH | p IH | ]; intros x Hx; simpl; auto.
Qed.

Lemma shr_1_nonneg mrs : 0 <= shr_m mrs -> 0 <= shr_m (shr_1 mrs).
Proof.
  destruct mrs as [m r s]. simpl.
  destruct m as [ | [p | p | ] | [p | p | ]]; simpl; lia.
Qed.

Lemma shr_nonneg mrs e n : 0 <= shr_m mrs -> 0 <= shr_m (fst (shr mrs e n)).
Proof.
  intros H. unfold shr. destruct n; simpl; auto.
  apply (iter_pos_invariant (fun r => 0 <= shr_m r)); auto using shr_1_nonneg.
Qed.

Lemma shr_fexp_nonneg m e l :
  0 <= m -> 0 <= shr_m (fst (shr_fexp prec emax m e l)).
Proof.
  intros H. unfold shr_fexp. apply shr_nonneg.
  destruct l as [ | [ | | ]]; simpl; assumption.
Qed.

Lemma round_nearest_even_nonneg m l : 0 <= m -> 0 <= round_nearest_even m l.
Proof.
  intros H. unfold round_nearest_even.
  destruct l as [ | [ | | ]]; try destruct (Z.even m); lia.
Qed.

Lemma binary_round_aux_not_negative m e l :
  0 <= m -> not_negative (binary_round_aux prec emax false m e l).
Proof.
  intros H. unfold binary_round_aux.
  pose proof (shr_fexp_nonneg m e l H) as H1.
  destruct (shr_fexp prec emax m e l) as [mrs' e'] eqn:E1. simpl in H1.
  pose proof (shr_fexp_nonneg _ e' loc_Exact
                (round_nearest_even_nonneg _ (loc_of_shr_record mrs') H1)) as H2.
  destruct (shr_fexp prec emax _ e' loc_Exact) as [mrs'' e''] eqn:E2. simpl in H2.
  destruct (shr_m mrs'') as [ | p | p ]; simpl; auto; try lia.
  destruct (e'' <=? emax - prec); simpl; auto.
Qed.

Lemma binary_normalize_not_negative z e :
  0 <= z -> not_negative (binary_normalize prec emax z e false).
Proof.
  intros H. destruct z as [ | p | p ]; simpl; auto; try lia.
  unfold binary_round.
  destruct (shl_align p e _) as [mz ez].
  apply binary_round_aux_not_negative. lia.
Qed.

Lemma digits2_pos_size p : digits2_pos p = Pos.size p.
Proof. induction p; simpl; congruence. Qed.

Lemma digits2_pos_upper p : Zpos p < 2 ^ Zpos (digits2_pos p).
Proof.
  rewrite digits2_pos_size. pose proof (Pos.size_gt p) as H.
  apply Pos2Z.pos_lt_pos in H. rewrite Pos2Z.inj_pow in H. exact H.
Qed.

Lemma digits2_pos_lower p : 2 ^ (Zpos (digits2_pos p) - 1) <= Zpos p.
Proof.
  rewrite digits2_pos_size. pose proof (Pos.size_le p) as H.
  apply Pos2Z.pos_le_pos in H. rewrite Pos2Z.inj_pow in H.
  replace (Zpos (Pos.size p)) with (Zpos (Pos.size p) - 1 + 1) in H by lia.
  rewrite Z.pow_add_r in H by lia. change (Zpos p~0) with (2 * Zpos p) in H. lia.
Qed.

Lemma iter_xO_pow m d : Zpos (Pos.iter xO m d) = Zpos m * 2 ^ Zpos d.
Proof.
  induction d as [ | d IH] using Pos.peano_ind.
  - simpl. lia.
  - rewrite Pos.iter_succ, Pos2Z.inj_succ, Z.pow_succ_r by lia.
    change (Zpos (Pos.iter xO m d)~0) with (2 * Zpos (Pos.iter xO m d)). lia.
Qed.

Lemma shl_align_fst m e e' :
  e' <= e -> Zpos (fst (shl_align m e e')) = Zpos m * 2 ^ (e - e').
Proof.
  intros H. unfold shl_align.
  destruct (e' - e) as [ | d | d ] eqn:E; cbn [fst].
  - replace (e - e') with 0 by lia. rewrite Z.pow_0_r. lia.
  - lia.
  - rewrite iter_xO_pow. f_equal. f_equal. pose proof (Pos2Z.opp_pos d). lia.
Qed.

(** A canonical finite number has at most 53 digits, and exactly 53 above
    the smallest exponent. *)
Lemma valid_finite_bounds s m e :
  valid (S754_finite s m e) = true ->
  -1074 <= e /\ Zpos m < 2 ^ 53 /\ (-1074 < e -> 2 ^ 52 <= Zpos m).
Proof.
  unfold valid, valid_binary, bounded, canonical_mantissa, fexp, emin, prec, emax.
  intros H. apply andb_true_iff in H as [H _]. apply Z.eqb_eq in H.
  pose proof (digits2_pos_upper m) as Hu.
  pose proof (digits2_pos_lower m) as Hl.
  set (d := Zpos (digits2_pos m)) in *.
  assert (d <= 53) by lia.
  split; [lia | split].
  - apply Z.lt_le_trans with (1 := Hu). apply Z.pow_le_mono_r; lia.
  - intros He. assert (d = 53) by lia. replace (d - 1) with 52 in Hl by lia. exact Hl.
Qed.

(** [x - y] is not negative when [x < y] is false, for a number [x] and a
    positive finite [y]. *)
Lemma js_sub_not_negative x y :
  valid x = true -> valid y = true ->
  isNaN x = false -> (exists m e, y = S754_finite false m e) ->
  js_lt x y = false ->
  not_negative (js_sub x y).
Proof.
  intros Vx Vy Hx (my & ey & ->) Hlt.
  destruct x as [ [ | ] | [ | ] | | [ | ] mx ex ]; try discriminate; [exact I | ].
  unfold js_sub, SFsub. apply binary_normalize_not_negative.
  destruct (valid_finite_bounds _ _ _ Vx) as (Hex & Hmx & Hnx).
  destruct (valid_finite_bounds _ _ _ Vy) as (Hey & Hmy & Hny).
  cbv [cond_Zopp]. rewrite !shl_align_fst by lia.
  unfold js_lt, SFltb, SFcompare in Hlt.
  destruct (Z.compare_spec ex ey) as [E | E | E]; try discriminate.
  - subst ey. rewrite Z.min_id, Z.sub_diag, Z.pow_0_r.
    destruct (Pos.compare_cont Eq mx my) eqn:C; try discriminate;
      change (Pos.compare_cont Eq mx my) with (Pos.compare mx my) in C.
    + apply Pos.compare_eq in C. subst. lia.
    + apply Pos.compare_gt_iff in C. lia.
  - rewrite Z.min_r by lia. rewrite Z.sub_diag, Z.pow_0_r.
    assert (2 ^ 1 <= 2 ^ (ex - ey)) by (apply Z.pow_le_mono_r; lia).
    specialize (Hnx ltac:(lia)). change (2 ^ 1) with 2 in *.
    assert (2 ^ 53 = 2 * 2 ^ 52) by reflexivity.
    nia.
Qed.

Lemma not_negative_le x : not_negative x <-> js_le (num 0) x = true.
Proof.
  destruct x as [ [ | ] | [ | ] | | [ | ] m e ]; simpl; split; intros H;
    try exact I; try reflexivity; try contradiction; try discriminate H.
Qed.

(** ** Numbers: integers of 8 and more *)

Lemma shr_1_div mrs : 0 <= shr_m mrs -> shr_m (shr_1 mrs) = shr_m mrs / 2.
Proof.
  destruct mrs as [m r s]. simpl. intros H.
  destruct m as [ | [p | p | ] | p]; try lia; try reflexivity.
  - cbn [shr_m]. apply Z.div_unique with (r := 1); lia.
  - cbn [shr_m]. apply Z.div_unique with (r := 0); lia.
Qed.

Lemma iter_shr_1_div p : forall mrs,
  0 <= shr_m mrs -> shr_m (SpecFloat.iter_pos shr_1 p mrs) = shr_m mrs / 2 ^ Zpos p.
Proof.
  induction p as [p IH | p IH | ]; intros mrs H; cbn [SpecFloat.iter_pos].
  - assert (H1 : 0 <= shr_m (shr_1 mrs)).
    { rewrite shr_1_div by assumption. apply Z.div_pos; lia. }
    assert (H2 : 0 <= shr_m (SpecFloat.iter_pos shr_1 p (shr_1 mrs))).
    { rewrite IH by assumption. apply Z.div_pos; [assumption | ]. apply Z.pow_pos_nonneg; lia. }
    rewrite IH, IH, shr_1_div by assumption.
    rewrite !Z.div_div by (try apply Z.pow_pos_nonneg; lia).
    f_equal. rewrite (Pos2Z.inj_xI p).
    replace (2 * Zpos p + 1) with (1 + Zpos p + Zpos p) by lia.
    rewrite !Z.pow_add_r by lia. change (2 ^ 1) with 2. ring.
  - assert (H2 : 0 <= shr_m (SpecFloat.iter_pos shr_1 p mrs)).
    { rewrite IH by assumption. apply Z.div_pos; [assumption | ]. apply Z.pow_pos_nonneg; lia. }
    rewrite IH, IH by assumption.
    rewrite !Z.div_div by (try apply Z.pow_pos_nonneg; lia).
    f_equal. rewrite (Pos2Z.inj_xO p).
    replace (2 * Zpos p) with (Zpos p + Zpos p) by lia.
    rewrite !Z.pow_add_r by lia. ring.
  - rewrite shr_1_div by assumption. reflexivity.
Qed.

Lemma shr_record_of_loc_m m l : shr_m (shr_record_of_loc m l) = m.
Proof. destruct l as [ | [ | | ]]; reflexivity. Qed.

(** At an exponent the format has, shifting a positive mantissa to its
    precision leaves it positive and does not lower the exponent. *)
Lemma shr_fexp_positive m e l :
  0 < m -> -1074 <= e ->
  0 < shr_m (fst (shr_fexp prec emax m e l)) /\ e <= snd (shr_fexp prec emax m e l).
Proof.
  intros Hm He. unfold shr_fexp, shr.
  destruct m as [ | p | p]; try lia. cbn [Zdigits2].
  pose proof (digits2_pos_lower p) as Hl.
  set (d := Zpos (digits2_pos p)) in *.
  destruct (fexp prec emax (d + e) - e) as [ | n | n] eqn:En; cbn [fst snd];
    rewrite ?shr_record_of_loc_m; try lia.
  rewrite iter_shr_1_div by (rewrite shr_record_of_loc_m; lia).
  rewrite shr_record_of_loc_m. split; [ | lia].
  unfold fexp, emin, prec, emax in En.
  assert (Zpos n = d - 53) by lia.
  apply Z.div_str_pos. split; [apply Z.pow_pos_nonneg; lia | ].
  apply Z.le_trans with (2 := Hl). apply Z.pow_le_mono_r; lia.
Qed.

Lemma round_nearest_even_ge m l : m <= round_nearest_even m l.
Proof.
  unfold round_nearest_even.
  destruct l as [ | [ | | ]]; try destruct (Z.even m); lia.
Qed.

(** The shape of a rounded positive mantissa. *)
Lemma binary_round_aux_positive m e l :
  0 < m -> -1074 <= e ->
  binary_round_aux prec emax false m e l = S754_infinity false \/
  exists m' e', binary_round_aux prec emax false m e l = S754_finite false m' e' /\ e <= e'.
Proof.
  intros Hm He. unfold binary_round_aux.
  destruct (shr_fexp_positive m e l Hm He) as [H1 H1e].
  destruct (shr_fexp prec emax m e l) as [mrs' e'] eqn:E1. cbn [fst snd] in *.
  pose proof (round_nearest_even_ge (shr_m mrs') (loc_of_shr_record mrs')) as Hr.
  destruct (shr_fexp_positive (round_nearest_even (shr_m mrs') (loc_of_shr_record mrs'))
              e' loc_Exact ltac:(lia) ltac:(lia)) as [H2 H2e].
  destruct (shr_fexp prec emax _ e' loc_Exact) as [mrs'' e''] eqn:E2. cbn [fst snd] in *.
  destruct (shr_m mrs'') as [ | p | p]; try lia.
  destruct (e'' <=? emax - prec); [right | left; reflexivity].
  exists p, e''. split; [reflexivity | lia].
Qed.

Lemma num_large z :
  16 <= z -> num z = S754_infinity false \/
             exists m e, num z = S754_finite false m e /\ -48 <= e.
Proof.
  intros Hz. destruct z as [ | p | p]; try lia.
  unfold num, binary_normalize, binary_round.
  pose proof (digits2_pos_upper p) as Hu.
  set (d := Zpos (digits2_pos p)) in *.
  assert (Hd : 5 <= d).
  { destruct (Z_lt_le_dec d 5) as [Hlt | ]; [ | assumption].
    assert (2 ^ d <= 2 ^ 4) by (apply Z.pow_le_mono_r; lia).
    change (2 ^ 4) with 16 in *. lia. }
  assert (Hf : -48 <= fexp prec emax (d + 0)).
  { unfold fexp, emin, prec, emax. lia. }
  unfold shl_align.
  destruct (fexp prec emax (d + 0) - 0) as [ | n | n] eqn:En.
  - destruct (binary_round_aux_positive (Zpos p) 0 loc_Exact) as [H | (m' & e' & H & He)];
      try lia; [left; exact H | right]. exists m', e'. split; [exact H | lia].
  - destruct (binary_round_aux_positive (Zpos p) 0 loc_Exact) as [H | (m' & e' & H & He)];
      try lia; [left; exact H | right]. exists m', e'. split; [exact H | lia].
  - destruct (binary_round_aux_positive (Zpos (Pos.iter xO p n)) (fexp prec emax (d + 0)) loc_Exact)
      as [H | (m' & e' & H & He)]; try lia; [left; exact H | right].
    exists m', e'. split; [exact H | lia].
Qed.

(** The length test [password.length < 8] on a string of 8 characters or
    more. *)
Lemma long_length n : (8 <= n)%nat -> js_lt (num (Z.of_nat n)) (num 8) = false.
Proof.
  intros H.
  destruct (le_lt_dec 16 n) as [Hbig | Hsmall].
  - assert (Hz : 16 <= Z.of_nat n) by lia.
    destruct (num_large _ Hz) as [E | (m & e & E & He)]; rewrite E.
    + reflexivity.
    + change (num 8) with (S754_finite false 4503599627370496 (-49)).
      unfold js_lt, SFltb, SFcompare.
      destruct (Z.compare_spec e (-49)); [lia | lia | reflexivity].
  - do 8 (destruct n as [ | n]; [lia | ]).
    do 8 (destruct n as [ | n]; [vm_compute; reflexivity | ]). lia.
Qed.

(** ** Numbers: [Math.round] gives the nearest integer *)

Lemma round_half_up_nearest s m e :
  e < 0 ->
  let n := round_half_up s m e in
  (2 * n - 1) * 2 ^ (- e) <= 2 * cond_Zopp s (Zpos m) < (2 * n + 1) * 2 ^ (- e).
Proof.
  intros He. cbv zeta. unfold round_half_up.
  set (v := cond_Zopp s (Zpos m)). set (D := 2 ^ (- e)).
  assert (HD : 0 < D) by (apply Z.pow_pos_nonneg; lia).
  replace (2 ^ (- e + 1)) with (2 * D) by (unfold D; rewrite Z.pow_add_r by lia; lia).
  pose proof (Z.div_mod (2 * v + D) (2 * D) ltac:(lia)) as Hdm.
  pose proof (Z.mod_pos_bound (2 * v + D) (2 * D) ltac:(lia)) as Hb.
  nia.
Qed.

Lemma digits_iter_xO p k :
  Zpos (digits2_pos (Pos.iter xO p k)) = Zpos (digits2_pos p) + Zpos k.
Proof.
  induction k as [ | k IH] using Pos.peano_ind.
  - simpl. lia.
  - rewrite Pos.iter_succ. cbn [digits2_pos]. lia.
Qed.

(** Rounding a mantissa of exactly 53 digits at an exponent of the format
    changes nothing. *)
Lemma binary_round_aux_exact s m e :
  Zpos (digits2_pos m) = 53 -> -1074 <= e <= 971 ->
  binary_round_aux prec emax s (Zpos m) e loc_Exact = S754_finite s m e.
Proof.
  intros Hd He. unfold binary_round_aux, shr_fexp. cbn [Zdigits2]. rewrite Hd.
  assert (Hf : fexp prec emax (53 + e) - e = 0) by (unfold fexp, emin, prec, emax; lia).
  rewrite Hf. cbn [shr shr_record_of_loc shr_m loc_of_shr_record round_nearest_even Zdigits2].
  rewrite Hd, Hf. cbn [shr shr_record_of_loc shr_m].
  destruct (Z.leb_spec e (emax - prec)); [reflexivity | unfold emax, prec in *; lia].
Qed.

(** An integer below [2^53] in absolute value is a number. *)
Lemma binary_normalize_integer n s :
  Z.abs n < 2 ^ 53 ->
  integer_value (binary_normalize prec emax n 0 s) = Some n.
Proof.
  intros Hn.
  assert (Hgen : forall sg p, Zpos p < 2 ^ 53 ->
            integer_value (binary_round prec emax sg p 0) = Some (cond_Zopp sg (Zpos p))).
  { intros sg p Hp. unfold binary_round.
    pose proof (digits2_pos_lower p) as Hl.
    set (d := Zpos (digits2_pos p)) in *.
    assert (Hd : d <= 53).
    { destruct (Z_lt_le_dec 53 d) as [Hlt | ]; [ | lia].
      assert (2 ^ 53 <= 2 ^ (d - 1)) by (apply Z.pow_le_mono_r; lia). lia. }
    assert (Hf : fexp prec emax (d + 0) = d - 53)
      by (unfold fexp, emin, prec, emax, d; lia).
    rewrite Hf. unfold shl_align.
    destruct (d - 53 - 0) as [ | k | k] eqn:Ek; try lia.
    - rewrite binary_round_aux_exact by (fold d; lia).
      cbn [integer_value]. change (0 <=? 0) with true. cbv iota.
      rewrite Z.pow_0_r, Z.mul_1_r. reflexivity.
    - assert (Hk : Zpos k = 53 - d) by lia.
      rewrite binary_round_aux_exact by (rewrite ?digits_iter_xO; fold d; lia).
      cbn [integer_value].
      destruct (Z.leb_spec 0 (d - 53)); [lia | ].
      rewrite iter_xO_pow. replace (- (d - 53)) with (Zpos k) by lia.
      rewrite Z.mod_mul, Z.div_mul by (apply Z.pow_nonzero; lia).
      reflexivity. }
  destruct n as [ | p | p]; cbn [binary_normalize].
  - reflexivity.
  - apply (Hgen false). exact Hn.
  - apply (Hgen true). exact Hn.
Qed.

(** [Math.round] of a finite number [x = (-1)^s * m * 2^e] is an integer
    [n]: [x] itself when [e >= 0], and otherwise the [n] with
    [n - 1/2 <= x < n + 1/2]. *)
Lemma Math_round_nearest s m e :
  valid (S754_finite s m e) = true ->
  exists n,
    integer_value (Math_round (S754_finite s m e)) = Some n /\
    (0 <= e -> n = cond_Zopp s (Zpos m * 2 ^ e)) /\
    (e < 0 ->
     (2 * n - 1) * 2 ^ (- e) <= 2 * cond_Zopp s (Zpos m) < (2 * n + 1) * 2 ^ (- e)).
Proof.
  intros V. cbn [Math_round].
  destruct (Z.leb_spec 0 e) as [He | He].
  - exists (cond_Zopp s (Zpos m * 2 ^ e)). cbn [integer_value].
    destruct (Z.leb_spec 0 e); [ | lia].
    split; [reflexivity | split; [auto | intros; lia]].
  - exists (round_half_up s m e).
    pose proof (round_half_up_nearest s m e He) as Hn. cbv zeta in Hn.
    split; [ | split; [intros; lia | auto]].
    apply binary_normalize_integer.
    destruct (valid_finite_bounds _ _ _ V) as (_ & Hm & _).
    assert (HD : 2 ^ 1 <= 2 ^ (- e)) by (apply Z.pow_le_mono_r; lia).
    change (2 ^ 1) with 2 in HD.
    assert (Hv : Z.abs (cond_Zopp s (Zpos m)) < 2 ^ 53) by (destruct s; simpl; lia).
    set (v := cond_Zopp s (Zpos m)) in *. set (D := 2 ^ (- e)) in *.
    set (n := round_half_up s m e) in *. nia.
Qed.

(** ** Values: identity and truthiness *)

Lemma strict_eq_JStr_l s v : strict_eq (JStr s) v = true <-> v = JStr s.
Proof.
  destruct v; simpl; split; intros H; try discriminate H.
  - apply String.eqb_eq in H. congruence.
  - injection H as ->. apply String.eqb_refl.
Qed.

Lemma strict_eq_JStr_r s v : strict_eq v (JStr s) = true <-> v = JStr s.
Proof.
  destruct v; simpl; split; intros H; try discriminate H.
  - apply String.eqb_eq in H. congruence.
  - injection H as ->. apply String.eqb_refl.
Qed.

Lemma SFeqb_sym x y : SFeqb x y = SFeqb y x.
Proof.
  unfold SFeqb, SFcompare.
  destruct x as [ [ | ] | [ | ] | | [ | ] m1 e1 ], y as [ [ | ] | [ | ] | | [ | ] m2 e2 ];
    try reflexivity;
    rewrite (Z.compare_antisym e1 e2);
    change (Pos.compare_cont Eq m2 m1) with (Pos.compare m2 m1);
    change (Pos.compare_cont Eq m1 m2) with (Pos.compare m1 m2);
    rewrite (Pos.compare_antisym m1 m2);
    destruct (e1 ?= e2); simpl; try reflexivity;
    destruct (m1 ?= m2)%positive; reflexivity.
Qed.

Lemma strict_eq_sym a b : strict_eq a b = strict_eq b a.
Proof.
  destruct a, b; simpl; try reflexivity.
  - destruct b, b0; reflexivity.
  - apply SFeqb_sym.
  - apply String.eqb_sym.
Qed.

(** Identical values are both truthy or both falsy. *)
Lemma strict_eq_truthy a b : strict_eq a b = true -> truthy a = truthy b.
Proof.
  destruct a, b; simpl; intros H; try discriminate H; try reflexivity.
  - apply Bool.eqb_prop in H. congruence.
  - unfold SFeqb, SFcompare in H.
    destruct x as [ [ | ] | [ | ] | | [ | ] m1 e1 ], x0 as [ [ | ] | [ | ] | | [ | ] m2 e2 ];
      try reflexivity; discriminate H.
  - apply String.eqb_eq in H. congruence.
Qed.

Lemma truthy_JStr s : truthy (JStr s) = true <-> s <> "".
Proof.
  simpl. rewrite negb_true_iff. split.
  - intros H ->. discriminate H.
  - intros H. apply String.eqb_neq. exact H.
Qed.

Lemma falsy_false v : falsy v = false <-> truthy v = true.
Proof. unfold falsy. destruct (truthy v); simpl; split; congruence. Qed.

(** ** [users.find] *)

Lemma find_user_Some users phone i u :
  find_user users phone = Some (i, u) <->
  users !! i = Some u /\ strict_eq (User.phoneNumber u) phone = true /\
  forall j v, users !! j = Some v -> (j < i)%nat ->
              strict_eq (User.phoneNumber v) phone = false.
Proof.
  unfold find_user. rewrite list_find_Some. split.
  - intros (H1 & H2 & H3). repeat split; auto.
    intros j v Hj Hlt. specialize (H3 j v Hj Hlt).
    destruct (strict_eq (User.phoneNumber v) phone); congruence.
  - intros (H1 & H2 & H3). repeat split; auto.
    intros j v Hj Hlt. rewrite (H3 j v Hj Hlt). discriminate.
Qed.

Lemma find_user_None users phone :
  find_user users phone = None <->
  forall u, u ∈ users -> strict_eq (User.phoneNumber u) phone = false.
Proof.
  unfold find_user. rewrite list_find_None, Forall_forall. split.
  - intros H u Hu. specialize (H u Hu).
    destruct (strict_eq (User.phoneNumber u) phone); congruence.
  - intros H u Hu. rewrite (H u Hu). discriminate.
Qed.

(** Writing to the found record a record with the same phone number leaves
    [find] on that index. *)
Lemma find_user_insert users phone i u u' :
  find_user users phone = Some (i, u) ->
  User.phoneNumber u' = User.phoneNumber u ->
  find_user (<[i := u']> users) phone = Some (i, u').
Proof.
  rewrite !find_user_Some. intros (H1 & H2 & H3) Hp.
  assert (i < length users)%nat by (eapply lookup_lt_Some; eauto).
  repeat split.
  - apply list_lookup_insert_eq. assumption.
  - rewrite Hp. assumption.
  - intros j v Hj Hlt. rewrite list_lookup_insert_ne in Hj by lia. eauto.
Qed.

(** The length test [password.length < 8] on a short string. *)
Lemma short_length n : (n < 8)%nat -> js_lt (num (Z.of_nat n)) (num 8) = true.
Proof.
  intros H.
  do 8 (destruct n as [ | n]; [vm_compute; reflexivity | ]). lia.
Qed.

Lemma SFeqb_true x y :
  SFeqb x y = true ->
  x = y \/ exists s s', x = S754_zero s /\ y = S754_zero s'.
Proof.
  unfold SFeqb, SFcompare.
  destruct x as [ sx | [ | ] | | [ | ] m1 e1 ], y as [ sy | [ | ] | | [ | ] m2 e2 ];
    intros H; try discriminate H; eauto;
    destruct (Z.compare_spec e1 e2) as [-> | | ]; try discriminate H;
    change (Pos.compare_cont Eq m1 m2) with (Pos.compare m1 m2) in H;
    destruct (Pos.compare_spec m1 m2) as [-> | | ]; try discriminate H; eauto.
Qed.

Lemma SFeqb_common x y z : SFeqb x z = true -> SFeqb y z = true -> SFeqb x y = true.
Proof.
  intros H1 H2.
  destruct (SFeqb_true _ _ H1) as [-> | (s1 & s1' & -> & ->)].
  - rewrite SFeqb_sym. exact H2.
  - destruct (SFeqb_true _ _ H2) as [-> | (s2 & s2' & -> & _)]; reflexivity.
Qed.

(** Two values identical to a third are identical. *)
Lemma strict_eq_common a b c :
  strict_eq a c = true -> strict_eq b c = true -> strict_eq a b = true.
Proof.
  destruct a, b, c; simpl; intros H1 H2; try discriminate; try reflexivity.
  - apply Bool.eqb_prop in H1, H2. subst. apply Bool.eqb_reflx.
  - eapply SFeqb_common; eassumption.
  - apply String.eqb_eq in H1, H2. subst. apply String.eqb_refl.
Qed.

(** A value identical to another one is a primitive and has no property. *)
Lemma strict_eq_has_property k a b :
  strict_eq a b = true -> has_property k a = false.
Proof. destruct a, b; simpl; intros H; try discriminate; reflexivity. Qed.

(** ** The digest is 64 hexadecimal characters *)

Lemma be_bytes_length n x : length (NodeCrypto.be_bytes n x) = n.
Proof. induction n; simpl; congruence. Qed.

Lemma round_length st kw : length (NodeCrypto.round st kw) = length st.
Proof.
  unfold NodeCrypto.round.
  do 9 (destruct st as [ | ? st]; [reflexivity | ]). reflexivity.
Qed.

Lemma fold_round_length l st :
  length (fold_left NodeCrypto.round l st) = length st.
Proof.
  revert st. induction l as [ | kw l IH]; intros st; simpl; [reflexivity | ].
  rewrite IH. apply round_length.
Qed.

Lemma compress_length h block : length (NodeCrypto.compress h block) = length h.
Proof.
  unfold NodeCrypto.compress.
  rewrite length_map, length_combine, fold_round_length. lia.
Qed.

Lemma fold_compress_length blocks h :
  length (fold_left NodeCrypto.compress blocks h) = length h.
Proof.
  revert h. induction blocks as [ | b blocks IH]; intros h; simpl; [reflexivity | ].
  rewrite IH. apply compress_length.
Qed.

Lemma flat_be_bytes_length n (h : list Z) :
  length (flat_map (NodeCrypto.be_bytes n) h) = (n * length h)%nat.
Proof.
  induction h as [ | x h IH]; simpl; [lia | ].
  rewrite length_app, be_bytes_length, IH. lia.
Qed.

Lemma sha256_length msg : length (NodeCrypto.sha256 msg) = 32%nat.
Proof.
  unfold NodeCrypto.sha256. rewrite flat_be_bytes_length, fold_compress_length.
  reflexivity.
Qed.

Lemma hex_length bs : String.length (NodeCrypto.hex bs) = (2 * length bs)%nat.
Proof. induction bs as [ | b bs IH]; simpl; [reflexivity | ]. rewrite IH. lia. Qed.

Lemma hmac_sha256_hex_length key data :
  String.length (NodeCrypto.hmac_sha256_hex key data) = 64%nat.
Proof.
  unfold NodeCrypto.hmac_sha256_hex, NodeCrypto.hmac_sha256.
  rewrite hex_length, sha256_length. reflexivity.
Qed.

Lemma expectedSignature_truthy o p :
  truthy (JStr (expectedSignature o p)) = true.
Proof.
  apply truthy_JStr. intros H.
  pose proof (hmac_sha256_hex_length RAZORPAY_KEY_SECRET (signed_body o p)) as L.
  unfold expectedSignature in H. rewrite H in L. discriminate L.
Qed.



(** ** Conversions *)

(** A value found by [===] is a primitive, and converts to a string. *)
Lemma strict_eq_to_string a b :
  strict_eq a b = true -> exists s, to_string b = Some s.
Proof.
  destruct a, b; cbn [strict_eq]; intros H; try discriminate H;
    cbn [to_string]; eauto.
Qed.

Lemma found_to_string users phone i user :
  find_user users phone = Some (i, user) -> exists s, to_string phone = Some s.
Proof.
  intros H. apply find_user_Some in H as (_ & H & _).
  eapply strict_eq_to_string. exact H.
Qed.

Lemma template_two a b :
  template [a; b] = (x ← to_string a; y ← to_string b; Some [x; y]).
Proof.
  unfold template. cbn. destruct (to_string a), (to_string b); reflexivity.
Qed.

Lemma template_three a b c :
  template [a; b; c]
  = (x ← to_string a; y ← to_string b; z ← to_string c; Some [x; y; z]).
Proof.
  unfold template. cbn.
  destruct (to_string a), (to_string b), (to_string c); reflexivity.
Qed.

(** A property of a value that is neither [undefined] nor [null] can be
    read. *)
Lemma get_field v k : eq_null v = false -> get v k = Some (field v k).
Proof. unfold field. destruct v; cbn; intros H; try discriminate H; reflexivity. Qed.

Lemma truthy_not_null v : truthy v = true -> eq_null v = false.
Proof. destruct v; cbn; intros H; try discriminate H; reflexivity. Qed.

Lemma get_Some_field v k x : get v k = Some x -> field v k = x.
Proof. unfold field. intros ->. reflexivity. Qed.

(** The length of a string is a number. *)
Lemma length_JStr p :
  (len ← get (JStr p) "length"; to_number len)
  = Some (num (Z.of_nat (String.length p))).
Proof. reflexivity. Qed.

(** ** Checked properties of the handlers *)

(** C9.  A password of fewer than 8 characters is always refused with
    status 400: [/register] then creates no record and
    [/api/update-profile], given it as the new password, leaves every
    stored password as it was; neither writes the file. *)
Theorem short_password_rejected (users : list User) (req_body : JsVal) (p : string) :
  (String.length p < 8)%nat ->
  (field req_body "password" = JStr p ->
     let r := register users req_body in
     status (response r) = HTTP 400 /\ users_after r = users /\ effects r = []) /\
  (field req_body "newPassword" = JStr p ->
     let r := update_profile users req_body in
     status (response r) = HTTP 400 /\ users_after r = users /\ effects r = []).
Proof.
  intros Hlen. split; intros Hp; cbv zeta.
  - unfold register. rewrite Hp.
    destruct (falsy _ || falsy _ || falsy _); [repeat split | ].
    rewrite length_JStr, short_length by assumption. repeat split.
  - unfold update_profile. rewrite Hp.
    destruct (falsy _ || falsy _ || falsy _); [repeat split | ].
    rewrite length_JStr, short_length by assumption. repeat split.
Qed.


(** A request that passes both checks of [/verify-payment]: the order is
    fetched and the [try] block decides. *)
Lemma verify_payment_signed razorpay users req_body O P :
  let o := field req_body "razorpay_order_id" in
  let p := field req_body "razorpay_payment_id" in
  truthy o = true -> truthy p = true ->
  to_string o = Some O -> to_string p = Some P ->
  field req_body "razorpay_signature" = JStr (expectedSignature O P) ->
  verify_payment razorpay users req_body =
    let r :=
      match fetch razorpay o with
      | resolved order => apply_order users o (field req_body "productData") order
      | rejected _ => failed users []
      end in
    {| response := response r; users_after := users_after r;
       effects := orders_fetch o :: effects r |}.
Proof.
  cbv zeta. intros Ho Hp HO HP Hs. unfold verify_payment. rewrite Hs, HO, HP.
  unfold falsy. rewrite Ho, Hp, expectedSignature_truthy.
  cbn [negb orb mbind option_bind strict_eq]. rewrite String.eqb_refl. reflexivity.
Qed.

(** The top-up branch of the [try] block. *)
Lemma apply_order_topup users o productData order notes phone i user M :
  get order "notes" = Some notes ->
  get notes "phoneNumber" = Some phone ->
  truthy productData = false \/ get notes "purchaseType" <> Some (JStr "product") ->
  to_number (field order "amount") = Some M ->
  find_user users phone = Some (i, user) ->
  let credited :=
    with_balance user (js_add (User.balance user) (js_div M (num 100))) in
  apply_order users o productData order =
    {| response :=
         {| status := HTTP 200;
            body := json (JObj [("status", JStr "success");
                                ("orderId", o);
                                ("newBalance", JNum (User.balance credited))]) |};
       users_after := <[i := credited]> users;
       effects := [writeFile (<[i := credited]> users)] |}.
Proof.
  intros Hnotes Hphone Htype Hamount Hfind. cbv zeta.
  unfold apply_order. rewrite Hnotes. cbn [mbind option_bind].
  rewrite Hphone. cbn [mbind option_bind]. rewrite Hfind.
  assert (Hbranch :
    (if truthy productData
     then purchaseType ← get notes "purchaseType";
          Some (strict_eq purchaseType (JStr "product"))
     else Some false) = Some false).
  { destruct (truthy productData); [ | reflexivity].
    destruct Htype as [Htype | Htype]; [discriminate Htype | ].
    destruct (get notes "purchaseType") as [pt | ] eqn:Ept.
    - cbn [mbind option_bind]. f_equal.
      destruct (strict_eq pt (JStr "product")) eqn:E; [ | reflexivity].
      apply strict_eq_JStr_r in E. congruence.
    - destruct notes; discriminate. }
  rewrite Hbranch, Hamount, template_two.
  destruct (found_to_string _ _ _ _ Hfind) as [digits ->]. reflexivity.
Qed.

(** The product branch of the [try] block: the product is pushed and the
    array saved, whatever the log line does afterwards. *)
Lemma apply_order_product users o productData order notes phone i user purchased :
  get order "notes" = Some notes ->
  get notes "phoneNumber" = Some phone ->
  get notes "purchaseType" = Some (JStr "product") ->
  truthy productData = true ->
  find_user users phone = Some (i, user) ->
  User.hashrate user = Some purchased ->
  let owner := with_hashrate user (purchased ++ [productData]) in
  apply_order users o productData order =
    match to_string (field productData "name") with
    | Some _ =>
        {| response :=
             {| status := HTTP 200;
                body := json (JObj [("status", JStr "success");
                                    ("message", JStr "Product purchased successfully.")]) |};
           users_after := <[i := owner]> users;
           effects := [writeFile (<[i := owner]> users)] |}
    | None => failed (<[i := owner]> users) [writeFile (<[i := owner]> users)]
    end.
Proof.
  intros Hnotes Hphone Htype Hdata Hfind Hlist. cbv zeta.
  unfold apply_order. rewrite Hnotes. cbn [mbind option_bind].
  rewrite Hphone. cbn [mbind option_bind]. rewrite Hfind, Hdata, Htype.
  cbn [mbind option_bind strict_eq]. rewrite String.eqb_refl, Hlist.
  rewrite (get_field productData "name") by (apply truthy_not_null; exact Hdata).
  cbn [mbind option_bind]. rewrite template_two.
  destruct (found_to_string _ _ _ _ Hfind) as [digits ->].
  cbn [mbind option_bind].
  destruct (to_string (field productData "name")); reflexivity.
Qed.

(** The index of a found record is one of the array. *)
Lemma find_user_lt users phone i user :
  find_user users phone = Some (i, user) -> (i < length users)%nat.
Proof.
  intros H. apply find_user_Some in H as (H & _). eapply lookup_lt_Some. exact H.
Qed.

(** A valid top-up request, on the whole result and on the record read
    back from the array. *)
Lemma verify_payment_topup
    (razorpay : Gateway) (users : list User) (req_body order notes phone : JsVal)
    (O P : string) (i : nat) (user : User) (M : number) :
  let o := field req_body "razorpay_order_id" in
  let p := field req_body "razorpay_payment_id" in
  let r := verify_payment razorpay users req_body in
  truthy o = true -> truthy p = true ->
  to_string o = Some O -> to_string p = Some P ->
  field req_body "razorpay_signature" = JStr (expectedSignature O P) ->
  fetch razorpay o = resolved order ->
  get order "notes" = Some notes ->
  get notes "phoneNumber" = Some phone ->
  get notes "purchaseType" <> Some (JStr "product") ->
  to_number (field order "amount") = Some M ->
  find_user users phone = Some (i, user) ->
  let paid := js_add (User.balance user) (js_div M (num 100)) in
  r = {| response :=
           {| status := HTTP 200;
              body := json (JObj [("status", JStr "success");
                                  ("orderId", o);
                                  ("newBalance", JNum paid)]) |};
         users_after := <[i := with_balance user paid]> users;
         effects := [orders_fetch o; writeFile (<[i := with_balance user paid]> users)] |} /\
  users_after r !! i = Some (with_balance user paid).
Proof.
  cbv zeta. intros Ho Hp HO HP Hs Hfetch Hnotes Hphone Htype Hamount Hfind.
  rewrite (verify_payment_signed _ _ _ O P) by assumption. cbv zeta. rewrite Hfetch.
  erewrite apply_order_topup by (try right; eassumption).
  cbn [response users_after effects].
  split; [reflexivity | ].
  apply list_lookup_insert_eq. eapply find_user_lt. eassumption.
Qed.

(** C2.  A request with a valid signature whose fetched order is not marked
    as a product purchase, and whose [notes.phoneNumber] is that of a
    stored user with balance [B], sets that user's balance to
    [B + M / 100] for the number [M] of the order's amount and hands the
    whole array to [saveUsers()]; the other records are untouched.  The
    signature is valid when the identifiers are truthy, convert to strings
    and the signature is the HMAC of these. *)
Theorem verified_topup_credits_balance
    (razorpay : Gateway) (users : list User) (req_body order notes phone : JsVal)
    (O P : string) (i : nat) (user : User) (M : number) :
  let o := field req_body "razorpay_order_id" in
  let p := field req_body "razorpay_payment_id" in
  let r := verify_payment razorpay users req_body in
  truthy o = true -> truthy p = true ->
  to_string o = Some O -> to_string p = Some P ->
  field req_body "razorpay_signature" = JStr (expectedSignature O P) ->
  fetch razorpay o = resolved order ->
  get order "notes" = Some notes ->
  get notes "phoneNumber" = Some phone ->
  get notes "purchaseType" <> Some (JStr "product") ->
  to_number (field order "amount") = Some M ->
  find_user users phone = Some (i, user) ->
  let B := User.balance user in
  let credited := with_balance user (js_add B (js_div M (num 100))) in
  r = {| response :=
           {| status := HTTP 200;
              body := json (JObj [("status", JStr "success");
                                  ("orderId", o);
                                  ("newBalance", JNum (js_add B (js_div M (num 100))))]) |};
         users_after := <[i := credited]> users;
         effects := [orders_fetch o; writeFile (<[i := credited]> users)] |} /\
  User.balance <$> (users_after r !! i) = Some (js_add B (js_div M (num 100))) /\
  User.hashrate <$> (users_after r !! i) = Some (User.hashrate user) /\
  (forall j, j <> i -> users_after r !! j = users !! j).
Proof.
  cbv zeta. intros Ho Hp HO HP Hs Hfetch Hnotes Hphone Htype Hamount Hfind.
  destruct (verify_payment_topup razorpay users req_body order notes phone O P i user M
              Ho Hp HO HP Hs Hfetch Hnotes Hphone Htype Hamount Hfind) as [Hr Hi].
  split; [exact Hr | ]. rewrite Hi.
  split; [reflexivity | ]. split; [reflexivity | ].
  intros j Hj. rewrite Hr. cbn [users_after]. apply list_lookup_insert_ne. congruence.
Qed.


(** The same valid top-up request, sent twice. *)
Lemma verify_payment_replay
    (razorpay : Gateway) (users : list User) (req_body order notes phone : JsVal)
    (O P : string) (i : nat) (user : User) (M : number) :
  let o := field req_body "razorpay_order_id" in
  let p := field req_body "razorpay_payment_id" in
  truthy o = true -> truthy p = true ->
  to_string o = Some O -> to_string p = Some P ->
  field req_body "razorpay_signature" = JStr (expectedSignature O P) ->
  fetch razorpay o = resolved order ->
  get order "notes" = Some notes ->
  get notes "phoneNumber" = Some phone ->
  get notes "purchaseType" <> Some (JStr "product") ->
  to_number (field order "amount") = Some M ->
  find_user users phone = Some (i, user) ->
  let B := User.balance user in
  let A := js_div M (num 100) in
  let first := verify_payment razorpay users req_body in
  let second := verify_payment razorpay (users_after first) req_body in
  status (response first) = HTTP 200 /\
  status (response second) = HTTP 200 /\
  users_after first = <[i := with_balance user (js_add B A)]> users /\
  users_after second = <[i := with_balance user (js_add (js_add B A) A)]> users /\
  User.balance <$> (users_after first !! i) = Some (js_add B A) /\
  User.balance <$> (users_after second !! i) = Some (js_add (js_add B A) A) /\
  body (response second)
  = json (JObj [("status", JStr "success"); ("orderId", o);
                ("newBalance", JNum (js_add (js_add B A) A))]) /\
  effects second = [orders_fetch o; writeFile (users_after second)].
Proof.
  cbv zeta. intros Ho Hp HO HP Hs Hfetch Hnotes Hphone Htype Hamount Hfind.
  set (credited := with_balance user (js_add (User.balance user) (js_div M (num 100)))).
  assert (Hfirst : users_after (verify_payment razorpay users req_body)
                   = <[i := credited]> users).
  { rewrite (verify_payment_signed _ _ _ O P) by assumption. cbv zeta. rewrite Hfetch.
    erewrite apply_order_topup by (try right; eassumption). reflexivity. }
  assert (Hfind' : find_user (<[i := credited]> users) phone = Some (i, credited)).
  { apply find_user_insert with (u := user); [assumption | reflexivity]. }
  pose proof (find_user_lt _ _ _ _ Hfind) as Hlt.
  rewrite Hfirst.
  rewrite !(verify_payment_signed _ _ _ O P) by assumption. cbv zeta. rewrite Hfetch.
  erewrite !apply_order_topup by (try right; eassumption).
  cbn [response users_after effects status body].
  rewrite list_insert_insert_eq, !list_lookup_insert_eq by exact Hlt. repeat split.
Qed.

(** C4.  [/verify-payment] is not idempotent.  There is a top-up order,
    for an amount [A = 500], whose valid confirmation sent twice is
    accepted twice: the balance of the user, 100 at first, is 600 after
    the first call and [100 + 2 * A = 1100] after the second, which is
    also the [newBalance] of the second answer.  The handler keeps no
    record of the orders it has applied: every valid top-up request sent
    a second time is accepted again and credits the amount again, the
    balance ending at [(B + A) + A]. *)
Theorem verify_payment_replay_credits_twice :
  (let req_body :=
     JObj [("razorpay_order_id", JStr "order_9");
           ("razorpay_payment_id", JStr "pay_7");
           ("razorpay_signature", JStr (expectedSignature "order_9" "pay_7"))] in
   let razorpay := Sample.gateway Sample.topup_order in
   let first := verify_payment razorpay [Sample.alice] req_body in
   let second := verify_payment razorpay (users_after first) req_body in
   User.balance Sample.alice = num 100 /\
   js_div (num 50000) (num 100) = num 500 /\
   status (response first) = HTTP 200 /\
   status (response second) = HTTP 200 /\
   User.balance <$> (users_after first !! 0%nat) = Some (num 600) /\
   User.balance <$> (users_after second !! 0%nat) = Some (num 1100) /\
   body (response second)
   = json (JObj [("status", JStr "success"); ("orderId", JStr "order_9");
                 ("newBalance", JNum (num 1100))]) /\
   length (users_after second) = 1%nat /\
   js_add (num 100) (js_mul (num 2) (num 500)) = num 1100) /\
  (forall (razorpay : Gateway) (users : list User)
          (req_body order notes phone : JsVal) (O P : string)
          (i : nat) (user : User) (M : number),
     let o := field req_body "razorpay_order_id" in
     let p := field req_body "razorpay_payment_id" in
     truthy o = true -> truthy p = true ->
     to_string o = Some O -> to_string p = Some P ->
     field req_body "razorpay_signature" = JStr (expectedSignature O P) ->
     fetch razorpay o = resolved order ->
     get order "notes" = Some notes ->
     get notes "phoneNumber" = Some phone ->
     get notes "purchaseType" <> Some (JStr "product") ->
     to_number (field order "amount") = Some M ->
     find_user users phone = Some (i, user) ->
     let B := User.balance user in
     let A := js_div M (num 100) in
     let first := verify_payment razorpay users req_body in
     let second := verify_payment razorpay (users_after first) req_body in
     status (response first) = HTTP 200 /\
     status (response second) = HTTP 200 /\
     users_after first = <[i := with_balance user (js_add B A)]> users /\
     users_after second = <[i := with_balance user (js_add (js_add B A) A)]> users /\
     User.balance <$> (users_after first !! i) = Some (js_add B A) /\
     User.balance <$> (users_after second !! i) = Some (js_add (js_add B A) A) /\
     body (response second)
     = json (JObj [("status", JStr "success"); ("orderId", o);
                   ("newBalance", JNum (js_add (js_add B A) A))]) /\
     effects second = [orders_fetch o; writeFile (users_after second)]).
Proof.
  split; [ | exact verify_payment_replay].
  cbv zeta.
  destruct (verify_payment_replay (Sample.gateway Sample.topup_order) [Sample.alice]
              (JObj [("razorpay_order_id", JStr "order_9");
                     ("razorpay_payment_id", JStr "pay_7");
                     ("razorpay_signature",
                      JStr (expectedSignature "order_9" "pay_7"))])
              Sample.topup_order Sample.topup_notes (JStr "9876543210")
              "order_9" "pay_7" 0%nat Sample.alice (num 50000))
    as (H1 & H2 & H3 & H4 & H5 & H6 & H7 & _);
    try reflexivity; try (intros H; discriminate H).
  split; [reflexivity | ]. split; [evaluate | ].
  split; [exact H1 | ]. split; [exact H2 | ].
  split; [rewrite H5; evaluate | ]. split; [rewrite H6; evaluate | ].
  split; [rewrite H7; evaluate | ]. split; [rewrite H4; reflexivity | evaluate].
Qed.

(** A number that is neither [NaN] nor [<= 0] is positive. *)
Lemma positive_shape P :
  isNaN P = false -> js_le P (num 0) = false ->
  (exists m e, P = S754_finite false m e) \/ P = S754_infinity false.
Proof.
  destruct P as [ [ | ] | [ | ] | | [ | ] m e ]; simpl; intros H1 H2;
    try discriminate; eauto.
Qed.

(** A number above a non-negative one is positive. *)
Lemma above_not_negative B P :
  js_le (num 0) B = true -> js_lt B P = true ->
  isNaN P = false /\ js_le P (num 0) = false.
Proof.
  destruct B as [ [ | ] | [ | ] | | [ | ] mb eb ], P as [ [ | ] | [ | ] | | [ | ] m e ];
    simpl; intros H1 H2; try discriminate; split; reflexivity.
Qed.

(** A value whose number is positive is truthy. *)
Lemma positive_truthy price P :
  to_number price = Some P ->
  isNaN P = false -> js_le P (num 0) = false ->
  truthy price = true.
Proof.
  destruct price as [ | | [ | ] | x | s | l | o ]; cbn [to_number truthy];
    intros H0 H1 H2; try reflexivity; injection H0 as <-; try discriminate.
  - destruct x as [ [ | ] | [ | ] | | [ | ] m e ]; try discriminate; reflexivity.
  - destruct s as [ | a s]; [ | reflexivity].
    rewrite StringToNumber_empty in H2. discriminate H2.
Qed.

(** Only an object has a truthy [price]. *)
Lemma priced_is_truthy productData price :
  get productData "price" = Some price -> truthy price = true ->
  truthy productData = true.
Proof.
  destruct productData; simpl; intros H Ht; try discriminate H;
    try reflexivity; injection H as <-; discriminate Ht.
Qed.

(** C5.  [/api/buy-product] keeps a balance non-negative.  For a stored
    user with balance [B >= 0] named by the request and a price whose
    number [P] exceeds [B], the answer is 402 and neither the array nor the
    file changes; and when the answer is 200 the price has a number [P],
    the product has been appended and the user's balance has become
    [B - P], which is not negative ([B] being a finite number). *)
Theorem buy_product_keeps_balance_non_negative
    (users : list User) (req_body price : JsVal) (i : nat) (user : User) :
  let phone := field req_body "phoneNumber" in
  let productData := field req_body "productData" in
  let B := User.balance user in
  let r := buy_product users req_body in
  truthy phone = true ->
  find_user users phone = Some (i, user) ->
  get productData "price" = Some price ->
  (forall P, to_number price = Some P ->
     js_le (num 0) B = true -> js_lt B P = true ->
     r = reply users (HTTP 402) (message "Insufficient balance.")) /\
  (status (response r) = HTTP 200 ->
     exists P,
       to_number price = Some P /\
       js_lt B P = false /\
       (valid B = true -> finite B = true -> valid P = true ->
        js_le (num 0) (js_sub B P) = true) /\
       exists purchased,
         User.hashrate user = Some purchased /\
         let buyer := with_hashrate (with_balance user (js_sub B P))
                                    (purchased ++ [productData]) in
         users_after r = <[i := buyer]> users /\
         effects r = [writeFile (<[i := buyer]> users)] /\
         body (response r)
         = json (JObj [("success", JBool true); ("newBalance", JNum (js_sub B P))])).
Proof.
  cbv zeta. intros Hphone Hfind Hprice.
  unfold buy_product. rewrite Hprice. cbn [mbind option_bind]. split.
  - intros P HP HB Hlt. rewrite HP. cbn [mbind option_bind]. rewrite Hfind.
    destruct (above_not_negative _ _ HB Hlt) as [Hnan Hpos].
    pose proof (positive_truthy _ _ HP Hnan Hpos) as Htp.
    pose proof (priced_is_truthy _ _ Hprice Htp) as Htd.
    unfold falsy. rewrite Hphone, Htd, Htp, Hnan, Hpos, Hlt. reflexivity.
  - destruct (to_number price) as [P | ]; [ | simpl; intros H; status_clash H].
    cbn [mbind option_bind]. rewrite Hfind.
    destruct (falsy _ || falsy _ || falsy _ || isNaN _ || js_le _ _) eqn:G.
    { simpl. intros H. status_clash H. }
    apply orb_false_iff in G as [G Hpos]. apply orb_false_iff in G as [G Hnan].
    destruct (js_lt (User.balance user) P) eqn:Hlt.
    { simpl. intros H. status_clash H. }
    cbn [with_balance User.hashrate].
    destruct (User.hashrate user) as [purchased | ] eqn:Hlist.
    2:{ simpl. intros H. status_clash H. }
    rewrite template_three.
    destruct (found_to_string _ _ _ _ Hfind) as [digits ->].
    cbn [mbind option_bind to_string].
    intros _. exists P. split; [reflexivity | ]. split; [exact Hlt | ]. split.
    + intros VB FB VP.
      apply not_negative_le. apply js_sub_not_negative; try assumption.
      * destruct (User.balance user); try discriminate FB; reflexivity.
      * destruct (positive_shape _ Hnan Hpos) as [Hfin | Hinf]; [exact Hfin | ].
        rewrite Hinf in Hlt.
        destruct (User.balance user) as [ [ | ] | [ | ] | | [ | ] mb eb ];
          discriminate.
    + exists purchased. split; [reflexivity | ]. repeat split.
Qed.

(** ** The array over time *)

Lemma find_user_lookup users phone i u :
  find_user users phone = Some (i, u) -> users !! i = Some u.
Proof. intros H. apply find_user_Some in H. tauto. Qed.

Lemma register_change users req_body :
  change users (users_after (register users req_body)).
Proof.
  unfold register.
  destruct (falsy _ || falsy _ || falsy _) eqn:F; [apply unchanged | ].
  apply orb_false_iff in F as [F _]. apply orb_false_iff in F as [Fphone Fpw].
  apply falsy_false in Fphone, Fpw.
  destruct (mbind _ _); [ | apply unchanged].
  destruct (js_lt _ _); [apply unchanged | ].
  destruct (find_user _ _) eqn:Efind; [apply unchanged | ].
  cbn [users_after]. apply appended; assumption.
Qed.

Lemma update_profile_change users req_body :
  change users (users_after (update_profile users req_body)).
Proof.
  unfold update_profile.
  destruct (falsy _ || falsy _ || falsy _) eqn:F; [apply unchanged | ].
  apply orb_false_iff in F as [_ Fnew]. apply falsy_false in Fnew.
  destruct (mbind _ _); [ | apply unchanged].
  destruct (js_lt _ _); [apply unchanged | ].
  destruct (find_user _ _) as [[i user] | ] eqn:Efind; [ | apply unchanged].
  destruct (negb _); [apply unchanged | ].
  cbn [users_after]. apply rewritten with (u := user).
  - eapply find_user_lookup; eassumption.
  - reflexivity.
  - intros _. exact Fnew.
Qed.

Lemma buy_product_change users req_body :
  change users (users_after (buy_product users req_body)).
Proof.
  unfold buy_product.
  destruct (mbind _ _) as [[price numericPrice] | ]; [ | apply unchanged].
  destruct (_ || _); [apply unchanged | ].
  destruct (find_user _ _) as [[i user] | ] eqn:Efind; [ | apply unchanged].
  destruct (js_lt _ _); [apply unchanged | ].
  pose proof (find_user_lookup _ _ _ _ Efind) as Hi.
  cbn [with_balance User.hashrate].
  destruct (User.hashrate user); [destruct (template _) | ];
    cbn [users_after uncaught reply]; apply rewritten with (u := user); auto.
Qed.

Lemma create_order_change razorpay now users req_body :
  change users (users_after (create_order razorpay now users req_body)).
Proof.
  unfold create_order.
  destruct (_ || _); [apply unchanged | ].
  destruct (to_number _); [ | apply unchanged].
  destruct (_ || _); apply unchanged.
Qed.

Lemma apply_order_change users o productData order :
  change users (users_after (apply_order users o productData order)).
Proof.
  unfold apply_order.
  destruct (mbind _ _) as [[notes phone] | ]; [ | apply unchanged].
  destruct (find_user users phone) as [[i user] | ] eqn:Efind.
  - pose proof (find_user_lookup _ _ _ _ Efind) as Hi.
    destruct (if truthy productData then _ else _) as [[ | ] | ];
      [ | | apply unchanged].
    + destruct (User.hashrate user); [ | apply unchanged].
      destruct (name ← get productData "name"; template [phone; name]);
        cbn [users_after failed];
        apply rewritten with (u := user); auto.
    + destruct (to_number _); [ | apply unchanged].
      destruct (template _); cbn [users_after failed];
        apply rewritten with (u := user); auto.
  - destruct (template _); apply unchanged.
Qed.

Lemma verify_payment_change razorpay users req_body :
  change users (users_after (verify_payment razorpay users req_body)).
Proof.
  unfold verify_payment.
  destruct (falsy _ || falsy _ || falsy _); [apply unchanged | ].
  destruct (mbind _ _) as [[order_id payment_id] | ]; [ | apply unchanged].
  destruct (strict_eq _ _); [ | apply unchanged].
  cbn [users_after].
  destruct (fetch razorpay _) as [order | ]; [ | apply unchanged].
  apply apply_order_change.
Qed.

Lemma step_change users users' : step users users' -> change users users'.
Proof.
  intros []; auto using register_change, update_profile_change,
    buy_product_change, create_order_change, verify_payment_change.
Qed.

Lemma change_unique_phones users users' :
  change users users' -> unique_phones users -> unique_phones users'.
Proof.
  intros [ | u Hp Hw Hnone | i u u' Hi Hphone Hpw] Huniq; [assumption | | ].
  - rewrite find_user_None in Hnone.
    intros a b x y Ha Hb Heq.
    apply lookup_app_Some in Ha, Hb.
    destruct Ha as [Ha | [Hla Ha]], Hb as [Hb | [Hlb Hb]].
    + eapply Huniq; eassumption.
    + apply list_lookup_singleton_Some in Hb as [_ <-].
      rewrite Hnone in Heq; [discriminate | ].
      apply list_elem_of_lookup. eauto.
    + apply list_lookup_singleton_Some in Ha as [_ <-].
      rewrite strict_eq_sym, Hnone in Heq; [discriminate | ].
      apply list_elem_of_lookup. eauto.
    + apply list_lookup_singleton_Some in Ha as [Ha _].
      apply list_lookup_singleton_Some in Hb as [Hb _]. lia.
  - intros a b x y Ha Hb Heq.
    assert (Hold : forall k z, <[i := u']> users !! k = Some z ->
                     exists z', users !! k = Some z' /\
                                User.phoneNumber z = User.phoneNumber z').
    { intros k z Hk. apply list_lookup_insert_Some in Hk.
      destruct Hk as [(<- & <- & _) | (_ & Hk)]; eauto. }
    destruct (Hold _ _ Ha) as (x' & Ha' & Hx).
    destruct (Hold _ _ Hb) as (y' & Hb' & Hy).
    rewrite Hx, Hy in Heq. eapply Huniq; eassumption.
Qed.

Lemma change_credentials_present users users' :
  change users users' -> credentials_present users -> credentials_present users'.
Proof.
  intros [ | u Hp Hw Hnone | i u u' Hi Hphone Hpw] Hall; [assumption | | ].
  - intros x Hx. apply elem_of_app in Hx as [Hx | Hx]; [auto | ].
    apply list_elem_of_singleton in Hx as ->. split; assumption.
  - intros x Hx. apply list_elem_of_lookup in Hx as [k Hk].
    apply list_lookup_insert_Some in Hk.
    destruct Hk as [(<- & <- & _) | (_ & Hk)].
    + destruct (Hall u) as [H1 H2]; [apply list_elem_of_lookup; eauto | ].
      rewrite Hphone. auto.
    + apply Hall. apply list_elem_of_lookup. eauto.
Qed.

Lemma reachable_invariant users :
  reachable users -> unique_phones users /\ credentials_present users.
Proof.
  induction 1 as [file Hfile | users users' _ [IH1 IH2] Hstep].
  - assert (fst (loadUsers file) = []) as ->.
    { destruct file as [ | | data]; [reflexivity | reflexivity | ].
      destruct (Hfile data eq_refl). }
    split.
    + intros i j u v Hi. rewrite lookup_nil in Hi. discriminate.
    + intros u Hu. apply elem_of_nil in Hu. contradiction.
  - apply step_change in Hstep.
    split; eauto using change_unique_phones, change_credentials_present.
Qed.


(** C7.  On an array the server can reach, [/login] answers 200 exactly
    when some stored record has the submitted phone number and the
    submitted password ([===], which on strings is equality of strings).
    The 200 body holds a message and, of that record, the phone number and
    the balance only; no property of it is named [password].  Nothing is
    changed or written. *)
Theorem login_succeeds_iff (users : list User) (req_body : JsVal) :
  reachable users ->
  let phone := field req_body "phoneNumber" in
  let pw := field req_body "password" in
  let r := login users req_body in
  (status (response r) = HTTP 200 <->
   exists u, u ∈ users /\ strict_eq (User.phoneNumber u) phone = true
             /\ strict_eq (User.password u) pw = true) /\
  (forall n p, phone = JStr n -> pw = JStr p ->
     (status (response r) = HTTP 200 <->
      exists u, u ∈ users /\ User.phoneNumber u = JStr n /\ User.password u = JStr p)) /\
  (status (response r) = HTTP 200 ->
   exists u, u ∈ users /\
     body (response r)
     = json (JObj [("message", JStr "Login successful!");
                   ("user", JObj [("phoneNumber", User.phoneNumber u);
                                  ("balance", JNum (User.balance u))])]) /\
     has_property "password" (JObj [("message", JStr "Login successful!");
                   ("user", JObj [("phoneNumber", User.phoneNumber u);
                                  ("balance", JNum (User.balance u))])]) = false) /\
  users_after r = users /\ effects r = [].
Proof.
  intros Hreach. cbv zeta.
  destruct (reachable_invariant _ Hreach) as [Huniq Hcred].
  set (phone := field req_body "phoneNumber").
  set (pw := field req_body "password").
  assert (Hshape :
    (exists i u, find_user users phone = Some (i, u) /\
                 truthy phone = true /\ truthy pw = true /\
                 strict_eq (User.password u) pw = true /\
                 login users req_body
                 = reply users (HTTP 200)
                     (json (JObj [("message", JStr "Login successful!");
                                  ("user", JObj [("phoneNumber", User.phoneNumber u);
                                                 ("balance", JNum (User.balance u))])])))
    \/ (status (response (login users req_body)) <> HTTP 200 /\
        users_after (login users req_body) = users /\
        effects (login users req_body) = [] /\
        (falsy phone || falsy pw = true \/
         find_user users phone = None \/
         exists i u, find_user users phone = Some (i, u) /\
                     strict_eq (User.password u) pw = false))).
  { unfold login. fold phone pw.
    destruct (falsy phone || falsy pw) eqn:F.
    { right. repeat split; auto; simpl; intros H; status_clash H. }
    apply orb_false_iff in F as [F1 F2]. apply falsy_false in F1, F2.
    destruct (find_user users phone) as [[i u] | ] eqn:Efind.
    2:{ right. repeat split; auto; simpl; intros H; status_clash H. }
    destruct (strict_eq (User.password u) pw) eqn:Epw; cbn [negb].
    - left. exists i, u. repeat split; auto.
    - right. repeat split; eauto 8; simpl; intros H; status_clash H. }
  assert (Hiff :
    status (response (login users req_body)) = HTTP 200 <->
    exists u, u ∈ users /\ strict_eq (User.phoneNumber u) phone = true
              /\ strict_eq (User.password u) pw = true).
  { split.
    - intros H200.
      destruct Hshape as [(i & u & Hfind & _ & _ & Hpw & _) | (Hne & _)];
        [ | contradiction].
      apply find_user_Some in Hfind as (Hi & Hp & _).
      exists u. repeat split; auto. apply list_elem_of_lookup. eauto.
    - intros (u & Hu & Hp & Hw).
      destruct Hshape as [(i & u' & _ & _ & _ & _ & ->) | (_ & _ & _ & Hwhy)];
        [reflexivity | ].
      exfalso. destruct (Hcred u Hu) as [Tp Tw].
      destruct Hwhy as [F | [Hnone | (i & u' & Hfind & Hbad)]].
      + unfold falsy in F.
        rewrite <- (strict_eq_truthy _ _ Hp), <- (strict_eq_truthy _ _ Hw), Tp, Tw in F.
        discriminate F.
      + rewrite find_user_None in Hnone. rewrite (Hnone u Hu) in Hp. discriminate Hp.
      + apply find_user_Some in Hfind as (Hi & Hp' & _).
        apply list_elem_of_lookup in Hu as [j Hj].
        assert (j = i).
        { apply (Huniq j i u u' Hj Hi). eapply strict_eq_common; eassumption. }
        subst j. rewrite Hi in Hj. injection Hj as ->.
        rewrite Hw in Hbad. discriminate Hbad. }
  split; [exact Hiff | ]. split; [ | split; [ | split]].
  - intros n p Hn Hp. rewrite Hiff, Hn, Hp. split.
    + intros (u & Hu & H1 & H2). exists u.
      apply strict_eq_JStr_r in H1, H2. auto.
    + intros (u & Hu & H1 & H2). exists u. rewrite H1, H2. simpl.
      rewrite !String.eqb_refl. auto.
  - intros H200.
    destruct Hshape as [(i & u & Hfind & _ & _ & _ & ->) | (Hne & _)];
      [ | contradiction].
    apply find_user_Some in Hfind as (Hi & Hp & _).
    exists u. split; [apply list_elem_of_lookup; eauto | ]. split; [reflexivity | ].
    cbn. rewrite (strict_eq_has_property _ _ _ Hp). reflexivity.
  - destruct Hshape as [(i & u & _ & _ & _ & _ & ->) | (_ & H & _)]; auto.
  - destruct Hshape as [(i & u & _ & _ & _ & _ & ->) | (_ & _ & H & _)]; auto.
Qed.

(** ** Order creation and export *)


(** Joining strings, and values that convert. *)
Lemma join_strings sep (l : list string) :
  join sep (List.map JStr l) = Some (String.concat sep l).
Proof.
  unfold join.
  assert (mapM (fun e => match e with
                         | JUndefined | JNull => Some ""
                         | _ => to_string e
                         end) (List.map JStr l) = Some l) as ->; [ | reflexivity].
  apply mapM_Some. induction l; constructor; auto.
Qed.

Lemma join_converts sep (l : list JsVal) :
  (forall v, v ∈ l -> to_string v <> None) -> join sep l <> None.
Proof.
  intros Hall. unfold join.
  destruct (mapM _ l) as [parts | ] eqn:E; [discriminate | ].
  apply mapM_None in E. apply Exists_exists in E as (v & Hv & Hnone).
  specialize (Hall v Hv). destruct v; cbn [to_string] in *; congruence.
Qed.

Lemma named_products products (names : list string) :
  Forall2 (fun product s => get product "name" = Some (JStr s)) products names ->
  mapM (fun product => get product "name") products = Some (List.map JStr names).
Proof.
  intros H. apply mapM_Some. induction H; constructor; auto.
Qed.

(** C10.  When the export answers 200 the sheet has one row per user, in
    order, under the keys [id], [phoneNumber], [balance], [invitationCode]
    and [hashrate]: the user's identifier, phone number, balance and
    invitation code, and a products cell that is ['None'] when the purchase
    list is absent or empty and otherwise the product names joined by a
    comma and a space.  No row has a [password] key.  The export answers
    200 whenever there is a user, the phone numbers and invitation codes
    are primitive values and every purchased product has a name that can
    be read and converted to a string; it changes and writes nothing. *)
Theorem export_row_contents (users : list User) :
  let r := export_users users in
  (status (response r) = HTTP 200 ->
   exists sheet,
     body (response r) = xlsx sheet /\
     List.map snd (columns sheet)
     = ["id"; "phoneNumber"; "balance"; "invitationCode"; "hashrate"] /\
     Forall2
       (fun u row =>
          exists cell,
            row = [("id", JNum (num (User.id u)));
                   ("phoneNumber", User.phoneNumber u);
                   ("balance", JNum (User.balance u));
                   ("invitationCode", User.invitationCode u);
                   ("hashrate", JStr cell)] /\
            ~ In "password" (List.map fst row) /\
            (User.hashrate u = None \/ User.hashrate u = Some [] -> cell = "None") /\
            (forall products, User.hashrate u = Some products -> products <> [] ->
               exists names,
                 mapM (fun product => get product "name") products = Some names /\
                 join ", " names = Some cell) /\
            (forall products (names : list string),
               User.hashrate u = Some products -> products <> [] ->
               Forall2 (fun product s => get product "name" = Some (JStr s))
                       products names ->
               cell = String.concat ", " names))
       users (rows sheet)) /\
  (users <> [] ->
   (forall u, u ∈ users -> plain_cells u) ->
   (forall u products product,
      u ∈ users -> User.hashrate u = Some products -> product ∈ products ->
      exists name, get product "name" = Some name /\ to_string name <> None) ->
   status (response r) = HTTP 200) /\
  users_after r = users /\ effects r = [].
Proof.
  cbv zeta.
  assert (Hrow : forall u row, export_row u = Some row ->
    exists cell,
      row = [("id", JNum (num (User.id u)));
             ("phoneNumber", User.phoneNumber u);
             ("balance", JNum (User.balance u));
             ("invitationCode", User.invitationCode u);
             ("hashrate", JStr cell)] /\
      ~ In "password" (List.map fst row) /\
      (User.hashrate u = None \/ User.hashrate u = Some [] -> cell = "None") /\
      (forall products, User.hashrate u = Some products -> products <> [] ->
         exists names,
           mapM (fun product => get product "name") products = Some names /\
           join ", " names = Some cell) /\
      (forall products (names : list string),
         User.hashrate u = Some products -> products <> [] ->
         Forall2 (fun product s => get product "name" = Some (JStr s))
                 products names ->
         cell = String.concat ", " names)).
  { intros u row. unfold export_row.
    assert (Hkeys : forall a b c d e : JsVal,
              ~ In "password"
                  (List.map fst [("id", a); ("phoneNumber", b); ("balance", c);
                                 ("invitationCode", d); ("hashrate", e)])).
    { intros a b c d e. cbn. intros H.
      repeat (destruct H as [H | H]; [discriminate H | ]). exact H. }
    destruct (User.hashrate u) as [[ | p ps] | ] eqn:Eh.
    - cbn [mbind option_bind]. intros H. injection H as <-.
      exists "None". repeat split; auto; intros; try congruence.
    - destruct (mapM _ (p :: ps)) as [names | ] eqn:Enames; [ | discriminate].
      cbn [mbind option_bind].
      destruct (join ", " names) as [joined | ] eqn:Ejoin; [ | discriminate].
      cbn [mbind option_bind]. intros H. injection H as <-.
      exists joined. repeat split; auto.
      + intros [H | H]; discriminate H.
      + intros products H _. injection H as <-. eauto.
      + intros products strs H _ Hn. injection H as <-.
        rewrite (named_products _ _ Hn) in Enames. injection Enames as <-.
        rewrite join_strings in Ejoin. injection Ejoin as <-. reflexivity.
    - cbn [mbind option_bind]. intros H. injection H as <-.
      exists "None". repeat split; auto; intros; congruence. }
  unfold export_users. destruct users as [ | u0 users].
  { repeat split; auto.
    - simpl. intros H. status_clash H.
    - intros H. contradiction. }
  destruct (mapM export_row (u0 :: users)) as [sheet_rows | ] eqn:Erows.
  - repeat split; auto. intros _. eexists. split; [reflexivity | ].
    split; [reflexivity | ]. cbn [rows].
    apply mapM_Some in Erows.
    eapply Forall2_impl; [exact Erows | ]. intros u row. apply Hrow.
  - repeat split; auto.
    + simpl. intros H. status_clash H.
    + intros _ _ Hnames. exfalso.
      apply mapM_None in Erows. apply Exists_exists in Erows as (u & Hu & Hnone).
      unfold export_row in Hnone.
      destruct (User.hashrate u) as [[ | p ps] | ] eqn:Eh; try discriminate Hnone.
      destruct (mapM _ (p :: ps)) as [names | ] eqn:Enames.
      * cbn [mbind option_bind] in Hnone.
        destruct (join ", " names) eqn:Ejoin; [discriminate Hnone | ].
        revert Ejoin. apply join_converts. intros v Hv.
        apply mapM_Some in Enames.
        apply list_elem_of_lookup in Hv as [k Hk].
        destruct (Forall2_lookup_r _ _ _ _ _ Enames Hk) as (q & Hq & Hget).
        destruct (Hnames u (p :: ps) q Hu Eh) as (name & Hname & Hconv).
        { apply list_elem_of_lookup. eauto. }
        congruence.
      * apply mapM_None in Enames. apply Exists_exists in Enames as (q & Hq & Hget).
        destruct (Hnames u (p :: ps) q Hu Eh Hq) as (name & Hname & _). congruence.
Qed.

(** ** Accounts: registration, login, password change, purchase list *)

Lemma falsy_JStr s : s <> "" -> falsy (JStr s) = false.
Proof. intros H. apply falsy_false, truthy_JStr. exact H. Qed.

Lemma long_not_empty (s : string) : (8 <= String.length s)%nat -> s <> "".
Proof. intros H ->. simpl in H. lia. Qed.

Lemma strict_eq_JStr_refl s : strict_eq (JStr s) (JStr s) = true.
Proof. apply strict_eq_JStr_l. reflexivity. Qed.

Lemma strict_eq_JStr_neq s s' : s <> s' -> strict_eq (JStr s) (JStr s') = false.
Proof.
  intros H. destruct (strict_eq (JStr s) (JStr s')) eqn:E; [ | reflexivity].
  apply strict_eq_JStr_l in E. congruence.
Qed.

(** The first match in an array with one more record. *)
Lemma find_user_app_new users phone u :
  find_user users phone = None ->
  strict_eq (User.phoneNumber u) phone = true ->
  find_user (users ++ [u]) phone = Some (length users, u).
Proof.
  intros Hnone Hu. rewrite find_user_None in Hnone.
  apply find_user_Some. split; [ | split].
  - rewrite lookup_app_r by lia. rewrite Nat.sub_diag. reflexivity.
  - exact Hu.
  - intros j v Hj Hlt. rewrite lookup_app_l in Hj by exact Hlt.
    apply Hnone. apply list_elem_of_lookup. eauto.
Qed.

Lemma find_user_app_old users phone i u v :
  find_user users phone = Some (i, u) ->
  find_user (users ++ [v]) phone = Some (i, u).
Proof.
  intros H. apply find_user_Some in H as (Hi & Hu & Hfirst).
  pose proof (lookup_lt_Some _ _ _ Hi) as Hlt.
  apply find_user_Some. split; [ | split].
  - rewrite lookup_app_l by exact Hlt. exact Hi.
  - exact Hu.
  - intros j w Hj Hji. rewrite lookup_app_l in Hj by lia. eauto.
Qed.

(** The status of a [/register] answer decides what was done. *)
Lemma register_cases users req_body :
  let r := register users req_body in
  let phoneNumber := field req_body "phoneNumber" in
  let password := field req_body "password" in
  let invitationCode := field req_body "invitationCode" in
  ((status (response r) = HTTP 400 \/
    response r = {| status := HTTP 500; body := error_page |} /\
    (len ← get password "length"; to_number len) = None) /\
   users_after r = users /\ effects r = []) \/
  (status (response r) = HTTP 409 /\ users_after r = users /\ effects r = [] /\
   find_user users phoneNumber <> None) \/
  (r = {| response :=
            {| status := HTTP 201;
               body := message "User registered successfully! Please log in." |};
          users_after := users ++ [new_user users phoneNumber password invitationCode];
          effects :=
            [writeFile (users ++ [new_user users phoneNumber password invitationCode])] |}
   /\ truthy phoneNumber = true /\ truthy password = true
   /\ truthy invitationCode = true /\ find_user users phoneNumber = None).
Proof.
  cbv zeta. unfold register.
  destruct (falsy _ || falsy _ || falsy _) eqn:F; [left; repeat split; auto | ].
  apply orb_false_iff in F as [F Fcode]. apply orb_false_iff in F as [Fphone Fpw].
  apply falsy_false in Fphone, Fpw, Fcode.
  destruct (mbind _ _) eqn:L.
  - destruct (js_lt _ _); [left; repeat split; auto | ].
    destruct (find_user _ _) eqn:Efind.
    + right. left. repeat split. discriminate.
    + right. right. repeat split; assumption.
  - left. repeat split; auto.
Qed.

(** X1.  [/register] with a phone number [N] that no stored record has, a
    password of 8 characters or more and an invitation code answers 201,
    pushes one record (the next identifier, the credentials as given, a
    zero balance, an empty purchase list) and hands the new array to
    [saveUsers()].  It answers 201 in no other way, and otherwise 400 or
    409, or the 500 of Express when the comparison of the password's
    length throws, which it does only for a password whose [length] has
    no number. *)
Theorem register_creates_account :
  (forall (users : list User) (req_body : JsVal) (N pw : string),
     field req_body "phoneNumber" = JStr N ->
     field req_body "password" = JStr pw ->
     N <> "" -> (8 <= String.length pw)%nat ->
     truthy (field req_body "invitationCode") = true ->
     (forall u, u ∈ users -> User.phoneNumber u <> JStr N) ->
     let u := new_user users (JStr N) (JStr pw) (field req_body "invitationCode") in
     register users req_body
     = {| response :=
            {| status := HTTP 201;
               body := message "User registered successfully! Please log in." |};
          users_after := users ++ [u];
          effects := [writeFile (users ++ [u])] |}) /\
  (forall (users : list User) (req_body : JsVal),
     let r := register users req_body in
     (status (response r) = HTTP 201 \/ status (response r) = HTTP 400
      \/ status (response r) = HTTP 409
      \/ response r = {| status := HTTP 500; body := error_page |} /\
         (len ← get (field req_body "password") "length"; to_number len) = None) /\
     (status (response r) = HTTP 201 ->
      (forall u, u ∈ users ->
         strict_eq (User.phoneNumber u) (field req_body "phoneNumber") = false) /\
      users_after r
      = users ++ [new_user users (field req_body "phoneNumber")
                    (field req_body "password") (field req_body "invitationCode")] /\
      effects r = [writeFile (users_after r)]) /\
     (status (response r) <> HTTP 201 -> users_after r = users /\ effects r = [])).
Proof.
  split.
  - intros users req_body N pw HN Hpw Hne Hlen Hcode Hfresh. cbv zeta.
    unfold register. rewrite HN, Hpw.
    rewrite (falsy_JStr N Hne), (falsy_JStr pw (long_not_empty _ Hlen)).
    unfold falsy at 1. rewrite Hcode. cbn [negb orb].
    rewrite length_JStr, (long_length _ Hlen).
    assert (find_user users (JStr N) = None) as ->; [ | reflexivity].
    apply find_user_None. intros u Hu.
    destruct (strict_eq _ _) eqn:E; [ | reflexivity].
    apply strict_eq_JStr_r in E. destruct (Hfresh u Hu E).
  - intros users req_body. cbv zeta.
    destruct (register_cases users req_body)
      as [(Hs & Hu & He) | [(Hs & Hu & He & Hf) | (Hr & _ & _ & _ & Hf)]].
    + split; [destruct Hs as [Hs | Hs]; auto | ].
      split; [intros H; destruct Hs as [Hs | [Hs _]]; rewrite Hs in H; status_clash H | auto].
    + split; [auto | ]. split; [intros H; rewrite Hs in H; status_clash H | auto].
    + rewrite Hr. cbn [response status users_after effects].
      split; [auto | ]. split; [ | intros H; destruct (H eq_refl)].
      intros _. split; [ | split; reflexivity].
      apply find_user_None. exact Hf.
Qed.

(** X2.  Registration and login compose: once [/register] has answered 201
    to a phone number and a password that are strings, [/login] with them
    answers 200 with that phone number and a zero balance, and with any
    other non-empty password string it answers 401. *)
Theorem register_then_login
    (users : list User) (req_body credentials : JsVal) (N pw : string) :
  field req_body "phoneNumber" = JStr N ->
  field req_body "password" = JStr pw ->
  status (response (register users req_body)) = HTTP 201 ->
  field credentials "phoneNumber" = JStr N ->
  let users' := users_after (register users req_body) in
  (field credentials "password" = JStr pw ->
   login users' credentials
   = reply users' (HTTP 200)
       (json (JObj [("message", JStr "Login successful!");
                    ("user", JObj [("phoneNumber", JStr N);
                                   ("balance", JNum (num 0))])]))) /\
  (forall pw', field credentials "password" = JStr pw' -> pw' <> pw -> pw' <> "" ->
     login users' credentials
     = reply users' (HTTP 401) (message "Invalid phone number or password.")).
Proof.
  intros HN Hpw H201 HcN. cbv zeta.
  destruct (register_cases users req_body)
    as [([Hs | [Hs _]] & _) | [(Hs & _) | (Hr & Hp & Hw & _ & Hf)]];
    [rewrite Hs in H201; status_clash H201 | rewrite Hs in H201; status_clash H201
     | rewrite Hs in H201; status_clash H201 | ].
  rewrite Hr. cbn [users_after]. rewrite HN, Hpw in *.
  set (u := new_user users (JStr N) (JStr pw) _).
  assert (Hfind : find_user (users ++ [u]) (JStr N) = Some (length users, u)).
  { apply find_user_app_new; [exact Hf | apply strict_eq_JStr_refl]. }
  apply truthy_JStr in Hp, Hw.
  split.
  - intros Hc. unfold login. rewrite HcN, Hc.
    rewrite (falsy_JStr N Hp), (falsy_JStr pw Hw). cbn [orb].
    rewrite Hfind. cbn [u new_user User.password User.phoneNumber User.balance].
    rewrite strict_eq_JStr_refl. reflexivity.
  - intros pw' Hc Hne Hne'. unfold login. rewrite HcN, Hc.
    rewrite (falsy_JStr N Hp), (falsy_JStr pw' Hne'). cbn [orb].
    rewrite Hfind. cbn [u new_user User.password].
    rewrite (strict_eq_JStr_neq pw pw') by congruence. reflexivity.
Qed.

(** X3.  The length rule of [/register] binds only a password that has a
    [length]: a truthy password without one (a number, [true], an object
    with no such property) is accepted for a new phone number.  When it is
    an object the account is locked: no later [/login] for that phone
    number answers 200, whatever password it submits. *)
Theorem register_accepts_password_without_length
    (users : list User) (req_body : JsVal) (N : string) :
  let password := field req_body "password" in
  let r := register users req_body in
  field req_body "phoneNumber" = JStr N -> N <> "" ->
  truthy password = true ->
  get password "length" = Some JUndefined ->
  truthy (field req_body "invitationCode") = true ->
  (forall u, u ∈ users -> User.phoneNumber u <> JStr N) ->
  status (response r) = HTTP 201 /\
  users_after r
  = users ++ [new_user users (JStr N) password (field req_body "invitationCode")] /\
  ((exists props, password = JObj props) ->
   forall credentials,
     field credentials "phoneNumber" = JStr N ->
     status (response (login (users_after r) credentials)) <> HTTP 200).
Proof.
  cbv zeta. intros HN Hne Hpw Hlen Hcode Hfresh.
  assert (Hnone : find_user users (JStr N) = None).
  { apply find_user_None. intros u Hu.
    destruct (strict_eq _ _) eqn:E; [ | reflexivity].
    apply strict_eq_JStr_r in E. destruct (Hfresh u Hu E). }
  assert (Hr : register users req_body
               = {| response :=
                      {| status := HTTP 201;
                         body := message "User registered successfully! Please log in." |};
                    users_after :=
                      users ++ [new_user users (JStr N) (field req_body "password")
                                  (field req_body "invitationCode")];
                    effects :=
                      [writeFile (users ++ [new_user users (JStr N)
                                              (field req_body "password")
                                              (field req_body "invitationCode")])] |}).
  { unfold register. rewrite HN, (falsy_JStr N Hne). unfold falsy.
    rewrite Hpw, Hcode, Hlen.
    cbn [negb orb mbind option_bind to_number NaN js_lt SFltb SFcompare].
    rewrite Hnone. reflexivity. }
  rewrite Hr. cbn [response status users_after].
  split; [reflexivity | ]. split; [reflexivity | ].
  intros [props Hobj] credentials Hc. unfold login. rewrite Hc.
  destruct (falsy _ || falsy _); [intros H; status_clash H | ].
  rewrite (find_user_app_new users (JStr N)
             (new_user users (JStr N) (field req_body "password")
                (field req_body "invitationCode")) Hnone (strict_eq_JStr_refl N)).
  cbn [new_user User.password]. rewrite Hobj. cbn [strict_eq negb].
  intros H. status_clash H.
Qed.

(** The status of an [/api/update-profile] answer decides what was done. *)
Lemma update_profile_cases users req_body :
  let r := update_profile users req_body in
  let phoneNumber := field req_body "phoneNumber" in
  let currentPassword := field req_body "currentPassword" in
  let newPassword := field req_body "newPassword" in
  ((status (response r) = HTTP 400 \/ status (response r) = HTTP 404
    \/ status (response r) = HTTP 401
    \/ response r = {| status := HTTP 500; body := error_page |}) /\
   users_after r = users /\ effects r = []) \/
  (exists i u,
     find_user users phoneNumber = Some (i, u) /\
     strict_eq (User.password u) currentPassword = true /\
     truthy phoneNumber = true /\ truthy newPassword = true /\
     r = {| response :=
              {| status := HTTP 200; body := message "Password updated successfully!" |};
            users_after := <[i := with_password u newPassword]> users;
            effects := [writeFile (<[i := with_password u newPassword]> users)] |}).
Proof.
  cbv zeta. unfold update_profile.
  destruct (falsy _ || falsy _ || falsy _) eqn:F; [left; repeat split; auto | ].
  apply orb_false_iff in F as [F Fnew]. apply orb_false_iff in F as [Fphone _].
  apply falsy_false in Fphone, Fnew.
  destruct (mbind _ _) eqn:L.
  - destruct (js_lt _ _); [left; repeat split; auto | ].
    destruct (find_user _ _) as [[i u] | ] eqn:Efind; [ | left; repeat split; auto].
    destruct (strict_eq (User.password u) _) eqn:E; cbn [negb];
      [ | left; repeat split; auto].
    right. exists i, u. repeat split; assumption.
  - left. repeat split; auto.
Qed.

(** X4.  [/api/update-profile] replaces the password of the first record
    with the phone number of the request, and of no other, when the
    current password it submits is the stored one and the new one has 8
    characters or more; the array is then written to the file.  It
    answers 401 to another current password and 404 to an unknown phone
    number, and whenever the answer is not 200 the array is as it was and
    nothing is written. *)
Theorem update_profile_replaces_password :
  (forall (users : list User) (req_body : JsVal) (N old new : string) i u,
     field req_body "phoneNumber" = JStr N ->
     field req_body "currentPassword" = JStr old ->
     field req_body "newPassword" = JStr new ->
     N <> "" -> old <> "" -> (8 <= String.length new)%nat ->
     find_user users (JStr N) = Some (i, u) ->
     (User.password u = JStr old ->
      update_profile users req_body
      = {| response :=
             {| status := HTTP 200; body := message "Password updated successfully!" |};
           users_after := <[i := with_password u (JStr new)]> users;
           effects := [writeFile (<[i := with_password u (JStr new)]> users)] |}) /\
     (User.password u <> JStr old ->
      update_profile users req_body
      = reply users (HTTP 401) (message "Incorrect current password."))) /\
  (forall (users : list User) (req_body : JsVal) (N old new : string),
     field req_body "phoneNumber" = JStr N ->
     field req_body "currentPassword" = JStr old ->
     field req_body "newPassword" = JStr new ->
     N <> "" -> old <> "" -> (8 <= String.length new)%nat ->
     (forall u, u ∈ users -> User.phoneNumber u <> JStr N) ->
     update_profile users req_body = reply users (HTTP 404) (message "User not found.")) /\
  (forall (users : list User) (req_body : JsVal),
     let r := update_profile users req_body in
     (status (response r) = HTTP 200 ->
      exists i u,
        find_user users (field req_body "phoneNumber") = Some (i, u) /\
        strict_eq (User.password u) (field req_body "currentPassword") = true /\
        users_after r = <[i := with_password u (field req_body "newPassword")]> users /\
        effects r = [writeFile (users_after r)] /\
        forall j, j <> i -> users_after r !! j = users !! j) /\
     (status (response r) <> HTTP 200 -> users_after r = users /\ effects r = [])).
Proof.
  split; [ | split].
  - intros users req_body N old new i u HN Hold Hnew HNe Holde Hlen Hfind.
    assert (Hhead : update_profile users req_body
              = if negb (strict_eq (User.password u) (JStr old)) then
                  reply users (HTTP 401) (message "Incorrect current password.")
                else
                  {| response :=
                       {| status := HTTP 200;
                          body := message "Password updated successfully!" |};
                     users_after := <[i := with_password u (JStr new)]> users;
                     effects := [writeFile (<[i := with_password u (JStr new)]> users)] |}).
    { unfold update_profile. rewrite HN, Hold, Hnew.
      rewrite (falsy_JStr N HNe), (falsy_JStr old Holde),
        (falsy_JStr new (long_not_empty _ Hlen)).
      cbn [orb]. rewrite length_JStr, (long_length _ Hlen), Hfind. reflexivity. }
    rewrite Hhead. split.
    + intros ->. rewrite strict_eq_JStr_refl. reflexivity.
    + intros Hne. destruct (strict_eq _ _) eqn:E; [ | reflexivity].
      apply strict_eq_JStr_r in E. contradiction.
  - intros users req_body N old new HN Hold Hnew HNe Holde Hlen Hfresh.
    unfold update_profile. rewrite HN, Hold, Hnew.
    rewrite (falsy_JStr N HNe), (falsy_JStr old Holde),
      (falsy_JStr new (long_not_empty _ Hlen)).
    cbn [orb]. rewrite length_JStr, (long_length _ Hlen).
    assert (find_user users (JStr N) = None) as ->; [ | reflexivity].
    apply find_user_None. intros u Hu.
    destruct (strict_eq _ _) eqn:E; [ | reflexivity].
    apply strict_eq_JStr_r in E. destruct (Hfresh u Hu E).
  - intros users req_body. cbv zeta.
    destruct (update_profile_cases users req_body)
      as [(Hs & Hu & He) | (i & u & Hfind & Hpw & _ & _ & Hr)].
    + split; [ | auto]. intros H.
      destruct Hs as [Hs | [Hs | [Hs | Hs]]]; rewrite Hs in H; status_clash H.
    + rewrite Hr. cbn [response status users_after effects].
      split; [ | intros H; destruct (H eq_refl)].
      intros _. exists i, u. repeat split; try assumption.
      intros j Hj. apply list_lookup_insert_ne. congruence.
Qed.

(** X5.  A password change and login compose: once [/api/update-profile]
    has answered 200 to string credentials, [/login] with the phone number
    and the new password answers 200, and with the old password, when it
    differs from the new one, 401. *)
Theorem update_profile_then_login
    (users : list User) (req_body credentials : JsVal) (N old new : string) :
  field req_body "phoneNumber" = JStr N ->
  field req_body "currentPassword" = JStr old ->
  field req_body "newPassword" = JStr new ->
  status (response (update_profile users req_body)) = HTTP 200 ->
  field credentials "phoneNumber" = JStr N ->
  let users' := users_after (update_profile users req_body) in
  (field credentials "password" = JStr new ->
   status (response (login users' credentials)) = HTTP 200) /\
  (field credentials "password" = JStr old -> old <> new ->
   login users' credentials
   = reply users' (HTTP 401) (message "Invalid phone number or password.")).
Proof.
  intros HN Hold Hnew H200 Hc. cbv zeta.
  destruct (update_profile_cases users req_body)
    as [(Hs & _) | (i & u & Hfind & Hpw & Hp & Hw & Hr)].
  { destruct Hs as [Hs | [Hs | [Hs | Hs]]]; rewrite Hs in H200; status_clash H200. }
  rewrite Hr. cbn [users_after]. rewrite HN, Hold, Hnew in *.
  apply truthy_JStr in Hp, Hw.
  assert (Hfind' : find_user (<[i := with_password u (JStr new)]> users) (JStr N)
                   = Some (i, with_password u (JStr new))).
  { apply find_user_insert with (u := u); [exact Hfind | reflexivity]. }
  assert (Holde : old <> "").
  { apply truthy_JStr. rewrite <- (strict_eq_truthy _ _ Hpw).
    apply strict_eq_JStr_r in Hpw. rewrite Hpw in *.
    destruct (truthy (JStr old)) eqn:T; [reflexivity | ].
    exfalso. revert H200. unfold update_profile. rewrite HN, Hold, Hnew.
    unfold falsy at 2. rewrite T. cbn [negb orb]. destruct (falsy (JStr N));
      cbn [orb reply response status]; intros H; status_clash H. }
  split.
  - intros Hcp. unfold login. rewrite Hc, Hcp.
    rewrite (falsy_JStr N Hp), (falsy_JStr new Hw). cbn [orb].
    rewrite Hfind'. cbn [with_password User.password].
    rewrite strict_eq_JStr_refl. reflexivity.
  - intros Hcp Hne. unfold login. rewrite Hc, Hcp.
    rewrite (falsy_JStr N Hp), (falsy_JStr old Holde). cbn [orb].
    rewrite Hfind'. cbn [with_password User.password].
    rewrite (strict_eq_JStr_neq new old) by congruence. reflexivity.
Qed.

(** [/api/get-hashrate] answers 400 without a phone number, 404 when no
    stored record has it and otherwise 200 with the purchase list of the
    first record that has it, or an empty list when that record has
    none. *)
Lemma get_hashrate_answers (users : list User) (req_query : JsVal) :
  let phoneNumber := field req_query "phoneNumber" in
  let r := get_hashrate users req_query in
  (truthy phoneNumber = false ->
   r = reply users (HTTP 400) (message "Phone number is required.")) /\
  (truthy phoneNumber = true ->
   (forall u, u ∈ users -> strict_eq (User.phoneNumber u) phoneNumber = false) ->
   r = reply users (HTTP 404) (message "User not found.")) /\
  (forall i u,
     truthy phoneNumber = true -> find_user users phoneNumber = Some (i, u) ->
     (forall purchased, User.hashrate u = Some purchased ->
        r = reply users (HTTP 200) (json (JObj [("hashrate", JArr purchased)]))) /\
     (User.hashrate u = None ->
        r = reply users (HTTP 200) (json (JObj [("hashrate", JArr [])])))) /\
  users_after r = users /\ effects r = [].
Proof.
  cbv zeta. unfold get_hashrate, falsy.
  split; [ | split; [ | split]].
  - intros ->. reflexivity.
  - intros -> Hnone. apply find_user_None in Hnone. rewrite Hnone. reflexivity.
  - intros i u -> ->. cbn [negb]. split.
    + intros purchased ->. reflexivity.
    + intros ->. reflexivity.
  - destruct (negb _); [split; reflexivity | ].
    destruct (find_user _ _) as [[i u] | ]; split; reflexivity.
Qed.

(** ** Purchases from the balance *)

Lemma js_lt_irrefl x : js_lt x x = false.
Proof.
  unfold js_lt, SFltb.
  destruct x as [[] | [] | | [] m e]; cbn [SFcompare]; try reflexivity.
  - rewrite Z.compare_refl, Pos.compare_cont_refl. reflexivity.
  - rewrite Z.compare_refl, Pos.compare_refl. reflexivity.
Qed.

(** [x - x] is [+0] for a finite [x]. *)
Lemma js_sub_diag s m e : js_sub (S754_finite s m e) (S754_finite s m e) = num 0.
Proof.
  unfold js_sub, SFsub. rewrite Z.min_id, Z.sub_diag. reflexivity.
Qed.

(** The status of an [/api/buy-product] answer decides what was done. *)
Lemma buy_product_cases users req_body :
  let r := buy_product users req_body in
  let phoneNumber := field req_body "phoneNumber" in
  let productData := field req_body "productData" in
  ((eq_null productData = true \/
    exists price, get productData "price" = Some price /\ to_number price = None) /\
   r = reply users (HTTP 500) error_page) \/
  ((status (response r) = HTTP 400 \/ status (response r) = HTTP 404
    \/ status (response r) = HTTP 402) /\ users_after r = users /\ effects r = []) \/
  (exists i user price P,
     get productData "price" = Some price /\
     to_number price = Some P /\
     find_user users phoneNumber = Some (i, user) /\
     js_lt (User.balance user) P = false /\
     let paid := with_balance user (js_sub (User.balance user) P) in
     match User.hashrate user with
     | None => r = reply (<[i := paid]> users) (HTTP 500) error_page
     | Some purchased =>
         let buyer := with_hashrate paid (purchased ++ [productData]) in
         r = {| response :=
                  {| status := HTTP 200;
                     body := json (JObj [("success", JBool true);
                                         ("newBalance", JNum (User.balance paid))]) |};
                users_after := <[i := buyer]> users;
                effects := [writeFile (<[i := buyer]> users)] |}
     end).
Proof.
  cbv zeta. unfold buy_product.
  destruct (get _ "price") as [price | ] eqn:G.
  - cbn [mbind option_bind].
    destruct (to_number price) as [P | ] eqn:EP; cbn [mbind option_bind].
    + destruct (_ || _); [right; left; repeat split; auto | ].
      destruct (find_user _ _) as [[i user] | ] eqn:Efind;
        [ | right; left; repeat split; auto].
      destruct (js_lt _ _) eqn:L; [right; left; repeat split; auto | ].
      right. right. exists i, user, price, P. repeat split; try assumption.
      cbn [with_balance User.hashrate User.balance].
      destruct (User.hashrate user); [ | reflexivity].
      rewrite template_three.
      destruct (found_to_string _ _ _ _ Efind) as [digits ->]. reflexivity.
    + left. split; [right; eauto | reflexivity].
  - left. destruct (field req_body "productData"); try discriminate G;
      split; auto.
Qed.

(** X6.  What [/api/buy-product] refuses before it looks for the user.  A
    request without [productData] ([undefined] or [null]), or whose price
    has no number, is not answered by the handler's own 400: reading the
    price or [Number(productData.price)] throws before any check and the
    answer is the 500 of Express.  Otherwise a request without a phone
    number, or whose price is absent, zero, negative or not a number, is
    answered 400, and a phone number no record has is answered 404.  In
    all these cases the array is as it was and nothing is written. *)
Theorem buy_product_rejections (users : list User) (req_body : JsVal) :
  let phoneNumber := field req_body "phoneNumber" in
  let productData := field req_body "productData" in
  let r := buy_product users req_body in
  let bad_request :=
    reply users (HTTP 400)
      (message "Valid phone number and product data are required.") in
  (eq_null productData = true -> r = reply users (HTTP 500) error_page) /\
  (forall price,
     get productData "price" = Some price -> to_number price = None ->
     r = reply users (HTTP 500) error_page) /\
  (forall price P,
     get productData "price" = Some price -> to_number price = Some P ->
     (truthy phoneNumber = false \/ truthy price = false \/
      isNaN P = true \/ js_le P (num 0) = true ->
      r = bad_request) /\
     (truthy phoneNumber = true -> truthy price = true ->
      isNaN P = false -> js_le P (num 0) = false ->
      (forall u, u ∈ users -> strict_eq (User.phoneNumber u) phoneNumber = false) ->
      r = reply users (HTTP 404) (message "User not found."))) /\
  (status (response r) = HTTP 400 \/ status (response r) = HTTP 404
   \/ status (response r) = HTTP 402 -> users_after r = users /\ effects r = []).
Proof.
  cbv zeta. split; [ | split; [ | split]].
  - intros Hnull. unfold buy_product.
    destruct (field req_body "productData"); try discriminate Hnull; reflexivity.
  - intros price Hprice Hnone. unfold buy_product. rewrite Hprice.
    cbn [mbind option_bind]. rewrite Hnone. reflexivity.
  - intros price P Hprice HP. unfold buy_product. rewrite Hprice.
    cbn [mbind option_bind]. rewrite HP. cbn [mbind option_bind].
    unfold falsy. split.
    + intros H.
      assert (negb (truthy (field req_body "phoneNumber"))
              || negb (truthy (field req_body "productData"))
              || negb (truthy price) || isNaN P
              || js_le P (num 0) = true) as ->; [ | reflexivity].
      destruct H as [-> | [-> | [-> | ->]]]; cbn [negb orb];
        rewrite ?orb_true_r; reflexivity.
    + intros Hp Ht Hn Hl Hnone.
      pose proof (priced_is_truthy _ _ Hprice Ht) as Hpd.
      rewrite Hp, Hpd, Ht, Hn, Hl. cbn [negb orb].
      apply find_user_None in Hnone. rewrite Hnone. reflexivity.
  - intros Hs.
    destruct (buy_product_cases users req_body)
      as [(_ & Hr) | [(_ & Hu & He) | (i & user & price & P & _ & _ & _ & _ & Hr)]].
    + rewrite Hr in Hs. cbn [reply response status] in Hs.
      destruct Hs as [Hs | [Hs | Hs]]; status_clash Hs.
    + auto.
    + cbv zeta in Hr. destruct (User.hashrate user); rewrite Hr in Hs;
        cbn [reply response status] in Hs;
        destruct Hs as [Hs | [Hs | Hs]]; status_clash Hs.
Qed.

(** X7.  A purchase at exactly the balance goes through: for the first
    record with the phone number of the request, holding a positive
    finite balance [B] and a purchase list, a price that converts to [B]
    is answered 200 and leaves a balance of zero. *)
Theorem buy_product_at_exact_balance
    (users : list User) (req_body price : JsVal) (i : nat) (user : User)
    (purchased : list JsVal) (m : positive) (e : Z) :
  let phoneNumber := field req_body "phoneNumber" in
  let productData := field req_body "productData" in
  truthy phoneNumber = true ->
  get productData "price" = Some price -> truthy price = true ->
  find_user users phoneNumber = Some (i, user) ->
  User.balance user = S754_finite false m e ->
  to_number price = Some (S754_finite false m e) ->
  User.hashrate user = Some purchased ->
  let buyer := with_hashrate (with_balance user (num 0)) (purchased ++ [productData]) in
  buy_product users req_body
  = {| response :=
         {| status := HTTP 200;
            body := json (JObj [("success", JBool true); ("newBalance", JNum (num 0))]) |};
       users_after := <[i := buyer]> users;
       effects := [writeFile (<[i := buyer]> users)] |}.
Proof.
  cbv zeta. intros Hp Hprice Ht Hfind HB HP Hlist.
  pose proof (priced_is_truthy _ _ Hprice Ht) as Hpd.
  unfold buy_product. rewrite Hprice. cbn [mbind option_bind].
  rewrite HP. cbn [mbind option_bind]. unfold falsy.
  rewrite Hp, Hpd, Ht. cbn [negb orb isNaN].
  assert (js_le (S754_finite false m e) (num 0) = false) as ->.
  { reflexivity. }
  rewrite Hfind, HB, js_lt_irrefl.
  cbn [with_balance User.hashrate User.balance]. rewrite Hlist, js_sub_diag.
  rewrite template_three.
  destruct (found_to_string _ _ _ _ Hfind) as [digits ->]. reflexivity.
Qed.

(** X8.  A record without a purchase list (one of a [users.json] written
    before purchases were stored) is charged for nothing: with a valid
    price within the balance, the balance is lowered in memory, pushing
    the product throws, the answer is the 500 of Express, and the array is
    not written to the file. *)
Theorem buy_product_without_purchase_list
    (users : list User) (req_body price : JsVal) (i : nat) (user : User) (P : number) :
  let phoneNumber := field req_body "phoneNumber" in
  let productData := field req_body "productData" in
  truthy phoneNumber = true ->
  get productData "price" = Some price -> truthy price = true ->
  to_number price = Some P ->
  isNaN P = false -> js_le P (num 0) = false ->
  find_user users phoneNumber = Some (i, user) ->
  js_lt (User.balance user) P = false ->
  User.hashrate user = None ->
  let r := buy_product users req_body in
  r = reply (<[i := with_balance user (js_sub (User.balance user) P)]> users)
        (HTTP 500) error_page /\
  (forall data, writeFile data ∉ effects r) /\
  users_after r !! i = Some (with_balance user (js_sub (User.balance user) P)).
Proof.
  cbv zeta. intros Hp Hprice Ht HP Hn Hl Hfind Hlt Hlist.
  pose proof (priced_is_truthy _ _ Hprice Ht) as Hpd.
  assert (Hr : buy_product users req_body
               = reply (<[i := with_balance user
                                 (js_sub (User.balance user) P)]> users)
                   (HTTP 500) error_page).
  { unfold buy_product. rewrite Hprice. cbn [mbind option_bind].
    rewrite HP. cbn [mbind option_bind]. unfold falsy.
    rewrite Hp, Hpd, Ht, Hn, Hl. cbn [negb orb]. rewrite Hfind, Hlt.
    cbn [with_balance User.hashrate]. rewrite Hlist. reflexivity. }
  rewrite Hr. cbn [reply users_after effects].
  split; [reflexivity | ]. split.
  - intros data H. apply elem_of_nil in H. exact H.
  - apply list_lookup_insert_eq. eapply lookup_lt_Some, find_user_lookup. eassumption.
Qed.

(** X9.  A purchase shows in the purchase list: once [/api/buy-product] has
    answered 200 to a request whose phone number is a string,
    [/api/get-hashrate] for that phone number answers 200 with the list
    the user had before, followed by the product of the request. *)
Theorem get_hashrate_after_purchase
    (users : list User) (req_body req_query : JsVal) (N : string) :
  field req_body "phoneNumber" = JStr N ->
  field req_query "phoneNumber" = JStr N ->
  status (response (buy_product users req_body)) = HTTP 200 ->
  exists i user purchased,
    find_user users (JStr N) = Some (i, user) /\
    User.hashrate user = Some purchased /\
    get_hashrate users req_query
    = reply users (HTTP 200) (json (JObj [("hashrate", JArr purchased)])) /\
    get_hashrate (users_after (buy_product users req_body)) req_query
    = reply (users_after (buy_product users req_body)) (HTTP 200)
        (json (JObj [("hashrate",
                      JArr (purchased ++ [field req_body "productData"]))])).
Proof.
  intros HN HQ H200.
  destruct (buy_product_cases users req_body)
    as [(_ & Hr) | [(Hs & _) | (i & user & price & P & Hprice & HP & Hfind & _ & Hr)]].
  { rewrite Hr in H200. status_clash H200. }
  { destruct Hs as [Hs | [Hs | Hs]]; rewrite Hs in H200; status_clash H200. }
  cbv zeta in Hr. rewrite HN in Hfind.
  destruct (User.hashrate user) as [purchased | ] eqn:Hlist;
    [ | rewrite Hr in H200; status_clash H200].
  exists i, user, purchased.
  assert (HNe : N <> "").
  { intros ->. revert H200. unfold buy_product. rewrite Hprice, HN.
    cbn [mbind option_bind]. rewrite HP.
    cbn [mbind option_bind falsy truthy String.eqb negb orb reply response status].
    intros H. status_clash H. }
  split; [exact Hfind | ]. split; [exact Hlist | ].
  unfold get_hashrate. rewrite HQ, (falsy_JStr N HNe), Hfind, Hlist, Hr.
  cbn [users_after default].
  set (buyer := with_hashrate _ _).
  rewrite (find_user_insert users (JStr N) i user buyer Hfind eq_refl).
  split; reflexivity.
Qed.

(** ** Orders and payment confirmations *)

(** Writing a property and reading it back. *)
Lemma lookup_set_prop_eq k v props : lookup_prop k (set_prop k v props) = v.
Proof.
  induction props as [ | [k' v'] r IH]; cbn [set_prop lookup_prop].
  - rewrite String.eqb_refl. reflexivity.
  - destruct (String.eqb k k') eqn:E; cbn [lookup_prop].
    + rewrite String.eqb_refl. reflexivity.
    + rewrite E. exact IH.
Qed.

Lemma lookup_set_prop_ne k k' v props :
  k <> k' -> lookup_prop k (set_prop k' v props) = lookup_prop k props.
Proof.
  intros Hne. apply String.eqb_neq in Hne.
  induction props as [ | [k'' v''] r IH]; cbn [set_prop lookup_prop].
  - rewrite Hne. reflexivity.
  - destruct (String.eqb k' k'') eqn:E; cbn [lookup_prop].
    + apply String.eqb_eq in E. subst k''. rewrite Hne. reflexivity.
    + rewrite IH. reflexivity.
Qed.

(** Only a truthy value has a truthy property. *)
Lemma get_truthy v k x : get v k = Some x -> truthy x = true -> truthy v = true.
Proof.
  destruct v as [ | | b | y | s | l | props]; cbn [get]; intros H Ht;
    try discriminate H; try reflexivity;
    try (injection H as <-; discriminate Ht).
  destruct (String.eqb k "length"); injection H as <-; [ | discriminate Ht].
  destruct s; [discriminate Ht | reflexivity].
Qed.

Lemma get_set_eq props k v : get (set (JObj props) k v) k = Some v.
Proof. cbn [set get]. rewrite lookup_set_prop_eq. reflexivity. Qed.

Lemma get_set_ne props k k' v :
  k <> k' -> get (set (JObj props) k' v) k = get (JObj props) k.
Proof. intros H. cbn [set get]. rewrite lookup_set_prop_ne by exact H. reflexivity. Qed.

(** X10.  The notes of the order [/create-order] sends to the gateway.  When
    the request has no [notes] or an object, the notes sent hold the phone
    number of the request under [phoneNumber], over anything the client
    put there, its [qrId] when it has one, and every other property of the
    client's notes as it was.  When the client's [notes] is a truthy
    primitive (a string, a number, [true]) the writes are dropped and the
    order carries no phone number. *)
Theorem create_order_sends_notes
    (razorpay : Gateway) (now : number) (users : list User) (req_body options : JsVal) :
  let phoneNumber := field req_body "phoneNumber" in
  let qrId := field req_body "qrId" in
  let notes := field req_body "notes" in
  orders_create options ∈ effects (create_order razorpay now users req_body) ->
  get options "currency" = Some (field req_body "currency") /\
  exists sent,
    get options "notes" = Some sent /\
    (truthy notes = false \/ (exists props, notes = JObj props) ->
     get sent "phoneNumber" = Some phoneNumber /\
     (truthy qrId = true -> get sent "qrId" = Some qrId) /\
     (forall k, k <> "phoneNumber" -> k <> "qrId" ->
        get sent k = get (js_or notes (JObj [])) k) /\
     (truthy qrId = false ->
      forall k, k <> "phoneNumber" -> get sent k = get (js_or notes (JObj [])) k)) /\
    (truthy notes = true ->
     (forall props, notes <> JObj props) -> (forall l, notes <> JArr l) ->
     sent = notes /\ get sent "phoneNumber" = Some JUndefined).
Proof.
  cbv zeta. unfold create_order.
  destruct (falsy _ || falsy _ || eq_null _);
    [intros H; apply elem_of_nil in H; contradiction | ].
  destruct (to_number _) as [numericAmount | ];
    [ | intros H; apply elem_of_nil in H; contradiction].
  destruct (isNaN _ || js_le _ _);
    [intros H; apply elem_of_nil in H; contradiction | ].
  cbn [effects]. intros H. apply list_elem_of_singleton in H.
  apply (f_equal sent_options) in H. cbn [sent_options] in H. subst options.
  cbn [get lookup_prop String.eqb Ascii.eqb Bool.eqb].
  split; [reflexivity | ].
  eexists. split; [reflexivity | ]. split.
  - intros Hnotes.
    assert (exists props, js_or (field req_body "notes") (JObj []) = JObj props)
      as [props Hp].
    { destruct Hnotes as [Hf | [props ->]].
      - exists []. unfold js_or. rewrite Hf. reflexivity.
      - exists props. reflexivity. }
    rewrite Hp. set (phone := field req_body "phoneNumber").
    set (qrId := field req_body "qrId").
    destruct (truthy qrId) eqn:Q.
    + split; [ | split; [ | split]].
      * change (set (JObj props) "phoneNumber" phone)
          with (JObj (set_prop "phoneNumber" phone props)).
        rewrite get_set_ne by discriminate. apply get_set_eq.
      * intros _. change (set (JObj props) "phoneNumber" phone)
          with (JObj (set_prop "phoneNumber" phone props)).
        apply get_set_eq.
      * intros k Hk1 Hk2.
        change (set (JObj props) "phoneNumber" phone)
          with (JObj (set_prop "phoneNumber" phone props)).
        rewrite get_set_ne by exact Hk2. apply get_set_ne. exact Hk1.
      * intros H. discriminate H.
    + split; [apply get_set_eq | ]. split; [intros H; discriminate H | ].
      split; intros k Hk1; [intros _ | ]; apply get_set_ne; exact Hk1.
  - intros Ht Hobj Harr. unfold js_or. rewrite Ht.
    destruct (field req_body "notes") as [ | | b | x | s | l | props] eqn:E;
      try discriminate Ht;
      try (destruct (Hobj props eq_refl)); try (destruct (Harr l eq_refl));
      cbn [set]; destruct (truthy (field req_body "qrId"));
      cbn [set get String.eqb Ascii.eqb Bool.eqb]; split; reflexivity.
Qed.

Lemma num_100 : num 100 = S754_finite false 7036874417766400 (-46).
Proof. reflexivity. Qed.

(** The product of a positive number and 100 is not negative. *)
Lemma js_mul_100_not_negative A :
  isNaN A = false -> js_le A (num 0) = false -> not_negative (js_mul A (num 100)).
Proof.
  intros Hn Hl. destruct (positive_shape A Hn Hl) as [(m & e & ->) | ->].
  - rewrite num_100. unfold js_mul, SFmul. cbn [xorb].
    apply binary_round_aux_not_negative. lia.
  - rewrite num_100. exact I.
Qed.

Lemma round_half_up_nonneg m e : e < 0 -> 0 <= round_half_up false m e.
Proof.
  intros He. unfold round_half_up. cbn [cond_Zopp].
  apply Z.div_pos; [ | apply Z.pow_pos_nonneg; lia].
  pose proof (Z.pow_pos_nonneg 2 (- e) ltac:(lia) ltac:(lia)). lia.
Qed.

Lemma Math_round_not_negative x : not_negative x -> not_negative (Math_round x).
Proof.
  destruct x as [s | [ | ] | | [ | ] m e]; cbn [not_negative Math_round]; try tauto.
  intros _. destruct (0 <=? e) eqn:E; [exact I | ].
  apply Z.leb_gt in E. apply binary_normalize_not_negative.
  apply round_half_up_nonneg. exact E.
Qed.

(** X11.  The amount [/create-order] sends to the gateway is never negative:
    it is [+0], a positive number or [Infinity].  When the product of the
    amount and 100 is finite it is an integer [n >= 0], and it is [0] when
    that product is below one half: a positive amount under half a minor
    unit creates an order for nothing. *)
Theorem create_order_amount_not_negative
    (razorpay : Gateway) (now : number) (users : list User) (req_body options : JsVal) :
  orders_create options ∈ effects (create_order razorpay now users req_body) ->
  exists A,
    to_number (field req_body "amount") = Some A /\
    let sent := Math_round (js_mul A (num 100)) in
    get options "amount" = Some (JNum sent) /\
    js_le (num 0) sent = true /\
    (forall m e,
       js_mul A (num 100) = S754_finite false m e ->
       valid (S754_finite false m e) = true ->
       exists n, integer_value sent = Some n /\ 0 <= n /\
                 (e < 0 -> 2 * Zpos m < 2 ^ (- e) -> n = 0)).
Proof.
  unfold create_order.
  destruct (falsy _ || falsy _ || eq_null _);
    [intros H; apply elem_of_nil in H; contradiction | ].
  destruct (to_number _) as [A | ];
    [ | intros H; apply elem_of_nil in H; contradiction].
  destruct (isNaN _ || js_le _ _) eqn:G;
    [intros H; apply elem_of_nil in H; contradiction | ].
  apply orb_false_iff in G as [Hn Hl].
  cbn [effects]. intros H. apply list_elem_of_singleton in H.
  apply (f_equal sent_options) in H. cbn [sent_options] in H. subst options.
  exists A. split; [reflexivity | ]. cbv zeta.
  split; [reflexivity | ]. split.
  - apply not_negative_le, Math_round_not_negative, js_mul_100_not_negative; assumption.
  - intros m e Hx V. rewrite Hx.
    destruct (Math_round_nearest false m e V) as (n & Hn1 & Hn2 & Hn3).
    exists n. split; [exact Hn1 | ]. cbn [cond_Zopp] in Hn2, Hn3.
    destruct (Z.leb_spec 0 e) as [He | He].
    + split; [ | lia]. rewrite (Hn2 He).
      pose proof (Z.pow_nonneg 2 e ltac:(lia)). nia.
    + specialize (Hn3 He).
      pose proof (Z.pow_pos_nonneg 2 (- e) ltac:(lia) ltac:(lia)) as Hpow.
      split; [nia | ]. intros _ Hsmall. nia.
Qed.

(** A status code is truthy. *)
Lemma truthy_HTTP n : 0 < n < 2 ^ 53 -> truthy (HTTP n) = true.
Proof.
  intros Hn. pose proof (binary_normalize_integer n false ltac:(lia)) as H.
  unfold HTTP, num. destruct (binary_normalize prec emax n 0 false) as [s | s | | s m e];
    cbn [integer_value] in H; try discriminate H; [ | reflexivity].
  injection H as H. lia.
Qed.

(** X12.  What [/create-order] answers once the gateway has been called.  A
    created order is relayed as it is with status 200.  A rejection that
    carries a description ([error.error.description]) is answered with it
    and the gateway's [statusCode], or 400 when it has none; when the
    framework refuses that code, which it never does to an integer from
    100 to 999, the [catch] block throws and nothing is answered.  Any
    other rejection, [null] and [undefined] included, is answered with
    the generic 500.  The array is never changed and nothing is
    written. *)
Theorem create_order_relays_gateway
    (razorpay : Gateway) (now : number) (users : list User) (req_body options : JsVal) :
  let r := create_order razorpay now users req_body in
  effects r = [orders_create options] ->
  users_after r = users /\
  (forall order, create razorpay options = resolved order ->
     response r = {| status := HTTP 200; body := json order |}) /\
  (forall error detail description,
     create razorpay options = rejected error ->
     get error "error" = Some detail -> get detail "description" = Some description ->
     truthy description = true ->
     let code := js_or (field error "statusCode") (HTTP 400) in
     let relayed :=
       json (JObj [("error", JStr "Payment Gateway Error");
                   ("message", description)]) in
     (forall sent, res_status code = Some sent ->
        response r = {| status := sent; body := relayed |}) /\
     (res_status code = None ->
        response r = {| status := JUndefined; body := nothing |}) /\
     (truthy (field error "statusCode") = false ->
        response r = {| status := HTTP 400; body := relayed |}) /\
     (forall n, 100 <= n <= 999 -> field error "statusCode" = HTTP n ->
        response r = {| status := HTTP n; body := relayed |})) /\
  (forall error,
     create razorpay options = rejected error ->
     truthy error = false \/ truthy (field error "error") = false
     \/ truthy (field (field error "error") "description") = false ->
     response r
     = {| status := HTTP 500;
          body := json (JObj [("error", JStr "Server Error");
                              ("message", JStr "An unexpected error occurred.")]) |}).
Proof.
  cbv zeta. unfold create_order.
  destruct (falsy _ || falsy _ || eq_null _); [intros H; discriminate H | ].
  destruct (to_number _) as [numericAmount | ]; [ | intros H; discriminate H].
  destruct (isNaN _ || js_le _ _); [intros H; discriminate H | ].
  cbn [effects users_after response]. intros H.
  apply (f_equal (fun l => sent_options (nth 0 l (writeFile [])))) in H.
  cbn [nth sent_options] in H. subst options.
  split; [reflexivity | ]. split; [ | split].
  - intros order ->. reflexivity.
  - intros error detail description -> Hd Hdesc Ht.
    pose proof (get_truthy _ _ _ Hdesc Ht) as Htd.
    pose proof (get_truthy _ _ _ Hd Htd) as Hte.
    unfold order_error. rewrite Hte, Hd, Htd, Hdesc, Ht.
    split; [ | split; [ | split]].
    + intros sent ->. reflexivity.
    + intros ->. reflexivity.
    + intros Hc. unfold js_or. rewrite Hc.
      rewrite (res_status_integer 400) by lia. reflexivity.
    + intros n Hn ->. unfold js_or. rewrite truthy_HTTP by lia.
      rewrite (res_status_integer n Hn). reflexivity.
  - intros error -> Hbad. unfold order_error.
    destruct (truthy error) eqn:Hte.
    + destruct Hbad as [Hbad | [Hbad | Hbad]]; [discriminate Hbad | | ].
      * unfold field in Hbad. destruct (get error "error") as [detail | ];
          [rewrite Hbad, Hbad | ]; reflexivity.
      * unfold field in Hbad at 2. destruct (get error "error") as [detail | ].
        -- destruct (truthy detail) eqn:Htd.
           ++ unfold field in Hbad. destruct (get detail "description") as [d | ];
                [rewrite Hbad | ]; reflexivity.
           ++ rewrite Htd. reflexivity.
        -- reflexivity.
    + rewrite Hte. reflexivity.
Qed.

(** What the [try] block of [/verify-payment] can do. *)
Lemma apply_order_cases users o productData order :
  let r := apply_order users o productData order in
  let failure :=
    {| status := HTTP 500;
       body := json (JObj [("status", JStr "failure");
                           ("message", JStr "Could not update user balance.")]) |} in
  (users_after r = users /\ effects r = [] /\
   (response r = failure \/
    response r
    = {| status := HTTP 404;
         body := json (JObj [("status", JStr "failure");
                             ("message",
                              JStr "User associated with order not found.")]) |})) \/
  exists i user,
    users !! i = Some user /\
    ((exists purchased,
        User.hashrate user = Some purchased /\ truthy productData = true /\
        users_after r = <[i := with_hashrate user (purchased ++ [productData])]> users /\
        effects r = [writeFile (users_after r)] /\
        (response r
         = {| status := HTTP 200;
              body := json (JObj [("status", JStr "success");
                                  ("message",
                                   JStr "Product purchased successfully.")]) |}
         \/ response r = failure))
     \/
     (exists M,
        to_number (field order "amount") = Some M /\
        let paid := js_add (User.balance user) (js_div M (num 100)) in
        r = {| response :=
                 {| status := HTTP 200;
                    body := json (JObj [("status", JStr "success");
                                        ("orderId", o);
                                        ("newBalance", JNum paid)]) |};
               users_after := <[i := with_balance user paid]> users;
               effects := [writeFile (<[i := with_balance user paid]> users)] |})).
Proof.
  cbv zeta. unfold apply_order.
  destruct (get order "notes") as [notes | ]; [ | left; repeat split; auto].
  cbn [mbind option_bind].
  destruct (get notes "phoneNumber") as [phone | ]; [ | left; repeat split; auto].
  cbn [mbind option_bind].
  destruct (find_user users phone) as [[i user] | ] eqn:Efind.
  2:{ left. destruct (template _); repeat split; auto. }
  pose proof (find_user_lookup _ _ _ _ Efind) as Hi.
  destruct (if truthy productData then _ else _) as [[ | ] | ] eqn:Hbranch;
    [ | | left; repeat split; auto].
  - assert (Hpd : truthy productData = true).
    { destruct (truthy productData); [reflexivity | discriminate Hbranch]. }
    destruct (User.hashrate user) as [purchased | ] eqn:Hlist;
      [ | left; repeat split; auto].
    right. exists i, user. split; [exact Hi | ]. left.
    exists purchased. split; [first [exact Hlist | reflexivity] | ].
    split; [exact Hpd | ].
    destruct (name ← get productData "name"; template [phone; name]);
      cbn [failed response users_after effects saveUsers]; repeat split; auto.
  - destruct (to_number _) as [M | ] eqn:EM; [ | left; repeat split; auto].
    right. exists i, user. split; [exact Hi | ]. right.
    exists M. split; [reflexivity | ].
    rewrite template_two.
    destruct (found_to_string _ _ _ _ Efind) as [digits ->]. reflexivity.
Qed.

(** X13.  What [/verify-payment] answers to a valid signature when the order
    cannot be applied.  A fetch the gateway rejects, an order without
    notes, a product purchase for a record that has no purchase list and
    a top-up whose amount has no number are answered 500; a phone number
    in the notes that no record has is answered 404, or 500 when the log
    line cannot convert it.  In these cases the array is as it was and
    nothing is written.  A product whose name the log line cannot convert
    is answered 500 too, after the product has been pushed and the array
    saved.  The gateway is asked once; an answer of 200 comes with a save,
    and a change of the array always does. *)
Theorem verify_payment_failures
    (razorpay : Gateway) (users : list User) (req_body : JsVal) (O P : string) :
  let o := field req_body "razorpay_order_id" in
  let p := field req_body "razorpay_payment_id" in
  let productData := field req_body "productData" in
  let r := verify_payment razorpay users req_body in
  let failure :=
    {| status := HTTP 500;
       body := json (JObj [("status", JStr "failure");
                           ("message", JStr "Could not update user balance.")]) |} in
  let quiet := users_after r = users /\ effects r = [orders_fetch o] in
  truthy o = true -> truthy p = true ->
  to_string o = Some O -> to_string p = Some P ->
  field req_body "razorpay_signature" = JStr (expectedSignature O P) ->
  (forall error, fetch razorpay o = rejected error -> response r = failure /\ quiet) /\
  (forall order,
     fetch razorpay o = resolved order ->
     (get order "notes" = None -> response r = failure /\ quiet) /\
     (forall notes, get order "notes" = Some notes ->
        get notes "phoneNumber" = None -> response r = failure /\ quiet) /\
     (forall notes phone,
        get order "notes" = Some notes -> get notes "phoneNumber" = Some phone ->
        (forall u, u ∈ users -> strict_eq (User.phoneNumber u) phone = false) ->
        (to_string phone <> None ->
         response r
         = {| status := HTTP 404;
              body := json (JObj [("status", JStr "failure");
                                  ("message",
                                   JStr "User associated with order not found.")]) |}) /\
        (to_string phone = None -> response r = failure) /\ quiet) /\
     (forall notes phone i user,
        get order "notes" = Some notes -> get notes "phoneNumber" = Some phone ->
        find_user users phone = Some (i, user) ->
        (truthy productData = true ->
         get notes "purchaseType" = Some (JStr "product") ->
         User.hashrate user = None ->
         response r = failure /\ quiet) /\
        (truthy productData = false \/
         get notes "purchaseType" <> Some (JStr "product") ->
         to_number (field order "amount") = None ->
         response r = failure /\ quiet) /\
        (forall purchased,
           truthy productData = true ->
           get notes "purchaseType" = Some (JStr "product") ->
           User.hashrate user = Some purchased ->
           to_string (field productData "name") = None ->
           response r = failure /\
           users_after r
           = <[i := with_hashrate user (purchased ++ [productData])]> users /\
           effects r = [orders_fetch o; writeFile (users_after r)]))) /\
  (status (response r) <> HTTP 200 /\ quiet \/
   (status (response r) = HTTP 200 \/ response r = failure) /\
   effects r = [orders_fetch o; writeFile (users_after r)]) /\
  (status (response r) = HTTP 200 ->
   effects r = [orders_fetch o; writeFile (users_after r)]) /\
  (users_after r <> users ->
   effects r = [orders_fetch o; writeFile (users_after r)]).
Proof.
  cbv zeta. intros Ho Hp HO HP Hs.
  rewrite (verify_payment_signed razorpay users req_body O P Ho Hp HO HP Hs). cbv zeta.
  assert (Hshape : forall order,
    let r := apply_order users (field req_body "razorpay_order_id")
               (field req_body "productData") order in
    status (response r) <> HTTP 200 /\ users_after r = users /\ effects r = [] \/
    (status (response r) = HTTP 200 \/
     response r
     = {| status := HTTP 500;
          body := json (JObj [("status", JStr "failure");
                              ("message", JStr "Could not update user balance.")]) |}) /\
    effects r = [writeFile (users_after r)]).
  { intros order. cbv zeta.
    destruct (apply_order_cases users (field req_body "razorpay_order_id")
                (field req_body "productData") order)
      as [(Hu & He & Hr) | (i & user & _ & [(purchased & _ & _ & Hu & He & Hr)
                                            | (M & _ & Hr)])].
    - left. split; [ | split; assumption].
      destruct Hr as [-> | ->]; intros H; status_clash H.
    - right. split; [ | exact He]. destruct Hr as [-> | ->]; auto.
    - right. cbv zeta in Hr. rewrite Hr. split; [left | ]; reflexivity. }
  split; [ | split; [ | split; [ | split]]].
  - intros error ->. repeat split.
  - intros order ->. split; [ | split; [ | split]].
    + unfold apply_order. intros ->. repeat split.
    + unfold apply_order. intros notes -> Hnone. cbn [mbind option_bind].
      rewrite Hnone. repeat split.
    + unfold apply_order. intros notes phone -> Hphone Hnone. cbn [mbind option_bind].
      rewrite Hphone. cbn [mbind option_bind].
      apply find_user_None in Hnone. rewrite Hnone, template_two, HO.
      destruct (to_string phone); cbn [mbind option_bind];
        repeat split; auto; try congruence.
    + intros notes phone i user Hnotes Hphone Hfind. split; [ | split].
      * unfold apply_order. rewrite Hnotes. cbn [mbind option_bind].
        rewrite Hphone. cbn [mbind option_bind]. rewrite Hfind.
        intros Hpd Htype Hlist. rewrite Hpd, Htype. cbn [mbind option_bind strict_eq].
        rewrite String.eqb_refl, Hlist. repeat split.
      * unfold apply_order. rewrite Hnotes. cbn [mbind option_bind].
        rewrite Hphone. cbn [mbind option_bind]. rewrite Hfind.
        intros Htype Hnone.
        assert ((if truthy (field req_body "productData")
                 then purchaseType ← get notes "purchaseType";
                      Some (strict_eq purchaseType (JStr "product"))
                 else Some false) = Some false) as ->.
        { destruct (truthy (field req_body "productData")); [ | reflexivity].
          destruct Htype as [Htype | Htype]; [discriminate Htype | ].
          destruct (get notes "purchaseType") as [t | ] eqn:T.
          - cbn [mbind option_bind]. f_equal.
            destruct (strict_eq t (JStr "product")) eqn:E; [ | reflexivity].
            apply strict_eq_JStr_r in E. subst t. destruct (Htype eq_refl).
          - destruct notes; discriminate. }
        rewrite Hnone. repeat split.
      * intros purchased Hpd Htype Hlist Hname.
        rewrite (apply_order_product users _ _ order notes phone i user purchased
                   Hnotes Hphone Htype Hpd Hfind Hlist), Hname.
        repeat split.
  - destruct (fetch razorpay _) as [order | error].
    + cbn [response users_after effects].
      destruct (Hshape order) as [(H1 & H2 & H3) | (H1 & H2)].
      * left. rewrite H2, H3. auto.
      * right. rewrite H2. auto.
    + left. split; [intros H; status_clash H | split; reflexivity].
  - destruct (fetch razorpay _) as [order | error];
      [ | cbn [response status failed]; intros H; status_clash H].
    cbn [response users_after effects].
    destruct (Hshape order) as [(H1 & H2 & H3) | (H1 & H2)];
      [intros H; destruct (H1 H) | rewrite H2; reflexivity].
  - destruct (fetch razorpay _) as [order | error];
      [ | cbn [users_after failed]; intros H; destruct (H eq_refl)].
    cbn [response users_after effects].
    destruct (Hshape order) as [(H1 & H2 & H3) | (H1 & H2)];
      [intros H; destruct (H H2) | rewrite H2; reflexivity].
Qed.

Lemma js_add_NaN x : js_add x NaN = NaN.
Proof. destruct x as [ [] | [] | | [] m e]; reflexivity. Qed.

Lemma js_div_NaN x y : isNaN x = true -> js_div x y = NaN.
Proof. destruct x; try discriminate. reflexivity. Qed.

(** X14.  A top-up whose fetched order has no usable amount destroys the
    balance: when the number of the order's [amount] is [NaN], as it is
    for an absent one, the confirmation is still answered 200, the user's
    balance becomes [NaN] and the array holding it is handed to
    [saveUsers()]. *)
Theorem verified_topup_without_amount
    (razorpay : Gateway) (users : list User) (req_body order notes phone : JsVal)
    (O P : string) (i : nat) (user : User) (M : number) :
  let o := field req_body "razorpay_order_id" in
  let p := field req_body "razorpay_payment_id" in
  let r := verify_payment razorpay users req_body in
  truthy o = true -> truthy p = true ->
  to_string o = Some O -> to_string p = Some P ->
  field req_body "razorpay_signature" = JStr (expectedSignature O P) ->
  fetch razorpay o = resolved order ->
  get order "notes" = Some notes ->
  get notes "phoneNumber" = Some phone ->
  get notes "purchaseType" <> Some (JStr "product") ->
  to_number (field order "amount") = Some M -> isNaN M = true ->
  find_user users phone = Some (i, user) ->
  r = {| response :=
           {| status := HTTP 200;
              body := json (JObj [("status", JStr "success");
                                  ("orderId", o);
                                  ("newBalance", JNum NaN)]) |};
         users_after := <[i := with_balance user NaN]> users;
         effects := [orders_fetch o; writeFile (<[i := with_balance user NaN]> users)] |}
  /\ User.balance <$> (users_after r !! i) = Some NaN
  /\ (field order "amount" = JUndefined -> M = NaN).
Proof.
  cbv zeta. intros Ho Hp HO HP Hs Hfetch Hnotes Hphone Htype HM Hnan Hfind.
  destruct (verify_payment_topup razorpay users req_body order notes phone
              O P i user M Ho Hp HO HP Hs Hfetch Hnotes Hphone Htype HM Hfind)
    as (Hr & Hb).
  rewrite (js_div_NaN _ _ Hnan), js_add_NaN in Hr, Hb.
  split; [exact Hr | ]. split; [rewrite Hb; reflexivity | ].
  intros Hu. rewrite Hu in HM. injection HM as <-. reflexivity.
Qed.

(** The digest in hex is made of the sixteen lower-case digits. *)
Lemma hex_digit_hex_char n : 0 <= n < 16 -> hex_char (NodeCrypto.hex_digit n) = true.
Proof.
  intros H.
  assert (Hall : forallb (fun k => hex_char (NodeCrypto.hex_digit (Z.of_nat k)))
                   (List.seq 0 16) = true) by reflexivity.
  rewrite List.forallb_forall in Hall. specialize (Hall (Z.to_nat n)).
  rewrite Z2Nat.id in Hall by lia. apply Hall. apply List.in_seq. lia.
Qed.

Lemma hex_chars bs :
  Forall (fun b => 0 <= b < 256) bs ->
  forallb hex_char (list_ascii_of_string (NodeCrypto.hex bs)) = true.
Proof.
  induction 1 as [ | b r Hb _ IH]; [reflexivity | ].
  cbn [NodeCrypto.hex list_ascii_of_string forallb].
  rewrite IH, !hex_digit_hex_char; [reflexivity | | ].
  - apply Z.mod_pos_bound. lia.
  - split; [apply Z.div_pos; lia | apply Z.div_lt_upper_bound; lia].
Qed.

Lemma be_bytes_range n x : Forall (fun b => 0 <= b < 256) (NodeCrypto.be_bytes n x).
Proof.
  induction n as [ | n IH]; cbn [NodeCrypto.be_bytes]; constructor; [ | exact IH].
  apply Z.mod_pos_bound. lia.
Qed.

Lemma sha256_range msg : Forall (fun b => 0 <= b < 256) (NodeCrypto.sha256 msg).
Proof.
  unfold NodeCrypto.sha256. generalize (fold_left NodeCrypto.compress
    (NodeCrypto.chunks (length (NodeCrypto.pad msg)) 64 (NodeCrypto.pad msg)) NodeCrypto.H0).
  intros h. induction h as [ | w h IH]; cbn [flat_map]; [constructor | ].
  apply Forall_app. split; [apply be_bytes_range | exact IH].
Qed.

(** X15.  The expected signature is always 64 characters among [0-9a-f],
    whatever the secret and the identifiers.  So a submitted signature of
    another length, or with a character outside these (an upper-case
    digit, say), is never accepted and changes nothing, the gateway not
    being asked; it is refused with status 400 whenever the identifiers
    convert to strings. *)
Theorem signature_is_64_hex_digits
    (razorpay : Gateway) (users : list User) (req_body : JsVal) (s : string) :
  let o := field req_body "razorpay_order_id" in
  let p := field req_body "razorpay_payment_id" in
  let r := verify_payment razorpay users req_body in
  (forall O P,
     String.length (expectedSignature O P) = 64%nat /\
     forallb hex_char (list_ascii_of_string (expectedSignature O P)) = true) /\
  (field req_body "razorpay_signature" = JStr s ->
   String.length s <> 64%nat \/ forallb hex_char (list_ascii_of_string s) = false ->
   status (response r) <> HTTP 200 /\ users_after r = users /\ effects r = [] /\
   (to_string o <> None -> to_string p <> None -> status (response r) = HTTP 400)).
Proof.
  cbv zeta.
  assert (Hfmt : forall O P,
                 String.length (expectedSignature O P) = 64%nat /\
                 forallb hex_char (list_ascii_of_string (expectedSignature O P)) = true).
  { intros O P. unfold expectedSignature. split; [apply hmac_sha256_hex_length | ].
    unfold NodeCrypto.hmac_sha256_hex, NodeCrypto.hmac_sha256.
    apply hex_chars, sha256_range. }
  split; [exact Hfmt | ].
  intros Hs Hbad. unfold verify_payment. rewrite Hs.
  destruct (falsy _ || falsy _ || falsy _).
  { repeat split. intros H. status_clash H. }
  destruct (to_string (field req_body "razorpay_order_id")) as [O | ].
  2:{ repeat split; [intros H; discriminate H | intros H; destruct (H eq_refl)]. }
  destruct (to_string (field req_body "razorpay_payment_id")) as [P | ].
  2:{ repeat split; [intros H; discriminate H | intros _ H; destruct (H eq_refl)]. }
  cbn [mbind option_bind].
  destruct (strict_eq _ _) eqn:E.
  2:{ repeat split. intros H. status_clash H. }
  apply strict_eq_JStr_l in E. injection E as ->.
  destruct (Hfmt O P) as [Hlen Hhex]. destruct Hbad as [Hbad | Hbad]; congruence.
Qed.

(** X16.  A product confirmation can be replayed as a top-up can: the same
    valid confirmation of an order marked as a product purchase, sent
    twice, leaves the product twice at the end of the user's purchase
    list, each time handing the array to [saveUsers()].  Both answers are
    200 when the name of the product converts to a string, and both are
    500 when it does not. *)
Theorem verified_product_replay_appends_twice
    (razorpay : Gateway) (users : list User) (req_body order notes phone : JsVal)
    (O P : string) (i : nat) (user : User) (purchased : list JsVal) :
  let o := field req_body "razorpay_order_id" in
  let p := field req_body "razorpay_payment_id" in
  let productData := field req_body "productData" in
  truthy o = true -> truthy p = true ->
  to_string o = Some O -> to_string p = Some P ->
  field req_body "razorpay_signature" = JStr (expectedSignature O P) ->
  fetch razorpay o = resolved order ->
  get order "notes" = Some notes ->
  get notes "phoneNumber" = Some phone ->
  get notes "purchaseType" = Some (JStr "product") ->
  truthy productData = true ->
  find_user users phone = Some (i, user) ->
  User.hashrate user = Some purchased ->
  let first := verify_payment razorpay users req_body in
  let second := verify_payment razorpay (users_after first) req_body in
  users_after first = <[i := with_hashrate user (purchased ++ [productData])]> users /\
  users_after second
  = <[i := with_hashrate user (purchased ++ [productData; productData])]> users /\
  User.hashrate <$> (users_after first !! i) = Some (Some (purchased ++ [productData])) /\
  User.hashrate <$> (users_after second !! i)
  = Some (Some (purchased ++ [productData; productData])) /\
  effects first = [orders_fetch o; writeFile (users_after first)] /\
  effects second = [orders_fetch o; writeFile (users_after second)] /\
  (to_string (field productData "name") <> None ->
   status (response first) = HTTP 200 /\ status (response second) = HTTP 200) /\
  (to_string (field productData "name") = None ->
   status (response first) = HTTP 500 /\ status (response second) = HTTP 500).
Proof.
  cbv zeta. intros Ho Hp HO HP Hs Hfetch Hnotes Hphone Htype Hpd Hfind Hlist.
  set (pd := field req_body "productData") in *.
  set (owner := with_hashrate user (purchased ++ [pd])).
  pose proof (find_user_lt _ _ _ _ Hfind) as Hlt.
  assert (Hfind' : find_user (<[i := owner]> users) phone = Some (i, owner)).
  { apply find_user_insert with (u := user); [assumption | reflexivity]. }
  assert (Hfirst : verify_payment razorpay users req_body
                   = let r := apply_order users (field req_body "razorpay_order_id")
                                pd order in
                     {| response := response r; users_after := users_after r;
                        effects := orders_fetch (field req_body "razorpay_order_id")
                                   :: effects r |}).
  { rewrite (verify_payment_signed _ _ _ O P) by assumption. cbv zeta.
    rewrite Hfetch. reflexivity. }
  assert (Hsecond : verify_payment razorpay (<[i := owner]> users) req_body
                   = let r := apply_order (<[i := owner]> users)
                                (field req_body "razorpay_order_id") pd order in
                     {| response := response r; users_after := users_after r;
                        effects := orders_fetch (field req_body "razorpay_order_id")
                                   :: effects r |}).
  { rewrite (verify_payment_signed _ _ _ O P) by assumption. cbv zeta.
    rewrite Hfetch. reflexivity. }
  cbv zeta in Hfirst, Hsecond.
  rewrite (apply_order_product users _ pd order notes phone i user purchased
             Hnotes Hphone Htype Hpd Hfind Hlist) in Hfirst.
  rewrite (apply_order_product (<[i := owner]> users) _ pd order notes phone i owner
             (purchased ++ [pd]) Hnotes Hphone Htype Hpd Hfind' eq_refl) in Hsecond.
  fold owner in Hfirst.
  assert (Hafter : users_after (verify_payment razorpay users req_body)
                   = <[i := owner]> users).
  { rewrite Hfirst. destruct (to_string (field pd "name")); reflexivity. }
  rewrite Hafter, Hsecond, Hfirst.
  destruct (to_string (field pd "name")) as [name | ];
    cbn [failed response users_after effects status];
    rewrite list_insert_insert_eq, <- app_assoc; cbn [app owner with_hashrate];
    rewrite !list_lookup_insert_eq by exact Hlt;
    (split; [reflexivity | ]); (split; [reflexivity | ]);
    (split; [reflexivity | ]); (split; [reflexivity | ]);
    (split; [reflexivity | ]); (split; [reflexivity | ]).
  - split; [intros _; split; reflexivity | intros H; discriminate H].
  - split; [intros H; destruct (H eq_refl) | intros _; split; reflexivity].
Qed.

(** ** The server over a sequence of requests *)

(** What [/verify-payment] can do to the array. *)
Lemma verify_payment_cases razorpay users req_body :
  let r := verify_payment razorpay users req_body in
  (status (response r) <> HTTP 200 /\ users_after r = users /\
   forall e, e ∈ effects r -> is_write e = false) \/
  (exists i user user',
     users !! i = Some user /\
     users_after r = <[i := user']> users /\
     effects r = [orders_fetch (field req_body "razorpay_order_id");
                  writeFile (users_after r)] /\
     (status (response r) = HTTP 200 \/ status (response r) = HTTP 500) /\
     User.id user' = User.id user /\
     User.phoneNumber user' = User.phoneNumber user /\
     User.password user' = User.password user /\
     User.invitationCode user' = User.invitationCode user /\
     (User.hashrate user' = User.hashrate user \/
      exists purchased product,
        User.hashrate user = Some purchased /\
        User.hashrate user' = Some (purchased ++ [product]) /\
        eq_null product = false)).
Proof.
  cbv zeta. unfold verify_payment.
  assert (Hnil : forall e : Effect, e ∈ [] -> is_write e = false).
  { intros e H. apply elem_of_nil in H. contradiction. }
  destruct (falsy _ || falsy _ || falsy _).
  { left. split; [intros H; status_clash H | ]. split; [reflexivity | exact Hnil]. }
  destruct (order_id ← to_string _; payment_id ← to_string _;
            Some (order_id, payment_id)) as [[order_id payment_id] | ].
  2:{ left. split; [intros H; discriminate H | ]. split; [reflexivity | exact Hnil]. }
  destruct (strict_eq _ _).
  2:{ left. split; [intros H; status_clash H | ]. split; [reflexivity | exact Hnil]. }
  assert (Hfail : forall e,
            e ∈ [orders_fetch (field req_body "razorpay_order_id")] -> is_write e = false).
  { intros e H. apply list_elem_of_singleton in H as ->. reflexivity. }
  destruct (fetch razorpay _) as [order | error].
  2:{ left. split; [intros H; status_clash H | ]. split; [reflexivity | exact Hfail]. }
  cbn [response users_after effects].
  destruct (apply_order_cases users (field req_body "razorpay_order_id")
              (field req_body "productData") order)
    as [(Hu & He & Hr) | (i & user & Hi & [(purchased & Hlist & Hpd & Hu & He & Hr)
                                           | (M & _ & Hr)])].
  - left. rewrite Hu, He. split; [ | split; [reflexivity | exact Hfail]].
    destruct Hr as [-> | ->]; intros H; status_clash H.
  - right. exists i, user, (with_hashrate user (purchased ++ [field req_body "productData"])).
    rewrite He. split; [exact Hi | ]. split; [exact Hu | ]. split; [reflexivity | ].
    split; [destruct Hr as [-> | ->]; [left | right]; reflexivity | ].
    repeat split. right.
    exists purchased, (field req_body "productData").
    split; [exact Hlist | ]. split; [reflexivity | ].
    destruct (field req_body "productData"); try reflexivity; discriminate Hpd.
  - cbv zeta in Hr. rewrite Hr. cbn [response users_after effects status].
    right. eexists i, user, _. split; [exact Hi | ]. split; [reflexivity | ].
    split; [reflexivity | ]. split; [left; reflexivity | ].
    repeat split. left. reflexivity.
Qed.

Lemma register_edit users req_body : edit users (users_after (register users req_body)).
Proof.
  destruct (register_cases users req_body)
    as [(_ & -> & _) | [(_ & -> & _) | (-> & _)]]; [apply edit_none | apply edit_none | ].
  apply edit_push.
Qed.

Lemma update_profile_edit users req_body :
  edit users (users_after (update_profile users req_body)).
Proof.
  destruct (update_profile_cases users req_body)
    as [(_ & -> & _) | (i & u & Hfind & _ & _ & _ & ->)]; [apply edit_none | ].
  cbn [users_after]. apply edit_record with (u := u); auto.
  eapply find_user_lookup; eassumption.
Qed.

Lemma get_not_null v k x : get v k = Some x -> eq_null v = false.
Proof. destruct v; try discriminate; reflexivity. Qed.

Lemma buy_product_edit users req_body :
  edit users (users_after (buy_product users req_body)).
Proof.
  destruct (buy_product_cases users req_body)
    as [(_ & ->) | [(_ & -> & _) | (i & user & price & P & Hprice & _ & Hfind & _ & Hr)]];
    [apply edit_none | apply edit_none | ].
  cbv zeta in Hr. pose proof (find_user_lookup _ _ _ _ Hfind) as Hi.
  destruct (User.hashrate user) as [purchased | ] eqn:Hlist; rewrite Hr;
    cbn [users_after reply]; apply edit_record with (u := user); auto.
  right. exists purchased, (field req_body "productData").
  split; [exact Hlist | ]. split; [reflexivity | ].
  eapply get_not_null. eassumption.
Qed.

Lemma verify_payment_edit razorpay users req_body :
  edit users (users_after (verify_payment razorpay users req_body)).
Proof.
  destruct (verify_payment_cases razorpay users req_body)
    as [(_ & -> & _) | (i & user & user' & Hi & -> & _ & _ & H1 & H2 & _ & H3 & H4)];
    [apply edit_none | ].
  apply edit_record with (u := user); assumption.
Qed.

Lemma create_order_read_only razorpay now users req_body :
  users_after (create_order razorpay now users req_body) = users /\
  forall e, e ∈ effects (create_order razorpay now users req_body) -> is_write e = false.
Proof.
  unfold create_order.
  destruct (falsy _ || falsy _ || eq_null _);
    [split; [reflexivity | intros e H; apply elem_of_nil in H; contradiction] | ].
  destruct (to_number _);
    [ | split; [reflexivity | intros e H; apply elem_of_nil in H; contradiction]].
  destruct (isNaN _ || js_le _ _);
    [split; [reflexivity | intros e H; apply elem_of_nil in H; contradiction] | ].
  split; [reflexivity | ]. cbn [effects]. intros e H.
  apply list_elem_of_singleton in H as ->. reflexivity.
Qed.

Lemma login_read_only users req_body :
  users_after (login users req_body) = users /\ effects (login users req_body) = [].
Proof.
  unfold login. destruct (falsy _ || falsy _); [split; reflexivity | ].
  destruct (find_user _ _) as [[i u] | ]; [ | split; reflexivity].
  destruct (negb _); split; reflexivity.
Qed.

Lemma get_hashrate_read_only users req_query :
  users_after (get_hashrate users req_query) = users /\
  effects (get_hashrate users req_query) = [].
Proof.
  unfold get_hashrate. destruct (falsy _); [split; reflexivity | ].
  destruct (find_user _ _) as [[i u] | ]; split; reflexivity.
Qed.

Lemma export_users_read_only users :
  users_after (export_users users) = users /\ effects (export_users users) = [].
Proof.
  unfold export_users. destruct users; [split; reflexivity | ].
  destruct (mapM _ _); split; reflexivity.
Qed.

Lemma handle_edit razorpay now users request :
  edit users (users_after (handle razorpay now users request)).
Proof.
  destruct request; cbn [handle].
  - apply edit_none.
  - apply register_edit.
  - rewrite (proj1 (login_read_only _ _)). apply edit_none.
  - apply edit_none.
  - rewrite (proj1 (get_hashrate_read_only _ _)). apply edit_none.
  - apply update_profile_edit.
  - apply buy_product_edit.
  - rewrite (proj1 (create_order_read_only _ _ _ _)). apply edit_none.
  - apply verify_payment_edit.
  - rewrite (proj1 (export_users_read_only _)). apply edit_none.
Qed.

Lemma kept_refl u : kept u u.
Proof.
  repeat split. intros purchased H. exists []. rewrite app_nil_r. exact H.
Qed.

Lemma kept_trans u v w : kept u v -> kept v w -> kept u w.
Proof.
  intros (H1 & H2 & H3 & H4) (K1 & K2 & K3 & K4).
  repeat split; try congruence.
  intros purchased H. destruct (H4 purchased H) as [more Hv].
  destruct (K4 _ Hv) as [more' Hw]. exists (more ++ more').
  rewrite Hw, app_assoc. reflexivity.
Qed.

Lemma edit_keeps users users' :
  edit users users' ->
  (length users <= length users')%nat /\
  forall i u, users !! i = Some u -> exists u', users' !! i = Some u' /\ kept u u'.
Proof.
  intros [ | phone pw code | j v v' Hj H1 H2 H3 H4].
  - split; [lia | ]. intros i u Hi. exists u. split; [exact Hi | apply kept_refl].
  - split; [rewrite length_app; lia | ]. intros i u Hi. exists u.
    split; [ | apply kept_refl].
    rewrite lookup_app_l; [exact Hi | ]. eapply lookup_lt_Some. eassumption.
  - split; [rewrite length_insert; lia | ]. intros i u Hi.
    destruct (decide (i = j)) as [-> | Hne].
    + exists v'. rewrite Hj in Hi. injection Hi as <-.
      split; [apply list_lookup_insert_eq; eapply lookup_lt_Some; eassumption | ].
      repeat split; try assumption.
      intros purchased Hp. destruct H4 as [H4 | (purchased' & product & Ha & Hb & _)].
      * exists []. rewrite app_nil_r. congruence.
      * exists [product]. congruence.
    + exists u. split; [ | apply kept_refl].
      rewrite list_lookup_insert_ne by congruence. exact Hi.
Qed.

Lemma serve_snoc p calls call :
  serve p (calls ++ [call]) = serve_one (serve p calls) call.
Proof. unfold serve. rewrite fold_left_app. reflexivity. Qed.

Lemma serve_one_edit p call : edit (memory p) (memory (serve_one p call)).
Proof. destruct call as [[razorpay now] request]. apply handle_edit. Qed.

(** X17.  No request removes or moves a record, or a purchase.  Over any
    sequence of requests the array never gets shorter, and the record at
    an index stays at that index with its identifier, phone number and
    invitation code; its purchase list, when it has one, only grows at
    the end. *)
Theorem records_are_never_removed
    (p : Process) (calls : list (Gateway * number * Request)) :
  (length (memory p) <= length (memory (serve p calls)))%nat /\
  forall i u,
    memory p !! i = Some u ->
    exists u',
      memory (serve p calls) !! i = Some u' /\
      User.id u' = User.id u /\
      User.phoneNumber u' = User.phoneNumber u /\
      User.invitationCode u' = User.invitationCode u /\
      forall purchased, User.hashrate u = Some purchased ->
        exists more, User.hashrate u' = Some (purchased ++ more).
Proof.
  induction calls as [ | call calls IH] using rev_ind.
  - split; [reflexivity | ]. intros i u Hi. exists u. split; [exact Hi | apply kept_refl].
  - rewrite serve_snoc. destruct IH as [Hlen Hkeep].
    destruct (edit_keeps _ _ (serve_one_edit (serve p calls) call)) as [Hlen' Hkeep'].
    split; [lia | ]. intros i u Hi.
    destruct (Hkeep i u Hi) as (u1 & H1 & K1).
    destruct (Hkeep' i u1 H1) as (u2 & H2 & K2).
    exists u2. split; [exact H2 | ]. exact (kept_trans _ _ _ K1 K2).
Qed.

Lemma edit_well_formed users users' :
  edit users users' -> well_formed users -> well_formed users'.
Proof.
  intros [ | phone pw code | j v v' Hj H1 H2 H3 H4] Hwf; [exact Hwf | | ].
  - intros i u Hi. apply lookup_app_Some in Hi as [Hi | [Hlen Hi]]; [auto | ].
    apply list_lookup_singleton_Some in Hi as [Hi <-].
    cbn [new_user User.id User.hashrate]. split; [lia | ].
    exists []. split; [reflexivity | ]. intros product H.
    apply elem_of_nil in H. contradiction.
  - intros i u Hi. apply list_lookup_insert_Some in Hi.
    destruct Hi as [(<- & <- & _) | (_ & Hi)]; [ | auto].
    destruct (Hwf j v Hj) as [Hid (purchased & Hlist & Hall)].
    split; [congruence | ].
    destruct H4 as [H4 | (purchased' & product & Ha & Hb & Hc)].
    + exists purchased. split; [congruence | exact Hall].
    + exists (purchased ++ [product]). split; [congruence | ].
      intros x Hx. apply elem_of_app in Hx as [Hx | Hx]; [auto | ].
      apply list_elem_of_singleton in Hx as ->. exact Hc.
Qed.

(** X18.  Identifiers are the positions: on a server started without a
    readable [users.json], after any sequence of requests the record at
    index [i] has identifier [i + 1] and has a purchase list, so no two
    records share an identifier.  These facts are kept by every request
    from any array that has them. *)
Theorem identifiers_are_sequential :
  (forall (p : Process) (calls : list (Gateway * number * Request)),
     well_formed (memory p) -> well_formed (memory (serve p calls))) /\
  (forall (file : DbFile) (calls : list (Gateway * number * Request)),
     (forall data, file <> stored data) ->
     let users := memory (serve (boot file) calls) in
     (forall i u, users !! i = Some u ->
        User.id u = Z.of_nat i + 1 /\ exists purchased, User.hashrate u = Some purchased) /\
     (forall i j u v, users !! i = Some u -> users !! j = Some v ->
        User.id u = User.id v -> i = j)).
Proof.
  assert (Hkeep : forall p calls,
            well_formed (memory p) -> well_formed (memory (serve p calls))).
  { intros p calls Hwf. induction calls as [ | call calls IH] using rev_ind; [exact Hwf | ].
    rewrite serve_snoc. eapply edit_well_formed; [apply serve_one_edit | exact IH]. }
  split; [exact Hkeep | ].
  intros file calls Hfile. cbv zeta.
  assert (Hwf : well_formed (memory (serve (boot file) calls))).
  { apply Hkeep. destruct file as [ | | data]; [ | | destruct (Hfile data eq_refl)];
      intros i u Hi; cbn [boot memory loadUsers fst] in Hi;
      rewrite lookup_nil in Hi; discriminate Hi. }
  split.
  - intros i u Hi. destruct (Hwf i u Hi) as [Hid (purchased & Hlist & _)].
    split; [exact Hid | ]. exists purchased. exact Hlist.
  - intros i j u v Hi Hj Heq.
    destruct (Hwf i u Hi) as [Hu _], (Hwf j v Hj) as [Hv _]. lia.
Qed.

(** The array last saved, after the effects of one request. *)
Lemma handle_file razorpay now users request :
  (forall u, u ∈ users -> User.hashrate u <> None) ->
  saved_after (Some users) (effects (handle razorpay now users request))
  = Some (users_after (handle razorpay now users request)).
Proof.
  intros Hlists. destruct request; cbn [handle].
  - reflexivity.
  - destruct (register_cases users req_body)
      as [(_ & -> & ->) | [(_ & -> & -> & _) | (-> & _)]]; reflexivity.
  - destruct (login_read_only users req_body) as [-> ->]. reflexivity.
  - reflexivity.
  - destruct (get_hashrate_read_only users req_query) as [-> ->]. reflexivity.
  - destruct (update_profile_cases users req_body)
      as [(_ & -> & ->) | (i & u & _ & _ & _ & _ & ->)]; reflexivity.
  - destruct (buy_product_cases users req_body)
      as [(_ & ->) | [(_ & -> & ->) | (i & user & price & P & _ & _ & Hfind & _ & Hr)]];
      [reflexivity | reflexivity | ].
    cbv zeta in Hr. destruct (User.hashrate user) eqn:Hlist; [rewrite Hr; reflexivity | ].
    destruct (Hlists user); [ | exact Hlist].
    apply list_elem_of_lookup. exists i. eapply find_user_lookup. eassumption.
  - unfold create_order.
    destruct (falsy _ || falsy _ || eq_null _); [reflexivity | ].
    destruct (to_number _); [ | reflexivity].
    destruct (isNaN _ || js_le _ _); reflexivity.
  - destruct (verify_payment_cases razorpay users req_body)
      as [(_ & Hu & He) | (i & user & user' & _ & _ & He & _)].
    + rewrite Hu. revert He.
      generalize (effects (verify_payment razorpay users req_body)).
      intros done. generalize (Some users). induction done as [ | e done IH];
        intros f He; [reflexivity | ].
      cbn [saved_after fold_left].
      assert (is_write e = false) as Hw by (apply He; apply list_elem_of_here).
      destruct e; [discriminate Hw | | ]; apply IH; intros x Hx; apply He;
        apply list_elem_of_further; exact Hx.
    + rewrite He. reflexivity.
  - destruct (export_users_read_only users) as [-> ->]. reflexivity.
Qed.

(** X19.  Nothing in memory is left unsaved.  From a process whose
    [users.json] holds a serialisation of the array in memory and whose
    records all have a purchase list, as one started without a
    [users.json] is, after any sequence of requests the array last handed
    to [saveUsers()], of which the file holds the [JSON.stringify], is the
    array in memory. *)
Theorem file_mirrors_memory :
  (forall (p : Process) (calls : list (Gateway * number * Request)),
     saved p = Some (memory p) ->
     (forall u, u ∈ memory p -> User.hashrate u <> None) ->
     saved (serve p calls) = Some (memory (serve p calls))) /\
  (forall calls : list (Gateway * number * Request),
     saved (serve (boot missing) calls) = Some (memory (serve (boot missing) calls))).
Proof.
  assert (Hgen : forall p calls,
            saved p = Some (memory p) ->
            (forall u, u ∈ memory p -> User.hashrate u <> None) ->
            saved (serve p calls) = Some (memory (serve p calls)) /\
            forall u, u ∈ memory (serve p calls) -> User.hashrate u <> None).
  { intros p calls Hdisk Hlists.
    induction calls as [ | call calls [IHd IHl]] using rev_ind; [split; assumption | ].
    rewrite serve_snoc. split.
    - destruct call as [[razorpay now] request]. cbn [serve_one saved memory].
      rewrite IHd. apply handle_file. exact IHl.
    - pose proof (serve_one_edit (serve p calls) call) as He.
      intros u Hu. apply list_elem_of_lookup in Hu as [i Hi].
      revert He i u Hi. generalize (memory (serve_one (serve p calls) call)).
      intros users' [ | phone pw code | j v v' Hj H1 H2 H3 H4] i u Hi.
      + apply IHl. apply list_elem_of_lookup. eauto.
      + apply lookup_app_Some in Hi as [Hi | [_ Hi]].
        * apply IHl. apply list_elem_of_lookup. eauto.
        * apply list_lookup_singleton_Some in Hi as [_ <-]. discriminate.
      + apply list_lookup_insert_Some in Hi.
        destruct Hi as [(<- & <- & _) | (_ & Hi)].
        * destruct H4 as [H4 | (purchased & product & _ & H4 & _)].
          -- rewrite H4. apply IHl. apply list_elem_of_lookup. eauto.
          -- rewrite H4. discriminate.
        * apply IHl. apply list_elem_of_lookup. eauto. }
  split.
  - intros p calls Hd Hl. apply Hgen; assumption.
  - intros calls. apply Hgen; [reflexivity | ].
    intros u Hu. cbn [boot memory loadUsers fst] in Hu.
    apply elem_of_nil in Hu. contradiction.
Qed.

(** X20.  Which requests can touch what.  Only [/api/buy-product] and
    [/verify-payment] change a balance or a purchase list; [/register]
    and [/api/update-profile] leave those of every stored record as they
    were.  [/login], [/logout], the key, the purchase list, the export
    and [/create-order] leave the whole array as it was and never write
    the file. *)
Theorem requests_touch_only_their_fields
    (razorpay : Gateway) (now : number) (users : list User) (request : Request) :
  let r := handle razorpay now users request in
  match request with
  | POST_buy_product _ | POST_verify_payment _ => True
  | POST_register _ | PUT_update_profile _ =>
      forall i u, users !! i = Some u ->
        exists u', users_after r !! i = Some u' /\
                   User.balance u' = User.balance u /\
                   User.hashrate u' = User.hashrate u
  | _ => users_after r = users /\ forall e, e ∈ effects r -> is_write e = false
  end.
Proof.
  cbv zeta.
  assert (Hnil : forall e : Effect, e ∈ [] -> is_write e = false).
  { intros e H. apply elem_of_nil in H. contradiction. }
  destruct request; cbn [handle]; try exact I.
  - split; [reflexivity | exact Hnil].
  - intros i u Hi.
    destruct (register_cases users req_body)
      as [(_ & -> & _) | [(_ & -> & _) | (-> & _)]]; [eauto | eauto | ].
    cbn [users_after]. exists u. split; [ | auto].
    rewrite lookup_app_l; [exact Hi | ]. eapply lookup_lt_Some. eassumption.
  - destruct (login_read_only users req_body) as [-> ->]. split; [reflexivity | exact Hnil].
  - split; [reflexivity | exact Hnil].
  - destruct (get_hashrate_read_only users req_query) as [-> ->].
    split; [reflexivity | exact Hnil].
  - intros i u Hi.
    destruct (update_profile_cases users req_body)
      as [(_ & -> & _) | (j & v & Hfind & _ & _ & _ & ->)]; [eauto | ].
    cbn [users_after]. destruct (decide (i = j)) as [-> | Hne].
    + rewrite (find_user_lookup _ _ _ _ Hfind) in Hi. injection Hi as <-.
      exists (with_password v (field req_body "newPassword")).
      split; [ | split; reflexivity].
      apply list_lookup_insert_eq. eapply lookup_lt_Some, find_user_lookup. eassumption.
    + exists u. split; [ | auto]. rewrite list_lookup_insert_ne by congruence. exact Hi.
  - apply create_order_read_only.
  - destruct (export_users_read_only users) as [-> ->]. split; [reflexivity | exact Hnil].
Qed.

Lemma handle_change razorpay now users request :
  change users (users_after (handle razorpay now users request)).
Proof.
  destruct request; cbn [handle].
  - apply unchanged.
  - apply register_change.
  - rewrite (proj1 (login_read_only _ _)). apply unchanged.
  - apply unchanged.
  - rewrite (proj1 (get_hashrate_read_only _ _)). apply unchanged.
  - apply update_profile_change.
  - apply buy_product_change.
  - apply create_order_change.
  - apply verify_payment_change.
  - rewrite (proj1 (export_users_read_only _)). apply unchanged.
Qed.

(** X21.  Phone numbers stay unique whatever the server started from: when
    no two records of the array have identical phone numbers, as in a
    [users.json] this server wrote, the same holds after any sequence of
    requests; so a phone number names at most one record, the one every
    handler finds. *)
Theorem phone_numbers_stay_unique
    (p : Process) (calls : list (Gateway * number * Request)) :
  unique_phones (memory p) ->
  unique_phones (memory (serve p calls)) /\
  forall phone i u j v,
    find_user (memory (serve p calls)) phone = Some (i, u) ->
    memory (serve p calls) !! j = Some v ->
    strict_eq (User.phoneNumber v) phone = true -> j = i.
Proof.
  intros Huniq.
  assert (H : unique_phones (memory (serve p calls))).
  { induction calls as [ | call calls IH] using rev_ind; [exact Huniq | ].
    rewrite serve_snoc. refine (change_unique_phones _ _ _ IH).
    destruct call as [[razorpay now] request]. apply handle_change. }
  split; [exact H | ].
  intros phone i u j v Hfind Hj Hv.
  apply find_user_Some in Hfind as (Hi & Hu & _).
  apply (H j i v u Hj Hi). eapply strict_eq_common; eassumption.
Qed.

(** ** The export over time *)

(** A name converts for [join] exactly when it converts as a string. *)
Lemma join_element_None v :
  match v with
  | JUndefined | JNull => Some ""
  | _ => to_string v
  end = None <-> to_string v = None.
Proof. destruct v; cbn [to_string]; split; intros H; try discriminate H; exact H. Qed.

(** A row cannot be built exactly when a product of the list is [null] or
    [undefined], or has a name that does not convert to a string. *)
Lemma export_row_None u :
  export_row u = None <->
  exists products product,
    User.hashrate u = Some products /\ product ∈ products /\
    (eq_null product = true \/ to_string (field product "name") = None).
Proof.
  unfold export_row, join. split.
  - destruct (User.hashrate u) as [[ | p ps] | ] eqn:Hlist; cbn [mbind option_bind];
      try discriminate.
    destruct (mapM _ (p :: ps)) as [names | ] eqn:Hnames; cbn [mbind option_bind].
    + destruct (mapM _ names) as [parts | ] eqn:Hparts; cbn [mbind option_bind];
        [discriminate | ].
      intros _. apply mapM_None in Hparts. apply Exists_exists in Hparts.
      destruct Hparts as (name & Hin & Hconv). apply join_element_None in Hconv.
      apply mapM_Some in Hnames. apply list_elem_of_lookup in Hin as [k Hk].
      destruct (Forall2_lookup_r _ _ _ _ _ Hnames Hk) as (product & Hq & Hget).
      exists (p :: ps), product. split; [reflexivity | ].
      split; [apply list_elem_of_lookup; eauto | ].
      right. rewrite (get_Some_field _ _ _ Hget). exact Hconv.
    + intros _. apply mapM_None in Hnames. apply Exists_exists in Hnames.
      destruct Hnames as (product & Hin & Hget).
      exists (p :: ps), product. split; [reflexivity | ]. split; [exact Hin | ].
      left. destruct product; try discriminate Hget; reflexivity.
  - intros (products & product & Hlist & Hin & Hbad). rewrite Hlist.
    destruct products as [ | p ps]; [apply elem_of_nil in Hin; contradiction | ].
    destruct (mapM (fun product => get product "name") (p :: ps)) as [names | ] eqn:Hnames;
      [ | reflexivity].
    cbn [mbind option_bind].
    assert (mapM (fun e => match e with
                           | JUndefined | JNull => Some ""
                           | _ => to_string e
                           end) names = None) as ->; [ | reflexivity].
    apply mapM_Some in Hnames. apply list_elem_of_lookup in Hin as [k Hk].
    destruct (Forall2_lookup_l _ _ _ _ _ Hnames Hk) as (name & Hname & Hget).
    apply mapM_None, Exists_exists. exists name.
    split; [apply list_elem_of_lookup; eauto | ].
    apply join_element_None. rewrite (get_Some_field _ _ _ Hget) in Hbad.
    destruct Hbad as [Hnull | Hconv]; [ | exact Hconv].
    destruct product; try discriminate Hnull; discriminate Hget.
Qed.

(** X22.  When the export fails.  [/api/export-users] answers 404 exactly
    when there is no user.  With phone numbers and invitation codes that
    are primitive values, it answers 500 exactly when some purchase list
    holds a product that is [null] or [undefined], whose name cannot be
    read, or a product whose name does not convert to a string for the
    join.  No request stores a [null] or [undefined] product: on a server
    started without a readable [users.json], after any sequence of
    requests that leaves such records the export answers 404 without a
    user and otherwise 200, or 500 exactly when the name of a stored
    product does not convert. *)
Theorem export_users_failures :
  (forall users : list User,
     let r := export_users users in
     (users = [] <-> status (response r) = HTTP 404) /\
     ((forall u, u ∈ users -> plain_cells u) ->
      (status (response r) = HTTP 500 <->
       exists u products product,
         u ∈ users /\ User.hashrate u = Some products /\ product ∈ products /\
         (eq_null product = true \/ to_string (field product "name") = None)))) /\
  (forall (file : DbFile) (calls : list (Gateway * number * Request)),
     (forall data, file <> stored data) ->
     let users := memory (serve (boot file) calls) in
     let r := export_users users in
     (users = [] -> status (response r) = HTTP 404) /\
     ((forall u, u ∈ users -> plain_cells u) ->
      (users <> [] -> status (response r) = HTTP 200 \/ status (response r) = HTTP 500) /\
      (status (response r) = HTTP 500 <->
       exists u products product,
         u ∈ users /\ User.hashrate u = Some products /\ product ∈ products /\
         eq_null product = false /\ to_string (field product "name") = None))).
Proof.
  assert (Hfail : forall users,
            mapM export_row users = None <->
            exists u products product,
              u ∈ users /\ User.hashrate u = Some products /\ product ∈ products /\
              (eq_null product = true \/ to_string (field product "name") = None)).
  { intros users. rewrite mapM_None, Exists_exists. split.
    - intros (u & Hu & Hrow). apply export_row_None in Hrow.
      destruct Hrow as (products & product & H). exists u, products, product. tauto.
    - intros (u & products & product & Hu & H). exists u. split; [exact Hu | ].
      apply export_row_None. eauto. }
  assert (Hgen : forall users,
     (users = [] <-> status (response (export_users users)) = HTTP 404) /\
     (status (response (export_users users)) = HTTP 500 <->
      exists u products product,
        u ∈ users /\ User.hashrate u = Some products /\ product ∈ products /\
        (eq_null product = true \/ to_string (field product "name") = None)) /\
     (users <> [] -> status (response (export_users users)) = HTTP 200
                     \/ status (response (export_users users)) = HTTP 500)).
  { intros users. unfold export_users. destruct users as [ | u0 users].
    + split; [split; reflexivity | ]. split; [split | intros H; destruct (H eq_refl)].
      * intros H. status_clash H.
      * intros (u & _ & _ & Hu & _). apply elem_of_nil in Hu. contradiction.
    + destruct (mapM export_row (u0 :: users)) as [sheet_rows | ] eqn:Hrows.
      * split; [split; [discriminate | intros H; status_clash H] | ].
        split; [split | left; reflexivity].
        -- intros H. status_clash H.
        -- intros H. apply Hfail in H. congruence.
      * split; [split; [discriminate | intros H; status_clash H] | ].
        split; [split | right; reflexivity].
        -- intros _. apply Hfail. exact Hrows.
        -- reflexivity. }
  split.
  - intros users. cbv zeta. destruct (Hgen users) as (H1 & H2 & _).
    split; [exact H1 | intros _; exact H2].
  - intros file calls Hfile. cbv zeta.
    assert (Hwf : well_formed (memory (serve (boot file) calls))).
    { induction calls as [ | call calls IH] using rev_ind.
      - destruct file as [ | | data]; [ | | destruct (Hfile data eq_refl)];
          intros i u Hi; cbn [serve fold_left boot memory loadUsers fst] in Hi;
          rewrite lookup_nil in Hi; discriminate Hi.
      - rewrite serve_snoc. eapply edit_well_formed; [apply serve_one_edit | exact IH]. }
    destruct (Hgen (memory (serve (boot file) calls))) as (H1 & H2 & H3).
    split; [apply H1 | ]. intros _. split; [exact H3 | ].
    rewrite H2. split.
    + intros (u & products & product & Hu & Hlist & Hin & Hbad).
      exists u, products, product.
      assert (eq_null product = false) as Hnn.
      { apply list_elem_of_lookup in Hu as [i Hi].
        destruct (Hwf i u Hi) as [_ (purchased & Hlist' & Hall)].
        rewrite Hlist in Hlist'. injection Hlist' as ->. exact (Hall product Hin). }
      repeat split; try assumption.
      destruct Hbad as [Hbad | Hbad]; [congruence | exact Hbad].
    + intros (u & products & product & Hu & Hlist & Hin & _ & Hbad).
      exists u, products, product. auto.
Qed.

(** ** Whole numbers: the arithmetic of the handlers is exact on them *)

Lemma normal_digits q : 2 ^ 52 <= Zpos q < 2 ^ 53 -> Zpos (digits2_pos q) = 53.
Proof.
  intros [Hlo Hhi].
  pose proof (digits2_pos_upper q) as Hu. pose proof (digits2_pos_lower q) as Hl.
  set (d := Zpos (digits2_pos q)) in *.
  destruct (Z_lt_le_dec d 53) as [Hlt | Hge].
  - assert (2 ^ d <= 2 ^ 52) by (apply Z.pow_le_mono_r; lia). lia.
  - destruct (Z_lt_le_dec 53 d) as [Hgt | ]; [ | lia].
    assert (2 ^ 53 <= 2 ^ (d - 1)) by (apply Z.pow_le_mono_r; lia). lia.
Qed.

Lemma iter_pos_nat {A} (f : A -> A) p : forall x,
  SpecFloat.iter_pos f p x = Nat.iter (Pos.to_nat p) f x.
Proof.
  induction p as [p IH | p IH | ]; intros x; cbn [SpecFloat.iter_pos].
  - rewrite !IH, Pos2Nat.inj_xI, <- Nat.iter_add.
    replace (2 * Pos.to_nat p)%nat with (Pos.to_nat p + Pos.to_nat p)%nat by lia.
    rewrite <- Nat.iter_succ_r. reflexivity.
  - rewrite !IH, Pos2Nat.inj_xO, <- Nat.iter_add.
    replace (2 * Pos.to_nat p)%nat with (Pos.to_nat p + Pos.to_nat p)%nat by lia.
    reflexivity.
  - reflexivity.
Qed.

(** Halving a mantissa that ends in [j] zero bits loses nothing. *)
Lemma halve_exact j : forall q,
  Nat.iter j shr_1 {| shr_m := Zpos (Nat.iter j xO q); shr_r := false; shr_s := false |}
  = {| shr_m := Zpos q; shr_r := false; shr_s := false |}.
Proof.
  induction j as [ | j IH]; intros q; [reflexivity | ].
  rewrite Nat.iter_succ_r. cbn [Nat.iter nat_rect shr_1 orb].
  exact (IH q).
Qed.

(** Rounding [q * 2^j] at exponent [e], for a mantissa [q] of 53 bits,
    gives [q] at exponent [e + j]. *)
Lemma round_scaled s q j e :
  2 ^ 52 <= Zpos q < 2 ^ 53 -> 0 <= j -> -1074 <= e + j <= 971 ->
  binary_round_aux prec emax s (Zpos q * 2 ^ j) e loc_Exact = S754_finite s q (e + j).
Proof.
  intros Hq Hj He. pose proof (normal_digits q Hq) as Hd.
  destruct j as [ | k | k]; [ | | lia].
  - rewrite Z.pow_0_r, Z.mul_1_r, Z.add_0_r.
    apply binary_round_aux_exact; [exact Hd | lia].
  - rewrite <- iter_xO_pow.
    unfold binary_round_aux, shr_fexp. cbn [Zdigits2].
    rewrite digits_iter_xO, Hd.
    assert (Hf : fexp prec emax (53 + Zpos k + e) - e = Zpos k)
      by (unfold fexp, emin, prec, emax; lia).
    rewrite Hf. cbn [shr shr_record_of_loc].
    rewrite iter_pos_nat, Pos2Nat.inj_iter.
    change (nat_rect (fun _ => positive) q (fun _ => xO) (Pos.to_nat k))
      with (Nat.iter (Pos.to_nat k) xO q).
    rewrite halve_exact.
    cbn [shr_m loc_of_shr_record round_nearest_even Zdigits2]. rewrite Hd.
    assert (Hf' : fexp prec emax (53 + (e + Zpos k)) - (e + Zpos k) = 0)
      by (unfold fexp, emin, prec, emax; lia).
    rewrite Hf'. cbn [shr shr_record_of_loc shr_m].
    destruct (Z.leb_spec (e + Zpos k) (emax - prec)); [reflexivity | ].
    unfold emax, prec in *. lia.
Qed.

(** The number of a positive integer below [2^53]: its 53-bit mantissa
    and its exponent. *)
Lemma num_normal z :
  0 < z < 2 ^ 53 ->
  exists q k, 0 <= k <= 52 /\ 2 ^ 52 <= Zpos q < 2 ^ 53 /\ Zpos q = z * 2 ^ k /\
              num z = S754_finite false q (- k).
Proof.
  intros [Hpos Hlt]. destruct z as [ | p | p]; try lia.
  unfold num. cbn [binary_normalize]. unfold binary_round.
  pose proof (digits2_pos_lower p) as Hl. pose proof (digits2_pos_upper p) as Hu.
  pose proof (Pos2Z.is_pos (digits2_pos p)) as Hdpos.
  set (d := Zpos (digits2_pos p)) in *.
  assert (Hd : d <= 53).
  { destruct (Z_lt_le_dec 53 d) as [Hgt | ]; [ | lia].
    assert (2 ^ 53 <= 2 ^ (d - 1)) by (apply Z.pow_le_mono_r; lia). lia. }
  assert (Hf : fexp prec emax (d + 0) = d - 53)
    by (unfold fexp, emin, prec, emax; lia).
  rewrite Hf. unfold shl_align.
  destruct (d - 53 - 0) as [ | k | k] eqn:Ek; try lia.
  - assert (d = 53) as Hd53 by lia. rewrite Hd53 in *.
    exists p, 0. change (53 - 1) with 52 in Hl.
    split; [lia | ]. split; [lia | ]. split; [rewrite Z.pow_0_r; lia | ].
    rewrite binary_round_aux_exact by (fold d; lia). reflexivity.
  - assert (Hk : Zpos k = 53 - d) by lia.
    exists (Pos.iter xO p k), (Zpos k).
    assert (Hdk : Zpos (digits2_pos (Pos.iter xO p k)) = 53)
      by (rewrite digits_iter_xO; fold d; lia).
    pose proof (digits2_pos_lower (Pos.iter xO p k)) as Hl'.
    pose proof (digits2_pos_upper (Pos.iter xO p k)) as Hu'.
    rewrite Hdk in Hl', Hu'. change (53 - 1) with 52 in Hl'.
    split; [lia | ]. split; [lia | ]. split; [apply iter_xO_pow | ].
    rewrite binary_round_aux_exact by (rewrite ?Hdk; lia).
    f_equal. lia.
Qed.

(** A positive integer has one 53-bit mantissa. *)
Lemma normal_unique z q k q' k' :
  0 <= k -> 0 <= k' ->
  2 ^ 52 <= Zpos q < 2 ^ 53 -> 2 ^ 52 <= Zpos q' < 2 ^ 53 ->
  Zpos q = z * 2 ^ k -> Zpos q' = z * 2 ^ k' -> k = k' /\ q = q'.
Proof.
  intros Hk Hk' Hq Hq' E E'.
  assert (Hz : 0 < z).
  { pose proof (Z.pow_pos_nonneg 2 k ltac:(lia) Hk). nia. }
  assert (Hmono : forall a b x y, 0 <= a -> a < b -> 2 ^ 52 <= x ->
            x = z * 2 ^ a -> y = z * 2 ^ b -> 2 ^ 53 <= y).
  { intros a b x y Ha Hab Hx -> ->.
    replace b with (a + (b - a)) by lia. rewrite Z.pow_add_r by lia.
    assert (2 ^ 1 <= 2 ^ (b - a)) by (apply Z.pow_le_mono_r; lia).
    change (2 ^ 1) with 2 in *. change (2 ^ 53) with (2 ^ 52 * 2). nia. }
  destruct (Z.lt_trichotomy k k') as [Hlt | [Heq | Hgt]].
  - pose proof (Hmono k k' _ _ Hk Hlt (proj1 Hq) E E'). lia.
  - subst k'. split; [reflexivity | ]. assert (Zpos q = Zpos q') by congruence.
    congruence.
  - pose proof (Hmono k' k _ _ Hk' Hgt (proj1 Hq') E' E). lia.
Qed.

Lemma num_of_normal z q k :
  0 <= k -> 2 ^ 52 <= Zpos q < 2 ^ 53 -> Zpos q = z * 2 ^ k ->
  num z = S754_finite false q (- k).
Proof.
  intros Hk Hq E.
  assert (Hz : 0 < z < 2 ^ 53).
  { pose proof (Z.pow_pos_nonneg 2 k ltac:(lia) Hk). nia. }
  destruct (num_normal z Hz) as (q' & k' & Hk' & Hq' & E' & ->).
  destruct (normal_unique z q k q' k' Hk ltac:(lia) Hq Hq' E E') as [-> ->].
  reflexivity.
Qed.

(** The product of two whole numbers is the number of their product. *)
Lemma js_mul_whole a b :
  0 < a -> 0 < b -> a * b < 2 ^ 53 -> js_mul (num a) (num b) = num (a * b).
Proof.
  intros Ha Hb Hab.
  assert (Ha' : 0 < a < 2 ^ 53) by nia. assert (Hb' : 0 < b < 2 ^ 53) by nia.
  destruct (num_normal a Ha') as (qa & ka & Hka & Hqa & Ea & ->).
  destruct (num_normal b Hb') as (qb & kb & Hkb & Hqb & Eb & ->).
  destruct (num_normal (a * b) ltac:(nia)) as (qc & kc & Hkc & Hqc & Ec & ->).
  unfold js_mul, SFmul. cbn [xorb]. rewrite Pos2Z.inj_mul.
  assert (Hprod : Zpos qa * Zpos qb = a * b * 2 ^ (ka + kb)).
  { rewrite Z.pow_add_r, Ea, Eb by lia. ring. }
  assert (Hj : 0 <= ka + kb - kc).
  { destruct (Z_lt_le_dec (ka + kb) kc) as [Hlt | ]; [exfalso | lia].
    assert (2 ^ (ka + kb) <= 2 ^ kc) by (apply Z.pow_le_mono_r; lia).
    assert (2 ^ 52 * 2 ^ 52 <= Zpos qa * Zpos qb) by nia.
    assert (Zpos qa * Zpos qb <= Zpos qc) by (rewrite Hprod, Ec; nia).
    change (2 ^ 52) with 4503599627370496 in *.
    change (2 ^ 53) with 9007199254740992 in *. lia. }
  assert (E : Zpos qa * Zpos qb = Zpos qc * 2 ^ (ka + kb - kc)).
  { rewrite Hprod, Ec.
    replace (2 ^ (ka + kb)) with (2 ^ kc * 2 ^ (ka + kb - kc)); [ring | ].
    rewrite <- Z.pow_add_r by lia. f_equal. lia. }
  rewrite E, round_scaled by lia. f_equal. lia.
Qed.

(** [Math.round] leaves a whole number as it is. *)
Lemma Math_round_whole k : 0 < k < 2 ^ 53 -> Math_round (num k) = num k.
Proof.
  intros Hk. destruct (num_normal k Hk) as (q & j & Hj & Hq & E & Hnum).
  rewrite Hnum. cbn [Math_round].
  destruct (Z.leb_spec 0 (- j)) as [H0 | Hneg]; [reflexivity | ].
  rewrite <- Hnum. unfold num. f_equal.
  unfold round_half_up. cbn [cond_Zopp]. rewrite Z.opp_involutive, E.
  pose proof (Z.pow_pos_nonneg 2 j ltac:(lia) ltac:(lia)) as Hpow.
  rewrite Z.pow_add_r by lia. change (2 ^ 1) with 2.
  replace (2 * (k * 2 ^ j) + 2 ^ j) with ((2 * k + 1) * 2 ^ j) by ring.
  rewrite (Z.mul_comm (2 ^ j) 2), Z.div_mul_cancel_r by lia.
  symmetry. apply Z.div_unique with (r := 1); lia.
Qed.

Lemma div_eucl_exact x y : 0 < y -> Z.div_eucl (x * y) y = (x, 0).
Proof.
  intros Hy. pose proof (Z.div_mul x y ltac:(lia)) as Hd.
  pose proof (Z.mod_mul x y ltac:(lia)) as Hm.
  unfold Z.div, Z.modulo in Hd, Hm.
  destruct (Z.div_eucl (x * y) y) as [q r]. congruence.
Qed.

(** The quotient of a whole number by a whole divisor of it is the number
    of the quotient. *)
Lemma js_div_whole b c :
  0 < b -> 0 < c -> b * c < 2 ^ 53 -> js_div (num (b * c)) (num b) = num c.
Proof.
  intros Hb Hc Hbc.
  assert (Hb' : 0 < b < 2 ^ 53) by nia. assert (Hc' : 0 < c < 2 ^ 53) by nia.
  destruct (num_normal (b * c) ltac:(nia)) as (qa & ka & Hka & Hqa & Ea & ->).
  destruct (num_normal b Hb') as (qb & kb & Hkb & Hqb & Eb & ->).
  destruct (num_normal c Hc') as (qc & kc & Hkc & Hqc & Ec & ->).
  unfold js_div, SFdiv, SFdiv_core_binary. cbn [xorb Zdigits2].
  rewrite (normal_digits qa Hqa), (normal_digits qb Hqb).
  assert (He : Z.min (fexp prec emax (53 + - ka - (53 + - kb))) (- ka - - kb)
               = kb - ka - 53) by (unfold fexp, emin, prec, emax; lia).
  rewrite He. replace (- ka - - kb - (kb - ka - 53)) with 53 by lia.
  rewrite Z.shiftl_mul_pow2 by lia.
  assert (EQ : Zpos qa * 2 ^ 53 = c * 2 ^ (53 + ka - kb) * Zpos qb).
  { rewrite Ea, Eb.
    replace (c * 2 ^ (53 + ka - kb) * (b * 2 ^ kb))
      with (b * c * (2 ^ (53 + ka - kb) * 2 ^ kb)) by ring.
    rewrite <- Z.pow_add_r by lia. replace (53 + ka - kb + kb) with (ka + 53) by lia.
    rewrite Z.pow_add_r by lia. ring. }
  rewrite EQ, div_eucl_exact by lia.
  assert (Hloc : new_location (Zpos qb) 0 = loc_Exact).
  { unfold new_location. destruct (Z.even _); reflexivity. }
  rewrite Hloc.
  assert (Hj : 0 <= 53 + ka - kb - kc).
  { destruct (Z_lt_le_dec (53 + ka - kb) kc) as [Hlt | ]; [exfalso | lia].
    assert (H1 : 2 ^ (53 + ka - kb + 1) <= 2 ^ kc) by (apply Z.pow_le_mono_r; lia).
    rewrite Z.pow_add_r in H1 by lia. change (2 ^ 1) with 2 in H1.
    set (X := c * 2 ^ (53 + ka - kb)) in *.
    assert (H2 : X * 2 <= Zpos qc).
    { rewrite Ec. unfold X. rewrite <- Z.mul_assoc.
      apply Z.mul_le_mono_nonneg_l; lia. }
    assert (H3 : Zpos qa * 2 ^ 53 < 2 ^ 52 * 2 ^ 53).
    { rewrite EQ. apply Z.le_lt_trans with (2 ^ 52 * Zpos qb).
      - apply Z.mul_le_mono_nonneg_r; lia.
      - apply Z.mul_lt_mono_pos_l; lia. }
    apply Z.mul_lt_mono_pos_r in H3; lia. }
  assert (E : c * 2 ^ (53 + ka - kb) = Zpos qc * 2 ^ (53 + ka - kb - kc)).
  { rewrite Ec.
    replace (2 ^ (53 + ka - kb)) with (2 ^ kc * 2 ^ (53 + ka - kb - kc)); [ring | ].
    rewrite <- Z.pow_add_r by lia. f_equal. lia. }
  rewrite E, round_scaled by lia. f_equal. lia.
Qed.

(** Normalizing [z * 2^K] at exponent [- K] gives the number of [z]. *)
Lemma normalize_scaled z K :
  0 < z < 2 ^ 53 -> 0 <= K ->
  binary_normalize prec emax (z * 2 ^ K) (- K) false = num z.
Proof.
  intros Hz HK. destruct (num_normal z Hz) as (q & k & Hk & Hq & E & ->).
  pose proof (Z.pow_pos_nonneg 2 K ltac:(lia) HK) as HpK.
  pose proof (Z.pow_pos_nonneg 2 k ltac:(lia) ltac:(lia)) as Hpk.
  destruct (z * 2 ^ K) as [ | p | p] eqn:Ep; try nia.
  cbn [binary_normalize]. unfold binary_round.
  pose proof (digits2_pos_lower p) as Hl. pose proof (digits2_pos_upper p) as Hu.
  pose proof (Pos2Z.is_pos (digits2_pos p)) as Hdpos.
  set (d := Zpos (digits2_pos p)) in *.
  assert (Hcross : Zpos p * 2 ^ k = Zpos q * 2 ^ K) by (rewrite <- Ep, E; ring).
  assert (Hd : d + k = 53 + K).
  { assert (H1 : 2 ^ (d - 1 + k) < 2 ^ (53 + K)).
    { rewrite !Z.pow_add_r by lia.
      apply Z.le_lt_trans with (Zpos p * 2 ^ k); [apply Z.mul_le_mono_nonneg_r; lia | ].
      rewrite Hcross. apply Z.mul_lt_mono_pos_r; lia. }
    assert (H2 : 2 ^ (52 + K) < 2 ^ (d + k)).
    { rewrite !Z.pow_add_r by lia.
      apply Z.le_lt_trans with (Zpos q * 2 ^ K); [apply Z.mul_le_mono_nonneg_r; lia | ].
      rewrite <- Hcross. apply Z.mul_lt_mono_pos_r; lia. }
    apply Z.pow_lt_mono_r_iff in H1, H2; lia. }
  assert (Hf : fexp prec emax (d + - K) = - k)
    by (unfold fexp, emin, prec, emax; lia).
  rewrite Hf. unfold shl_align.
  destruct (- k - - K) as [ | t | t] eqn:Et.
  - assert (K = k) by lia. subst K.
    assert (Zpos p = Zpos q) by nia.
    rewrite binary_round_aux_exact by (fold d; lia). congruence.
  - assert (HKk : K = k + Zpos t) by lia.
    assert (Zpos p = Zpos q * 2 ^ Zpos t) as ->.
    { rewrite HKk, Z.pow_add_r in Hcross by lia.
      apply Z.mul_cancel_r with (p := 2 ^ k); [lia | ]. rewrite Hcross. ring. }
    rewrite round_scaled by lia. f_equal. lia.
  - assert (Hkt : k = K + Zpos t) by lia.
    assert (Pos.iter xO p t = q) as ->.
    { apply Pos2Z.inj. rewrite iter_xO_pow.
      rewrite Hkt, Z.pow_add_r in Hcross by lia.
      apply Z.mul_cancel_r with (p := 2 ^ K); [lia | ]. rewrite <- Hcross. ring. }
    rewrite binary_round_aux_exact by (rewrite ?(normal_digits q Hq); lia).
    reflexivity.
Qed.

Lemma num_0 : num 0 = S754_zero false.
Proof. reflexivity. Qed.

(** The sum of two whole numbers is the number of their sum. *)
Lemma js_add_whole a b :
  0 <= a -> 0 <= b -> a + b < 2 ^ 53 -> js_add (num a) (num b) = num (a + b).
Proof.
  intros Ha Hb Hab.
  destruct (Z.eq_dec a 0) as [-> | Ha0].
  { rewrite Z.add_0_l, num_0. unfold js_add.
    destruct (Z.eq_dec b 0) as [-> | Hb0]; [reflexivity | ].
    destruct (num_normal b ltac:(lia)) as (qb & kb & _ & _ & _ & ->). reflexivity. }
  destruct (Z.eq_dec b 0) as [-> | Hb0].
  { rewrite Z.add_0_r, num_0. unfold js_add.
    destruct (num_normal a ltac:(lia)) as (qa & ka & _ & _ & _ & ->). reflexivity. }
  destruct (num_normal a ltac:(lia)) as (qa & ka & Hka & Hqa & Ea & ->).
  destruct (num_normal b ltac:(lia)) as (qb & kb & Hkb & Hqb & Eb & ->).
  unfold js_add, SFadd. cbn [cond_Zopp].
  rewrite !shl_align_fst by lia.
  set (K := Z.max ka kb).
  assert (HK : Z.min (- ka) (- kb) = - K) by (unfold K; lia).
  rewrite HK.
  assert (Zpos qa * 2 ^ (- ka - - K) + Zpos qb * 2 ^ (- kb - - K) = (a + b) * 2 ^ K) as ->.
  { rewrite Ea, Eb, <- !Z.mul_assoc, <- !Z.pow_add_r by (unfold K; lia).
    replace (ka + (- ka - - K)) with K by lia.
    replace (kb + (- kb - - K)) with K by lia. ring. }
  apply normalize_scaled; unfold K; lia.
Qed.

(** The difference of two whole numbers is the number of their
    difference. *)
Lemma js_sub_whole a b :
  0 <= b -> b <= a -> a < 2 ^ 53 -> js_sub (num a) (num b) = num (a - b).
Proof.
  intros Hb Hba Ha.
  destruct (Z.eq_dec b 0) as [-> | Hb0].
  { rewrite Z.sub_0_r, num_0. unfold js_sub.
    destruct (Z.eq_dec a 0) as [-> | Ha0]; [reflexivity | ].
    destruct (num_normal a ltac:(lia)) as (qa & ka & _ & _ & _ & ->). reflexivity. }
  destruct (Z.eq_dec a b) as [-> | Hne].
  { rewrite Z.sub_diag.
    destruct (num_normal b ltac:(lia)) as (qb & kb & _ & _ & _ & ->).
    apply js_sub_diag. }
  destruct (num_normal a ltac:(lia)) as (qa & ka & Hka & Hqa & Ea & ->).
  destruct (num_normal b ltac:(lia)) as (qb & kb & Hkb & Hqb & Eb & ->).
  unfold js_sub, SFsub. cbn [cond_Zopp].
  rewrite !shl_align_fst by lia.
  set (K := Z.max ka kb).
  assert (HK : Z.min (- ka) (- kb) = - K) by (unfold K; lia).
  rewrite HK.
  assert (Zpos qa * 2 ^ (- ka - - K) - Zpos qb * 2 ^ (- kb - - K) = (a - b) * 2 ^ K) as ->.
  { rewrite Ea, Eb, <- !Z.mul_assoc, <- !Z.pow_add_r by (unfold K; lia).
    replace (ka + (- ka - - K)) with K by lia.
    replace (kb + (- kb - - K)) with K by lia. ring. }
  apply normalize_scaled; unfold K; lia.
Qed.

(** Whole numbers compare as the integers do. *)
Lemma js_lt_whole a b :
  0 < a < 2 ^ 53 -> 0 < b < 2 ^ 53 -> js_lt (num a) (num b) = (a <? b).
Proof.
  intros Ha Hb.
  destruct (num_normal a Ha) as (qa & ka & Hka & Hqa & Ea & ->).
  destruct (num_normal b Hb) as (qb & kb & Hkb & Hqb & Eb & ->).
  pose proof (Z.pow_pos_nonneg 2 ka ltac:(lia) ltac:(lia)) as Hpa.
  pose proof (Z.pow_pos_nonneg 2 kb ltac:(lia) ltac:(lia)) as Hpb.
  unfold js_lt, SFltb. cbn [SFcompare].
  destruct (Z.compare_spec (- ka) (- kb)) as [Heq | Hlt | Hgt].
  - assert (ka = kb) by lia. subst kb.
    rewrite Pos.compare_cont_spec. cbn [Pos.switch_Eq].
    change (Pos.compare qa qb) with (Z.compare (Zpos qa) (Zpos qb)).
    destruct (Z.compare_spec (Zpos qa) (Zpos qb)) as [H | H | H];
      destruct (Z.ltb_spec a b); try reflexivity; nia.
  - (* the exponent of [a] is below that of [b] *)
    destruct (Z.ltb_spec a b) as [ | Hge]; [reflexivity | exfalso].
    assert (H1 : 2 ^ (kb + 1) <= 2 ^ ka) by (apply Z.pow_le_mono_r; lia).
    rewrite Z.pow_add_r in H1 by lia. change (2 ^ 1) with 2 in H1.
    assert (H2 : b * (2 ^ kb * 2) <= a * 2 ^ ka).
    { apply Z.le_trans with (b * 2 ^ ka); [apply Z.mul_le_mono_nonneg_l; lia | ].
      apply Z.mul_le_mono_nonneg_r; lia. }
    change (2 ^ 53) with (2 ^ 52 * 2) in *. lia.
  - destruct (Z.ltb_spec a b) as [Hab | ]; [exfalso | reflexivity].
    assert (H1 : 2 ^ (ka + 1) <= 2 ^ kb) by (apply Z.pow_le_mono_r; lia).
    rewrite Z.pow_add_r in H1 by lia. change (2 ^ 1) with 2 in H1.
    assert (H2 : a * (2 ^ ka * 2) <= b * 2 ^ kb).
    { apply Z.le_trans with (a * 2 ^ kb); [apply Z.mul_le_mono_nonneg_l; lia | ].
      apply Z.mul_le_mono_nonneg_r; lia. }
    change (2 ^ 53) with (2 ^ 52 * 2) in *. lia.
Qed.

Lemma num_positive p :
  0 < p < 2 ^ 53 -> isNaN (num p) = false /\ js_le (num p) (num 0) = false.
Proof.
  intros Hp. destruct (num_normal p Hp) as (q & k & _ & _ & _ & ->).
  split; reflexivity.
Qed.

(** X23.  Purchases in whole amounts are exact.  For a user whose balance is
    the whole number [b] and a price that is the whole number [p > 0],
    both below [2^53]: when [p <= b] the purchase is answered 200 and
    leaves exactly [b - p]; when [b < p] it is answered 402. *)
Theorem buy_product_whole_amounts
    (users : list User) (req_body price : JsVal) (i : nat) (user : User)
    (purchased : list JsVal) (b p : Z) :
  let phoneNumber := field req_body "phoneNumber" in
  let productData := field req_body "productData" in
  truthy phoneNumber = true ->
  get productData "price" = Some price -> truthy price = true ->
  to_number price = Some (num p) ->
  find_user users phoneNumber = Some (i, user) ->
  User.balance user = num b -> User.hashrate user = Some purchased ->
  0 < p < 2 ^ 53 -> 0 <= b < 2 ^ 53 ->
  (p <= b ->
   let buyer :=
     with_hashrate (with_balance user (num (b - p))) (purchased ++ [productData]) in
   buy_product users req_body
   = {| response :=
          {| status := HTTP 200;
             body := json (JObj [("success", JBool true);
                                 ("newBalance", JNum (num (b - p)))]) |};
        users_after := <[i := buyer]> users;
        effects := [writeFile (<[i := buyer]> users)] |}) /\
  (b < p ->
   buy_product users req_body = reply users (HTTP 402) (message "Insufficient balance.")).
Proof.
  cbv zeta. intros Hphone Hprice Ht HP Hfind HB Hlist Hp Hb.
  pose proof (priced_is_truthy _ _ Hprice Ht) as Hpd.
  destruct (num_positive p Hp) as [Hnan Hle].
  assert (Hhead : buy_product users req_body
            = if js_lt (num b) (num p) then
                reply users (HTTP 402) (message "Insufficient balance.")
              else
                let buyer :=
                  with_hashrate (with_balance user (js_sub (num b) (num p)))
                    (purchased ++ [field req_body "productData"]) in
                {| response :=
                     {| status := HTTP 200;
                        body := json (JObj [("success", JBool true);
                                            ("newBalance",
                                             JNum (js_sub (num b) (num p)))]) |};
                   users_after := <[i := buyer]> users;
                   effects := [writeFile (<[i := buyer]> users)] |}).
  { unfold buy_product. rewrite Hprice. cbn [mbind option_bind].
    rewrite HP. cbn [mbind option_bind]. unfold falsy.
    rewrite Hphone, Hpd, Ht, Hnan, Hle. cbn [negb orb].
    rewrite Hfind, HB. destruct (js_lt (num b) (num p)); [reflexivity | ].
    cbn [with_balance User.hashrate User.balance]. rewrite Hlist, template_three.
    destruct (found_to_string _ _ _ _ Hfind) as [digits ->]. reflexivity. }
  rewrite Hhead.
  assert (Hlt : js_lt (num b) (num p) = (b <? p)).
  { destruct (Z.eq_dec b 0) as [-> | Hb0]; [ | apply js_lt_whole; lia].
    destruct (num_normal p Hp) as (q & k & _ & _ & _ & ->).
    destruct (Z.ltb_spec 0 p); [reflexivity | lia]. }
  rewrite Hlt. split.
  - intros Hpb. destruct (Z.ltb_spec b p); [lia | ].
    cbv zeta. rewrite js_sub_whole by lia. reflexivity.
  - intros Hbp. destruct (Z.ltb_spec b p); [reflexivity | lia].
Qed.

(** X24.  A top-up of a whole amount credits exactly that amount.  Take a
    [/create-order] request without notes for the whole amount [n], and a
    gateway that later returns, for the confirmed order, the amount and
    the notes it was sent.  Then the order is created for [100 * n], and
    the confirmation, with identifiers that convert to strings and their
    signature, for a user with the whole balance [b], is answered 200 and
    leaves the balance at exactly [b + n]. *)
Theorem whole_top_up_round_trip
    (razorpay razorpay' : Gateway) (now : number) (users0 users : list User)
    (create_body confirm_body options order : JsVal) (O P : string)
    (i : nat) (user : User) (n b : Z) :
  let phoneNumber := field create_body "phoneNumber" in
  let o := field confirm_body "razorpay_order_id" in
  let p := field confirm_body "razorpay_payment_id" in
  let r := verify_payment razorpay' users confirm_body in
  truthy (field create_body "notes") = false ->
  to_number (field create_body "amount") = Some (num n) ->
  0 < n -> 100 * n < 2 ^ 53 ->
  effects (create_order razorpay now users0 create_body) = [orders_create options] ->
  fetch razorpay' o = resolved order ->
  get order "amount" = get options "amount" ->
  get order "notes" = get options "notes" ->
  truthy o = true -> truthy p = true ->
  to_string o = Some O -> to_string p = Some P ->
  field confirm_body "razorpay_signature" = JStr (expectedSignature O P) ->
  find_user users phoneNumber = Some (i, user) ->
  User.balance user = num b -> 0 <= b -> b + n < 2 ^ 53 ->
  get options "amount" = Some (JNum (num (100 * n))) /\
  r = {| response :=
           {| status := HTTP 200;
              body := json (JObj [("status", JStr "success");
                                  ("orderId", o);
                                  ("newBalance", JNum (num (b + n)))]) |};
         users_after := <[i := with_balance user (num (b + n))]> users;
         effects := [orders_fetch o;
                     writeFile (<[i := with_balance user (num (b + n))]> users)] |} /\
  User.balance <$> (users_after r !! i) = Some (num (b + n)).
Proof.
  cbv zeta.
  intros Hnotes HA Hn Hn' Hsent Hfetch Hamount Hnotes' Ho Hp HO HP Hs Hfind HB Hb Hbn.
  assert (Hoptions :
    get options "amount" = Some (JNum (num (100 * n))) /\
    exists sent, get options "notes" = Some sent /\
                 get sent "phoneNumber" = Some (field create_body "phoneNumber") /\
                 get sent "purchaseType" = Some JUndefined).
  { revert Hsent. unfold create_order.
    destruct (falsy _ || falsy _ || eq_null _); [intros H; discriminate H | ].
    rewrite HA.
    destruct (isNaN _ || js_le _ _); [intros H; discriminate H | ].
    cbn [effects]. intros H.
    apply (f_equal (fun l => sent_options (nth 0 l (writeFile [])))) in H.
    cbn [nth sent_options] in H. subst options.
    cbn [get lookup_prop String.eqb Ascii.eqb Bool.eqb].
    rewrite js_mul_whole, Math_round_whole by lia.
    split; [do 3 f_equal; lia | ].
    unfold js_or. rewrite Hnotes.
    destruct (truthy (field create_body "qrId")); eexists;
      (split; [reflexivity | split; reflexivity]). }
  destruct Hoptions as (Ha & sent & Hsn & Hphone & Htype).
  split; [exact Ha | ].
  rewrite Ha in Hamount. rewrite Hsn in Hnotes'.
  rewrite (verify_payment_signed razorpay' users confirm_body O P Ho Hp HO HP Hs).
  cbv zeta. rewrite Hfetch.
  rewrite (apply_order_topup users _ _ order sent _ i user (num (100 * n))
             Hnotes' Hphone
             ltac:(right; rewrite Htype; discriminate)
             ltac:(unfold field; rewrite Hamount; reflexivity) Hfind).
  cbn [response users_after effects with_balance User.balance].
  rewrite HB, js_div_whole, js_add_whole by lia.
  split; [reflexivity | ].
  rewrite list_lookup_insert_eq by (eapply find_user_lt; eassumption). reflexivity.
Qed.

End Server.

(** ** Test vectors of the digest and of the number conversions *)

Example sha256_abc :
  NodeCrypto.hex (NodeCrypto.sha256 (NodeCrypto.utf8 "abc"))
  = "ba7816bf8f01cfea414140de5dae2223b00361a396177a9cb410ff61f20015ad".
Proof. vm_compute. reflexivity. Qed.

Example sha256_empty :
  NodeCrypto.hex (NodeCrypto.sha256 [])
  = "e3b0c44298fc1c149afbf4c8996fb92427ae41e4649b934ca495991b7852b855".
Proof. vm_compute. reflexivity. Qed.

Example hmac_long_key :
  NodeCrypto.hmac_sha256_hex (String.concat "" (repeat "k" 100))
                             (String.concat "" (repeat "x" 200))
  = "e326f00ce14194bb85e2683fe9b1a78851753f77479303f94c2c3cd1998bdda3".
Proof. vm_compute. reflexivity. Qed.

Example hmac_fox :
  NodeCrypto.hmac_sha256_hex "key" "The quick brown fox jumps over the lazy dog"
  = "f7bc83f430538424b13298e6aa6fb143ef4d59a14946175997479dbc2d1a3cd8".
Proof. vm_compute. reflexivity. Qed.


Example StringToNumber_vectors :
  List.map ECMAScript.StringToNumber
    ["12.5"; "0.1"; " 42 "; "0x1F"; ""; "abc"; "1e400"; "-0"; "5."; "."]
  = [S754_finite false 7036874417766400 (-49);
     S754_finite false 7205759403792794 (-56);
     num 42; num 31; num 0; NaN; S754_infinity false; S754_zero true;
     num 5; NaN].
Proof. vm_compute. reflexivity. Qed.

Example NumberToString_vectors :
  List.map (fun s => ECMAScript.NumberToString (ECMAScript.StringToNumber s))
    ["0.1"; "100"; "1e21"; "123456789012345680000"; "5e-324"; "0.000001";
     "1e-7"; "-1.5e-10"; "9007199254740993"; "0.30000000000000004"]
  = ["0.1"; "100"; "1e+21"; "123456789012345680000"; "5e-324"; "0.000001";
     "1e-7"; "-1.5e-10"; "9007199254740992"; "0.30000000000000004"].
Proof. vm_compute. reflexivity. Qed.

(** ** The handlers on the sample data, with the engine's conversions *)

Abbreviation NumberToString := ECMAScript.NumberToString.
Abbreviation StringToNumber := ECMAScript.StringToNumber.

(** Express 5 accepts every integer from 100 to 999. *)
Lemma Express_res_status_integer code :
  100 <= code <= 999 -> Express.res_status (HTTP code) = Some (HTTP code).
Proof.
  intros H. unfold Express.res_status, HTTP, num.
  rewrite binary_normalize_integer by lia.
  destruct (Z.leb_spec 100 code); [ | lia].
  destruct (Z.leb_spec code 999); [reflexivity | lia].
Qed.

(** C9 at a five-character password. *)
Lemma short_password_rejected_witness :
  (String.length "short" < 8)%nat /\
  status (response (register NumberToString StringToNumber [Sample.alice]
                      (JObj [("phoneNumber", JStr "9123456780");
                             ("password", JStr "short");
                             ("invitationCode", JStr "WELCOME")])))
  = HTTP 400.
Proof.
  assert (H : (String.length "short" < 8)%nat) by (simpl; lia).
  split; [exact H | ].
  destruct (short_password_rejected NumberToString StringToNumber [Sample.alice]
              (JObj [("phoneNumber", JStr "9123456780");
                     ("password", JStr "short");
                     ("invitationCode", JStr "WELCOME")]) "short" H) as [Hr _].
  destruct (Hr eq_refl) as [Hs _]. exact Hs.
Defined.

(** C2 at an order of 50000 paise for a user holding 100: the balance
    becomes 600, and nothing else of the record changes. *)
Lemma verified_topup_witness :
  let r := verify_payment NumberToString StringToNumber Sample.secret
             (Sample.gateway Sample.topup_order) [Sample.alice]
             Sample.confirmation in
  User.balance Sample.alice = num 100 /\
  status (response r) = HTTP 200 /\
  User.balance <$> (users_after r !! 0%nat) = Some (num 600) /\
  User.hashrate <$> (users_after r !! 0%nat) = Some (Some []) /\
  effects r = [orders_fetch (JStr "order_9");
               writeFile [with_balance Sample.alice (num 600)]].
Proof.
  cbv zeta.
  pose proof (verified_topup_credits_balance NumberToString StringToNumber
                Sample.secret (Sample.gateway Sample.topup_order) [Sample.alice]
                Sample.confirmation Sample.topup_order Sample.topup_notes
                (JStr "9876543210") "order_9" "pay_7" 0%nat Sample.alice (num 50000)
                ltac:(evaluate) ltac:(evaluate) ltac:(evaluate) ltac:(evaluate)
                ltac:(evaluate) ltac:(evaluate) ltac:(evaluate) ltac:(evaluate)
                ltac:(evaluate) ltac:(evaluate) ltac:(evaluate)) as T.
  cbv zeta in T. destruct T as (Hr & Hb & Hh & _).
  split; [reflexivity | ]. rewrite Hb, Hh, Hr.
  repeat (match goal with |- _ /\ _ => split end); evaluate.
Defined.



(** C4 at the same order sent twice: the balance is 100, then 600, then
    1100, which the second answer reports. *)
Lemma verify_payment_replay_witness :
  let first := verify_payment NumberToString StringToNumber Sample.secret
                 (Sample.gateway Sample.topup_order) [Sample.alice]
                 Sample.confirmation in
  let second := verify_payment NumberToString StringToNumber Sample.secret
                  (Sample.gateway Sample.topup_order) (users_after first)
                  Sample.confirmation in
  User.balance Sample.alice = num 100 /\
  status (response first) = HTTP 200 /\
  status (response second) = HTTP 200 /\
  User.balance <$> (users_after first !! 0%nat) = Some (num 600) /\
  User.balance <$> (users_after second !! 0%nat) = Some (num 1100) /\
  body (response second)
  = json (JObj [("status", JStr "success"); ("orderId", JStr "order_9");
                ("newBalance", JNum (num 1100))]).
Proof.
  cbv zeta.
  destruct (verify_payment_replay_credits_twice NumberToString StringToNumber
              Sample.secret) as [_ H].
  destruct (H (Sample.gateway Sample.topup_order) [Sample.alice]
              Sample.confirmation Sample.topup_order Sample.topup_notes
              (JStr "9876543210") "order_9" "pay_7" 0%nat Sample.alice (num 50000)
              ltac:(evaluate) ltac:(evaluate) ltac:(evaluate) ltac:(evaluate)
              ltac:(evaluate) ltac:(evaluate) ltac:(evaluate) ltac:(evaluate)
              ltac:(evaluate) ltac:(evaluate) ltac:(evaluate))
    as (H1 & H2 & _ & _ & H5 & H6 & H7 & _).
  split; [reflexivity | ]. split; [exact H1 | ]. split; [exact H2 | ].
  rewrite H5, H6, H7.
  repeat (match goal with |- _ /\ _ => split end); evaluate.
Defined.

(** C5 at a balance of 100: a product at 60 leaves 40, one at 150 is
    refused. *)
Lemma buy_product_witness :
  let r := buy_product NumberToString StringToNumber [Sample.alice] Sample.purchase in
  User.balance <$> (users_after r !! 0%nat) = Some (num 40) /\
  User.hashrate <$> (users_after r !! 0%nat) = Some (Some [Sample.product]) /\
  js_le (num 0) (num 40) = true /\
  buy_product NumberToString StringToNumber [Sample.alice]
    (JObj [("phoneNumber", JStr "9876543210");
           ("productData", JObj [("price", JStr "150")])])
  = reply [Sample.alice] (HTTP 402) (message "Insufficient balance.").
Proof.
  cbv zeta.
  destruct (buy_product_keeps_balance_non_negative NumberToString StringToNumber
              eq_refl [Sample.alice] Sample.purchase (JNum (num 60)) 0%nat Sample.alice
              ltac:(evaluate) ltac:(evaluate) ltac:(evaluate))
    as [_ H].
  destruct (H ltac:(evaluate)) as (P & HP & _ & _ & purchased & Hp & Hu & _).
  injection HP as <-. injection Hp as <-.
  destruct (buy_product_keeps_balance_non_negative NumberToString StringToNumber
              eq_refl [Sample.alice]
              (JObj [("phoneNumber", JStr "9876543210");
                     ("productData", JObj [("price", JStr "150")])])
              (JStr "150") 0%nat Sample.alice
              ltac:(evaluate) ltac:(evaluate) ltac:(evaluate))
    as [H' _].
  rewrite Hu.
  split; [evaluate | ]. split; [evaluate | ]. split; [evaluate | ].
  apply (H' (num 150)); evaluate.
Defined.

(** C7 after one registration: the registered credentials log in. *)
Lemma login_witness :
  let users := users_after (register NumberToString StringToNumber [] Sample.registration) in
  reachable NumberToString StringToNumber Sample.secret Express.res_status users /\
  status (response (login users Sample.credentials)) = HTTP 200.
Proof.
  cbv zeta.
  assert (R : reachable NumberToString StringToNumber Sample.secret Express.res_status
                (users_after (register NumberToString StringToNumber []
                                Sample.registration))).
  { eapply reachable_step; [ | apply step_register].
    apply (reachable_init _ _ _ _ missing). intros data H. discriminate H. }
  split; [exact R | ].
  destruct (login_succeeds_iff NumberToString StringToNumber Sample.secret
              Express.res_status _ Sample.credentials R) as [[_ H] _].
  apply H. exists (with_balance Sample.alice (num 0)).
  split; [ | split; evaluate].
  vm_compute. apply list_elem_of_here.
Defined.







(** C10 at two users: one with a product, one whose record has no purchase
    list. *)
Lemma export_witness :
  status (response (export_users NumberToString
                      [with_hashrate Sample.alice [Sample.product]; Sample.bob]))
  = HTTP 200 /\
  export_users NumberToString [with_hashrate Sample.alice [Sample.product]; Sample.bob]
  = reply [with_hashrate Sample.alice [Sample.product]; Sample.bob] (HTTP 200)
      (xlsx {| columns := [("ID", "id"); ("Phone Number", "phoneNumber");
                           ("Balance", "balance");
                           ("Invitation Code", "invitationCode");
                           ("Purchased Products", "hashrate")];
               rows := [[("id", JNum (num 1));
                         ("phoneNumber", JStr "9876543210");
                         ("balance", JNum (num 100));
                         ("invitationCode", JStr "WELCOME");
                         ("hashrate", JStr "Miner S1")];
                        [("id", JNum (num 2));
                         ("phoneNumber", JStr "9123456780");
                         ("balance", JNum (num 0));
                         ("invitationCode", JStr "FRIEND");
                         ("hashrate", JStr "None")]] |}).
Proof.
  pose proof (export_row_contents NumberToString
                [with_hashrate Sample.alice [Sample.product]; Sample.bob]) as T.
  cbv zeta in T. destruct T as (_ & H & _).
  split; [ | evaluate].
  apply H; [discriminate | | ].
  { intros u Hu. apply elem_of_cons in Hu as [-> | Hu];
      [ | apply list_elem_of_singleton in Hu as ->]; split; reflexivity. }
  intros u products product Hu Hp Hin.
  apply elem_of_cons in Hu as [-> | Hu].
  - injection Hp as <-. apply list_elem_of_singleton in Hin as ->.
    exists (JStr "Miner S1"). split; [reflexivity | discriminate].
  - apply list_elem_of_singleton in Hu as ->. discriminate Hp.
Defined.

(** ** The other routes on the sample data *)

(** X1 at the sample registration on an empty array. *)
Lemma register_creates_account_witness :
  users_after (register NumberToString StringToNumber [] Sample.registration)
  = [with_balance Sample.alice (num 0)].
Proof.
  destruct (register_creates_account NumberToString StringToNumber) as [H _].
  rewrite (H [] Sample.registration "9876543210" "correct horse"
             ltac:(evaluate) ltac:(evaluate) ltac:(evaluate) ltac:(simpl; lia)
             ltac:(evaluate)
             ltac:(intros u Hu; apply elem_of_nil in Hu; contradiction)).
  evaluate.
Defined.

(** X2: the sample user registers, then logs in. *)
Lemma register_then_login_witness :
  status (response
            (login (users_after (register NumberToString StringToNumber []
                                   Sample.registration))
               Sample.credentials))
  = HTTP 200.
Proof.
  destruct (register_then_login NumberToString StringToNumber [] Sample.registration
              Sample.credentials "9876543210" "correct horse"
              ltac:(evaluate) ltac:(evaluate) ltac:(evaluate) ltac:(evaluate))
    as [H _].
  rewrite (H ltac:(evaluate)). reflexivity.
Defined.

(** X3 at a password that is an object: the account is created and cannot be
    used. *)
Lemma register_accepts_password_without_length_witness :
  let req_body :=
    JObj [("phoneNumber", JStr "9876543210");
          ("password", JObj [("pin", JNum (num 1234))]);
          ("invitationCode", JStr "WELCOME")] in
  let r := register NumberToString StringToNumber [Sample.bob] req_body in
  status (response r) = HTTP 201 /\
  status (response (login (users_after r)
                      (JObj [("phoneNumber", JStr "9876543210");
                             ("password", JObj [("pin", JNum (num 1234))])])))
  <> HTTP 200.
Proof.
  cbv zeta.
  destruct (register_accepts_password_without_length NumberToString StringToNumber
              [Sample.bob]
              (JObj [("phoneNumber", JStr "9876543210");
                     ("password", JObj [("pin", JNum (num 1234))]);
                     ("invitationCode", JStr "WELCOME")])
              "9876543210"
              ltac:(evaluate) ltac:(evaluate) ltac:(evaluate) ltac:(evaluate)
              ltac:(evaluate)
              ltac:(intros u Hu; apply list_elem_of_singleton in Hu as ->; discriminate))
    as (H1 & _ & H3).
  split; [exact H1 | ].
  apply H3; [eexists; evaluate | evaluate].
Defined.

(** X4 at a change of the sample user's password. *)
Lemma update_profile_replaces_password_witness :
  users_after
    (update_profile NumberToString StringToNumber [Sample.alice]
       (JObj [("phoneNumber", JStr "9876543210");
              ("currentPassword", JStr "correct horse");
              ("newPassword", JStr "battery staple")]))
  = [with_password Sample.alice (JStr "battery staple")].
Proof.
  destruct (update_profile_replaces_password NumberToString StringToNumber) as [H _].
  destruct (H [Sample.alice]
              (JObj [("phoneNumber", JStr "9876543210");
                     ("currentPassword", JStr "correct horse");
                     ("newPassword", JStr "battery staple")])
              "9876543210" "correct horse" "battery staple" 0%nat Sample.alice
              ltac:(evaluate) ltac:(evaluate) ltac:(evaluate) ltac:(evaluate)
              ltac:(evaluate) ltac:(simpl; lia) ltac:(evaluate))
    as [Hok _].
  rewrite (Hok eq_refl). reflexivity.
Defined.

(** X5: after that change the new password logs in and the old one does
    not. *)
Lemma update_profile_then_login_witness :
  let users' :=
    users_after
      (update_profile NumberToString StringToNumber [Sample.alice]
         (JObj [("phoneNumber", JStr "9876543210");
                ("currentPassword", JStr "correct horse");
                ("newPassword", JStr "battery staple")])) in
  status (response
            (login users' (JObj [("phoneNumber", JStr "9876543210");
                                 ("password", JStr "battery staple")])))
  = HTTP 200 /\
  status (response (login users' Sample.credentials)) = HTTP 401.
Proof.
  cbv zeta.
  pose proof (fun credentials =>
    update_profile_then_login NumberToString StringToNumber [Sample.alice]
      (JObj [("phoneNumber", JStr "9876543210");
             ("currentPassword", JStr "correct horse");
             ("newPassword", JStr "battery staple")])
      credentials "9876543210" "correct horse" "battery staple"
      ltac:(evaluate) ltac:(evaluate) ltac:(evaluate) ltac:(evaluate)) as T.
  split.
  - destruct (T (JObj [("phoneNumber", JStr "9876543210");
                       ("password", JStr "battery staple")]) ltac:(evaluate))
      as [H _].
    apply H. evaluate.
  - destruct (T Sample.credentials ltac:(evaluate)) as [_ H].
    rewrite (H ltac:(evaluate) ltac:(evaluate)). reflexivity.
Defined.

(** X6 at a request without [productData], at a price that is an object with
    a property [toString] and at a price of zero. *)
Lemma buy_product_rejections_witness :
  buy_product NumberToString StringToNumber [Sample.alice]
    (JObj [("phoneNumber", JStr "9876543210")])
  = reply [Sample.alice] (HTTP 500) error_page /\
  buy_product NumberToString StringToNumber [Sample.alice]
    (JObj [("phoneNumber", JStr "9876543210");
           ("productData", JObj [("price", JObj [("toString", JNum (num 1))])])])
  = reply [Sample.alice] (HTTP 500) error_page /\
  buy_product NumberToString StringToNumber [Sample.alice]
    (JObj [("phoneNumber", JStr "9876543210");
           ("productData", JObj [("price", JStr "0")])])
  = reply [Sample.alice] (HTTP 400)
      (message "Valid phone number and product data are required.").
Proof.
  split; [ | split].
  - destruct (buy_product_rejections NumberToString StringToNumber [Sample.alice]
                (JObj [("phoneNumber", JStr "9876543210")])) as [H _].
    apply H. evaluate.
  - destruct (buy_product_rejections NumberToString StringToNumber [Sample.alice]
                (JObj [("phoneNumber", JStr "9876543210");
                       ("productData",
                        JObj [("price", JObj [("toString", JNum (num 1))])])]))
      as (_ & H & _).
    apply (H (JObj [("toString", JNum (num 1))])); evaluate.
  - destruct (buy_product_rejections NumberToString StringToNumber [Sample.alice]
                (JObj [("phoneNumber", JStr "9876543210");
                       ("productData", JObj [("price", JStr "0")])]))
      as (_ & _ & H & _).
    destruct (H (JStr "0") (num 0) ltac:(evaluate) ltac:(evaluate)) as [H400 _].
    apply H400. right. right. right. evaluate.
Defined.

(** X7 at a product priced at the sample user's whole balance. *)
Lemma buy_product_at_exact_balance_witness :
  users_after
    (buy_product NumberToString StringToNumber [Sample.alice]
       (JObj [("phoneNumber", JStr "9876543210");
              ("productData", JObj [("name", JStr "Miner S2");
                                    ("price", JStr "100")])]))
  = [with_hashrate (with_balance Sample.alice (num 0))
       [JObj [("name", JStr "Miner S2"); ("price", JStr "100")]]].
Proof.
  rewrite (buy_product_at_exact_balance NumberToString StringToNumber [Sample.alice]
             (JObj [("phoneNumber", JStr "9876543210");
                    ("productData", JObj [("name", JStr "Miner S2");
                                          ("price", JStr "100")])])
             (JStr "100") 0%nat Sample.alice [] 7036874417766400 (-46)
             ltac:(evaluate) ltac:(evaluate) ltac:(evaluate) ltac:(evaluate)
             ltac:(evaluate) ltac:(evaluate) ltac:(evaluate)).
  reflexivity.
Defined.

(** X8 at a record without a purchase list that holds 100: a product at 60
    is not delivered and 40 are left in memory. *)
Lemma buy_product_without_purchase_list_witness :
  buy_product NumberToString StringToNumber [with_balance Sample.bob (num 100)]
    (JObj [("phoneNumber", JStr "9123456780"); ("productData", Sample.product)])
  = reply [with_balance Sample.bob (num 40)] (HTTP 500) error_page.
Proof.
  destruct (buy_product_without_purchase_list NumberToString StringToNumber
              [with_balance Sample.bob (num 100)]
              (JObj [("phoneNumber", JStr "9123456780");
                     ("productData", Sample.product)])
              (JNum (num 60)) 0%nat (with_balance Sample.bob (num 100)) (num 60)
              ltac:(evaluate) ltac:(evaluate) ltac:(evaluate) ltac:(evaluate)
              ltac:(evaluate) ltac:(evaluate) ltac:(evaluate) ltac:(evaluate)
              ltac:(evaluate))
    as [H _].
  rewrite H. evaluate.
Defined.

(** X9: the sample purchase shows in the sample user's list. *)
Lemma get_hashrate_after_purchase_witness :
  get_hashrate
    (users_after (buy_product NumberToString StringToNumber [Sample.alice]
                    Sample.purchase))
    (JObj [("phoneNumber", JStr "9876543210")])
  = reply [with_hashrate (with_balance Sample.alice (num 40)) [Sample.product]]
      (HTTP 200) (json (JObj [("hashrate", JArr [Sample.product])])).
Proof.
  destruct (get_hashrate_after_purchase NumberToString StringToNumber [Sample.alice]
              Sample.purchase (JObj [("phoneNumber", JStr "9876543210")])
              "9876543210" ltac:(evaluate) ltac:(evaluate) ltac:(evaluate))
    as (i & user & purchased & Hfind & Hlist & _ & H).
  assert (E : (i, user) = (0%nat, Sample.alice)).
  { assert (F : find_user [Sample.alice] (JStr "9876543210")
                = Some (0%nat, Sample.alice)) by evaluate.
    rewrite F in Hfind. injection Hfind as <- <-. reflexivity. }
  injection E as -> ->. injection Hlist as <-.
  rewrite H. evaluate.
Defined.

(** X10 at an order for a product whose notes try to name another phone
    number: the notes sent name the phone number of the request and keep the
    purchase type. *)
Lemma create_order_sends_notes_witness :
  exists options sent,
    effects (create_order NumberToString StringToNumber Express.res_status
               (Sample.gateway Sample.product_order) (num 1700000000000)
               [Sample.alice]
               (JObj [("amount", JNum (num 500)); ("currency", JStr "INR");
                      ("phoneNumber", JStr "9876543210");
                      ("notes", JObj [("phoneNumber", JStr "9123456780");
                                      ("purchaseType", JStr "product")])]))
    = [orders_create options] /\
    get options "notes" = Some sent /\
    get sent "phoneNumber" = Some (JStr "9876543210") /\
    get sent "purchaseType" = Some (JStr "product").
Proof.
  set (req_body := JObj [("amount", JNum (num 500)); ("currency", JStr "INR");
                         ("phoneNumber", JStr "9876543210");
                         ("notes", JObj [("phoneNumber", JStr "9123456780");
                                         ("purchaseType", JStr "product")])]).
  set (r := create_order NumberToString StringToNumber Express.res_status
              (Sample.gateway Sample.product_order) (num 1700000000000)
              [Sample.alice] req_body).
  set (options := sent_options (nth 0 (effects r) (writeFile []))).
  assert (E : effects r = [orders_create options]) by evaluate.
  destruct (create_order_sends_notes NumberToString StringToNumber Express.res_status
              (Sample.gateway Sample.product_order) (num 1700000000000)
              [Sample.alice] req_body options)
    as (_ & sent & Hsent & Hobj & _).
  { fold r. rewrite E. apply list_elem_of_here. }
  destruct Hobj as (Hphone & _ & Hothers & _).
  { right. eexists. evaluate. }
  exists options, sent. split; [exact E | ]. split; [exact Hsent | ].
  split; [exact Hphone | ].
  rewrite (Hothers "purchaseType" ltac:(discriminate) ltac:(discriminate)).
  evaluate.
Defined.

(** X11 at an amount of 0.004: the order is created for 0. *)
Lemma create_order_amount_not_negative_witness :
  exists options,
    effects (create_order NumberToString StringToNumber Express.res_status
               (Sample.gateway Sample.topup_order) (num 1700000000000)
               [Sample.alice]
               (JObj [("amount", JStr "0.004"); ("currency", JStr "INR");
                      ("phoneNumber", JStr "9876543210")]))
    = [orders_create options] /\
    get options "amount" = Some (JNum (num 0)).
Proof.
  set (req_body := JObj [("amount", JStr "0.004"); ("currency", JStr "INR");
                         ("phoneNumber", JStr "9876543210")]).
  set (r := create_order NumberToString StringToNumber Express.res_status
              (Sample.gateway Sample.topup_order) (num 1700000000000)
              [Sample.alice] req_body).
  set (options := sent_options (nth 0 (effects r) (writeFile []))).
  assert (E : effects r = [orders_create options]) by evaluate.
  destruct (create_order_amount_not_negative NumberToString StringToNumber
              Express.res_status
              (Sample.gateway Sample.topup_order) (num 1700000000000)
              [Sample.alice] req_body options)
    as (A & HA & Hsent & _).
  { fold r. rewrite E. apply list_elem_of_here. }
  assert (HA' : to_number NumberToString StringToNumber (field req_body "amount")
                = Some (StringToNumber "0.004")) by reflexivity.
  rewrite HA' in HA. injection HA as <-.
  exists options. split; [exact E | ]. rewrite Hsent. evaluate.
Defined.

(** X12 at a gateway that rejects the order with a description: without a
    status code the answer is 400, with the code 502 it is 502, and with the
    code 1000, which Express 5 refuses, nothing is answered. *)
Lemma create_order_relays_gateway_witness :
  let razorpay (error : list (string * JsVal)) :=
    {| create := fun _ =>
         rejected (JObj (("error", JObj [("code", JStr "BAD_REQUEST_ERROR");
                                         ("description",
                                          JStr "Currency is not supported")])
                         :: error));
       fetch := fun _ => rejected JNull |} in
  let answer (error : list (string * JsVal)) :=
    response (create_order NumberToString StringToNumber Express.res_status
                (razorpay error) (num 1700000000000) [Sample.alice]
                (JObj [("amount", JNum (num 500)); ("currency", JStr "XXX");
                       ("phoneNumber", JStr "9876543210")])) in
  let relayed :=
    json (JObj [("error", JStr "Payment Gateway Error");
                ("message", JStr "Currency is not supported")]) in
  answer [] = {| status := HTTP 400; body := relayed |} /\
  answer [("statusCode", HTTP 502)] = {| status := HTTP 502; body := relayed |} /\
  answer [("statusCode", HTTP 1000)] = {| status := JUndefined; body := nothing |}.
Proof.
  cbv zeta.
  set (req_body := JObj [("amount", JNum (num 500)); ("currency", JStr "XXX");
                         ("phoneNumber", JStr "9876543210")]).
  pose proof (fun error =>
    let razorpay :=
      {| create := fun _ =>
           rejected (JObj (("error", JObj [("code", JStr "BAD_REQUEST_ERROR");
                                           ("description",
                                            JStr "Currency is not supported")])
                           :: error));
         fetch := fun _ => rejected JNull |} in
    let r := create_order NumberToString StringToNumber Express.res_status razorpay
               (num 1700000000000) [Sample.alice] req_body in
    proj1 (proj2 (proj2
      (create_order_relays_gateway NumberToString StringToNumber Express.res_status
         Express_res_status_integer razorpay (num 1700000000000) [Sample.alice]
         req_body (sent_options (nth 0 (effects r) (writeFile [])))
         ltac:(evaluate))))
      _ _ _ eq_refl eq_refl eq_refl eq_refl) as T.
  cbv zeta in T.
  split; [ | split].
  - destruct (T []) as (_ & _ & H & _). apply H. evaluate.
  - destruct (T [("statusCode", HTTP 502)]) as (_ & _ & _ & H).
    apply (H 502); [lia | reflexivity].
  - destruct (T [("statusCode", HTTP 1000)]) as (_ & H & _). apply H. evaluate.
Defined.

(** X13 at the sample confirmation when the gateway cannot be reached. *)
Lemma verify_payment_failures_witness :
  let razorpay := {| create := fun _ => rejected JNull;
                     fetch := fun _ => rejected JNull |} in
  let r := verify_payment NumberToString StringToNumber Sample.secret razorpay
             [Sample.alice] Sample.confirmation in
  response r
  = {| status := HTTP 500;
       body := json (JObj [("status", JStr "failure");
                           ("message", JStr "Could not update user balance.")]) |} /\
  users_after r = [Sample.alice] /\
  effects r = [orders_fetch (JStr "order_9")].
Proof.
  cbv zeta.
  set (razorpay := {| create := _; fetch := _ |}).
  pose proof (verify_payment_failures NumberToString StringToNumber Sample.secret
                razorpay [Sample.alice] Sample.confirmation "order_9" "pay_7"
                ltac:(evaluate) ltac:(evaluate) ltac:(evaluate) ltac:(evaluate)
                ltac:(evaluate)) as T.
  cbv zeta in T. destruct T as (Hrejected & _).
  exact (Hrejected JNull eq_refl).
Defined.

(** X14 at an order fetched without its amount. *)
Lemma verified_topup_without_amount_witness :
  let order := JObj [("id", JStr "order_9"); ("notes", Sample.topup_notes)] in
  let r := verify_payment NumberToString StringToNumber Sample.secret
             (Sample.gateway order) [Sample.alice] Sample.confirmation in
  status (response r) = HTTP 200 /\
  User.balance <$> (users_after r !! 0%nat) = Some NaN /\
  effects r = [orders_fetch (JStr "order_9");
               writeFile [with_balance Sample.alice NaN]].
Proof.
  cbv zeta.
  pose proof (verified_topup_without_amount NumberToString StringToNumber Sample.secret
                (Sample.gateway (JObj [("id", JStr "order_9");
                                       ("notes", Sample.topup_notes)]))
                [Sample.alice] Sample.confirmation
                (JObj [("id", JStr "order_9"); ("notes", Sample.topup_notes)])
                Sample.topup_notes (JStr "9876543210") "order_9" "pay_7"
                0%nat Sample.alice NaN
                ltac:(evaluate) ltac:(evaluate) ltac:(evaluate) ltac:(evaluate)
                ltac:(evaluate) ltac:(evaluate) ltac:(evaluate) ltac:(evaluate)
                ltac:(evaluate) ltac:(evaluate) ltac:(evaluate) ltac:(evaluate)) as T.
  cbv zeta in T. destruct T as (Hr & Hb & _).
  rewrite Hb, Hr. repeat (match goal with |- _ /\ _ => split end); reflexivity.
Defined.

(** X15 at a signature in upper case. *)
Lemma signature_is_64_hex_digits_witness :
  status (response
            (verify_payment NumberToString StringToNumber Sample.secret
               (Sample.gateway Sample.topup_order) [Sample.alice]
               (JObj [("razorpay_order_id", JStr "order_9");
                      ("razorpay_payment_id", JStr "pay_7");
                      ("razorpay_signature",
                       JStr "3E6C3D23A4C1F8B0E5D7A9C2B4F6081A3E6C3D23A4C1F8B0E5D7A9C2B4F6081A")])))
  = HTTP 400.
Proof.
  destruct (signature_is_64_hex_digits NumberToString StringToNumber Sample.secret
              (Sample.gateway Sample.topup_order) [Sample.alice]
              (JObj [("razorpay_order_id", JStr "order_9");
                     ("razorpay_payment_id", JStr "pay_7");
                     ("razorpay_signature",
                      JStr "3E6C3D23A4C1F8B0E5D7A9C2B4F6081A3E6C3D23A4C1F8B0E5D7A9C2B4F6081A")])
              "3E6C3D23A4C1F8B0E5D7A9C2B4F6081A3E6C3D23A4C1F8B0E5D7A9C2B4F6081A")
    as [_ H].
  destruct (H eq_refl) as (_ & _ & _ & Hs); [right; evaluate | ].
  apply Hs; evaluate.
Defined.

(** X18 at a server started without a file that handles a registration, a
    purchase and a login. *)
Lemma identifiers_are_sequential_witness :
  let calls :=
    [(Sample.gateway Sample.topup_order, num 1700000000000,
      POST_register Sample.registration);
     (Sample.gateway Sample.topup_order, num 1700000000001,
      POST_buy_product Sample.purchase);
     (Sample.gateway Sample.topup_order, num 1700000000002,
      POST_login Sample.credentials)] in
  User.id <$> (memory (serve NumberToString StringToNumber Sample.secret
                         Express.res_status "rzp_test_key"
                         (boot missing) calls) !! 0%nat)
  = Some 1.
Proof.
  intros calls.
  destruct (identifiers_are_sequential NumberToString StringToNumber Sample.secret
              Express.res_status "rzp_test_key") as [_ H].
  destruct (H missing calls ltac:(discriminate)) as [Hid _].
  destruct (memory _ !! 0%nat) as [u | ] eqn:E.
  - destruct (Hid 0%nat u E) as [Hu _]. cbn [fmap option_fmap option_map].
    rewrite Hu. reflexivity.
  - vm_compute in E. discriminate E.
Defined.

(** X19 at a server started without a file that handles a registration and a
    purchase the balance cannot pay. *)
Lemma file_mirrors_memory_witness :
  let calls :=
    [(Sample.gateway Sample.topup_order, num 1700000000000,
      POST_register Sample.registration);
     (Sample.gateway Sample.topup_order, num 1700000000001,
      POST_buy_product Sample.purchase)] in
  saved (serve NumberToString StringToNumber Sample.secret Express.res_status
           "rzp_test_key" (boot missing) calls)
  = Some [with_balance Sample.alice (num 0)].
Proof.
  cbv zeta.
  destruct (file_mirrors_memory NumberToString StringToNumber Sample.secret
              Express.res_status "rzp_test_key") as [_ H].
  rewrite H. evaluate.
Defined.

(** X22 after one registration: the export answers 200. *)
Lemma export_users_failures_witness :
  status (response
            (export_users NumberToString
               (memory (serve NumberToString StringToNumber Sample.secret
                          Express.res_status "rzp_test_key" (boot missing)
                          [(Sample.gateway Sample.topup_order, num 1700000000000,
                            POST_register Sample.registration)]))))
  = HTTP 200.
Proof.
  destruct (export_users_failures NumberToString StringToNumber Sample.secret
              Express.res_status "rzp_test_key") as [_ H].
  pose proof (H missing
                [(Sample.gateway Sample.topup_order, num 1700000000000,
                  POST_register Sample.registration)] ltac:(discriminate)) as T.
  cbv zeta in T. destruct T as (_ & T).
  destruct T as (Hsome & Hiff).
  { intros u Hu. vm_compute in Hu. apply list_elem_of_singleton in Hu as ->.
    split; reflexivity. }
  destruct (Hsome ltac:(evaluate)) as [H200 | H500]; [exact H200 | ].
  apply Hiff in H500. destruct H500 as (u & products & product & Hu & Hlist & Hin & _).
  vm_compute in Hu. apply list_elem_of_singleton in Hu. subst u.
  injection Hlist as <-. apply elem_of_nil in Hin. contradiction.
Defined.

(** X16 at the sample confirmation with its product, sent twice. *)
Lemma verified_product_replay_appends_twice_witness :
  let first := verify_payment NumberToString StringToNumber Sample.secret
                 (Sample.gateway Sample.product_order) [Sample.alice]
                 Sample.confirmation_with_product in
  let second := verify_payment NumberToString StringToNumber Sample.secret
                  (Sample.gateway Sample.product_order) (users_after first)
                  Sample.confirmation_with_product in
  status (response first) = HTTP 200 /\ status (response second) = HTTP 200 /\
  User.hashrate <$> (users_after second !! 0%nat)
  = Some (Some [Sample.product; Sample.product]).
Proof.
  cbv zeta.
  destruct (verified_product_replay_appends_twice NumberToString StringToNumber
              Sample.secret (Sample.gateway Sample.product_order) [Sample.alice]
              Sample.confirmation_with_product Sample.product_order
              Sample.product_notes (JStr "9876543210") "order_9" "pay_7"
              0%nat Sample.alice []
              ltac:(evaluate) ltac:(evaluate) ltac:(evaluate) ltac:(evaluate)
              ltac:(evaluate) ltac:(evaluate) ltac:(evaluate) ltac:(evaluate)
              ltac:(evaluate) ltac:(evaluate) ltac:(evaluate) ltac:(evaluate))
    as (_ & _ & _ & H & _ & _ & Hok & _).
  destruct (Hok ltac:(evaluate)) as [H1 H2].
  split; [exact H1 | ]. split; [exact H2 | ]. rewrite H. reflexivity.
Defined.

(** X23 at the sample purchase: 60 out of 100 leaves 40. *)
Lemma buy_product_whole_amounts_witness :
  users_after (buy_product NumberToString StringToNumber [Sample.alice] Sample.purchase)
  = [with_hashrate (with_balance Sample.alice (num 40)) [Sample.product]].
Proof.
  destruct (buy_product_whole_amounts NumberToString StringToNumber [Sample.alice]
              Sample.purchase (JNum (num 60)) 0%nat Sample.alice [] 100 60
              ltac:(evaluate) ltac:(evaluate) ltac:(evaluate) ltac:(evaluate)
              ltac:(evaluate) ltac:(evaluate) ltac:(evaluate)
              ltac:(split; [lia | reflexivity]) ltac:(split; [lia | reflexivity]))
    as [H _].
  rewrite (H ltac:(lia)). reflexivity.
Defined.

(** X24 at a top-up of 500 by the sample user, who holds 100: the order is
    created for 50000 and the confirmation leaves 600. *)
Lemma whole_top_up_round_trip_witness :
  let r := verify_payment NumberToString StringToNumber Sample.secret
             (Sample.gateway Sample.topup_order) [Sample.alice]
             Sample.confirmation in
  status (response r) = HTTP 200 /\
  User.balance <$> (users_after r !! 0%nat) = Some (num 600).
Proof.
  cbv zeta.
  set (create_body := JObj [("amount", JStr "500"); ("currency", JStr "INR");
                            ("phoneNumber", JStr "9876543210")]).
  set (r := create_order NumberToString StringToNumber Express.res_status
              (Sample.gateway Sample.topup_order) (num 1700000000000)
              [Sample.alice] create_body).
  set (options := sent_options (nth 0 (effects r) (writeFile []))).
  assert (E : effects r = [orders_create options]) by evaluate.
  pose proof (whole_top_up_round_trip NumberToString StringToNumber Sample.secret
                Express.res_status
                (Sample.gateway Sample.topup_order) (Sample.gateway Sample.topup_order)
                (num 1700000000000) [Sample.alice] [Sample.alice]
                create_body Sample.confirmation options Sample.topup_order
                "order_9" "pay_7" 0%nat Sample.alice 500 100
                ltac:(evaluate) ltac:(evaluate) ltac:(lia) ltac:(reflexivity) E
                ltac:(evaluate) ltac:(evaluate) ltac:(evaluate) ltac:(evaluate)
                ltac:(evaluate) ltac:(evaluate) ltac:(evaluate) ltac:(evaluate)
                ltac:(evaluate) ltac:(evaluate) ltac:(lia) ltac:(reflexivity)) as T.
  cbv zeta in T. destruct T as (_ & Hr & Hb).
  rewrite Hb, Hr. split; reflexivity.
Defined.

(** X21 at a server that holds the two sample users and handles a
    registration of the first one's phone number. *)
Lemma phone_numbers_stay_unique_witness :
  unique_phones
    (memory (serve NumberToString StringToNumber Sample.secret Express.res_status
               "rzp_test_key"
               {| memory := [Sample.alice; Sample.bob];
                  saved := Some [Sample.alice; Sample.bob] |}
               [(Sample.gateway Sample.topup_order, num 1700000000000,
                 POST_register Sample.registration)])).
Proof.
  apply (phone_numbers_stay_unique NumberToString StringToNumber Sample.secret
           Express.res_status "rzp_test_key").
  intros i j u v Hi Hj Heq. cbn [memory] in Hi, Hj.
  destruct i as [ | [ | i]], j as [ | [ | j]]; try reflexivity;
    try discriminate Hi; try discriminate Hj;
    injection Hi as <-; injection Hj as <-; discriminate Heq.
Defined.
